(** * NativeBridge release script ([scripts/release.sh])

    A shallow embedding of the release orchestrator: the version grammar
    checked by [validate_version], the [versionCode] derivation of
    [update_android_version], the [sed]/[jq] descriptor edits, and the
    staged pipeline of [perform_release] and [main] run under [set -e]. *)

From Stdlib Require Import String Ascii List Arith NArith Bool Lia.
Import ListNotations.
Open Scope string_scope.


(** ** Strings *)

Module Str.

(** Every character of [s] satisfies [p]. *)
Fixpoint all (p : ascii -> bool) (s : string) : bool :=
  match s with
  | "" => true
  | String c s' => p c && all p s'
  end.

Definition nonempty (s : string) : bool :=
  match s with "" => false | _ => true end.

(** [strip_prefix lit s] is [Some rest] when [s = lit ++ rest]. *)
Fixpoint strip_prefix (lit s : string) : option string :=
  match lit, s with
  | "", _ => Some s
  | String a lit', String b s' =>
      if Ascii.eqb a b then strip_prefix lit' s' else None
  | String _ _, "" => None
  end.

(** [s] starts with [l]. *)
Definition is_prefix (l s : string) : bool :=
  match strip_prefix l s with
  | Some _ => true
  | None => false
  end.

(** [contains lit s]: [lit] occurs somewhere in [s] ([grep] on one line). *)
Fixpoint contains (lit s : string) : bool :=
  match strip_prefix lit s with
  | Some _ => true
  | None => match s with
            | "" => false
            | String _ s' => contains lit s'
            end
  end.

End Str.

(** ** Regular expressions, as used by bash's [=~]

    [[[ $version =~ re ]]] succeeds when the POSIX extended regular
    expression matches; the expression of [validate_version] is anchored
    with [^] and [$], so it has to match the whole string. *)

Module Regex.

Inductive regex : Type :=
| Void
| Eps
| Class (p : ascii -> bool)
| Cat (r1 r2 : regex)
| Alt (r1 r2 : regex)
| Star (r : regex).

(** [r+] and [r?] *)
Definition Plus (r : regex) : regex := Cat r (Star r).
Definition Opt (r : regex) : regex := Alt r Eps.
Definition Chr (c : ascii) : regex := Class (Ascii.eqb c).

Fixpoint nullable (r : regex) : bool :=
  match r with
  | Void => false
  | Eps => true
  | Class _ => false
  | Cat r1 r2 => nullable r1 && nullable r2
  | Alt r1 r2 => nullable r1 || nullable r2
  | Star _ => true
  end.

Fixpoint deriv (c : ascii) (r : regex) : regex :=
  match r with
  | Void => Void
  | Eps => Void
  | Class p => if p c then Eps else Void
  | Cat r1 r2 =>
      if nullable r1 then Alt (Cat (deriv c r1) r2) (deriv c r2)
      else Cat (deriv c r1) r2
  | Alt r1 r2 => Alt (deriv c r1) (deriv c r2)
  | Star r1 => Cat (deriv c r1) (Star r1)
  end.

(** Whole-string match. *)
Fixpoint matches (r : regex) (s : string) : bool :=
  match s with
  | "" => nullable r
  | String c s' => matches (deriv c r) s'
  end.

(** The language of an expression. *)
Inductive lang : regex -> string -> Prop :=
| L_eps : lang Eps ""
| L_class p c : p c = true -> lang (Class p) (String c "")
| L_cat r1 r2 s1 s2 : lang r1 s1 -> lang r2 s2 -> lang (Cat r1 r2) (s1 ++ s2)
| L_alt_l r1 r2 s : lang r1 s -> lang (Alt r1 r2) s
| L_alt_r r1 r2 s : lang r2 s -> lang (Alt r1 r2) s
| L_star_nil r : lang (Star r) ""
| L_star_app r s1 s2 : lang r s1 -> lang (Star r) s2 -> lang (Star r) (s1 ++ s2).

End Regex.

(** ** Decimal numerals *)

Module Dec.

Open Scope N_scope.

Definition is_digit (c : ascii) : bool :=
  (48 <=? N_of_ascii c) && (N_of_ascii c <=? 57).

Definition digit_val (c : ascii) : N := N_of_ascii c - 48.

Definition digit_char (d : N) : ascii := ascii_of_N (48 + d).

(** Value of the leading decimal digits of a string, the conversion
    [awk] applies to a field used as a number ([strtod] restricted to
    what a validated version can hold: unsigned digit runs). *)
Fixpoint value_acc (acc : N) (s : string) : N :=
  match s with
  | String c s' =>
      if is_digit c then value_acc (10 * acc + digit_val c) s' else acc
  | EmptyString => acc
  end.

Definition value (s : string) : N := value_acc 0 s.

(** A non-empty run of digits, [[0-9]+]. *)
Definition numeral (s : string) : bool := Str.nonempty s && Str.all is_digit s.

(** Digits of [n], least significant first, pushed in front of [acc]. *)
Fixpoint digits (fuel : nat) (n : N) (acc : string) : string :=
  match fuel with
  | O => acc
  | S fuel' =>
      let acc' := String (digit_char (n mod 10)) acc in
      if n <? 10 then acc' else digits fuel' (n / 10) acc'
  end.

(** [printf "%d"] on a non-negative integer. *)
Definition fmt_d (n : N) : string := digits (S (N.to_nat (N.size n))) n "".

(** [printf "%02d"]: zero-padded to a minimum width of two; a wider number
    is printed in full. *)
Definition fmt_02d (n : N) : string :=
  let d := fmt_d n in
  if Nat.ltb (String.length d) 2 then ("0" ++ d)%string else d.

(** The largest [int] of C. *)
Definition max_int : N := 2147483647.

(** What [awk] hands to [%d]: the field, held as a double, converted to
    an integer of C. A value that fits an [int] is printed as it is by
    every [awk]; on a larger one the implementations differ. The
    embedding follows [mawk], which prints the largest [int] instead. *)
Definition d_to_int (n : N) : N := N.min n max_int.

End Dec.

(** ** The version grammar and the Android version code *)

Module Version.

Import Regex.

(** The bracket expression [[a-zA-Z0-9.]] (in the C locale). *)
Definition is_label_char (c : ascii) : bool :=
  let n := N_of_ascii c in
  ((97 <=? n) && (n <=? 122))%N || ((65 <=? n) && (n <=? 90))%N
  || Dec.is_digit c || Ascii.eqb c ".".

(** The characters a validated version can hold. *)
Definition is_version_char (c : ascii) : bool := is_label_char c || Ascii.eqb c "-".

(** None of them is a space. *)
Definition not_space (c : ascii) : bool := negb (Ascii.eqb c " ").

(** [^[0-9]+\.[0-9]+\.[0-9]+(-[a-zA-Z0-9.]+)?$] *)
Definition semver_re : regex :=
  Cat (Plus (Class Dec.is_digit))
   (Cat (Chr ".")
    (Cat (Plus (Class Dec.is_digit))
     (Cat (Chr ".")
      (Cat (Plus (Class Dec.is_digit))
           (Opt (Cat (Chr "-") (Plus (Class is_label_char)))))))).

(** The test of [validate_version]: [[[ $version =~ ... ]]]. *)
Definition semver_match (version : string) : bool := matches semver_re version.

Definition label_suffix (label : option string) : string :=
  match label with
  | Some l => "-" ++ l
  | None => ""
  end.

Definition version_string (M m p : string) (label : option string) : string :=
  M ++ "." ++ m ++ "." ++ p ++ label_suffix label.

Definition label_ok (label : option string) : bool :=
  match label with
  | Some l => Str.nonempty l && Str.all is_label_char l
  | None => true
  end.

(** The strings of the form [MAJOR.MINOR.PATCH[-label]]. *)
Inductive well_formed : string -> Prop :=
| wf_version M m p label :
    Dec.numeral M = true -> Dec.numeral m = true -> Dec.numeral p = true ->
    label_ok label = true ->
    well_formed (version_string M m p label).

(** [sed 's/-.*//']: drop the first dash and all that follows on the line. *)
Fixpoint sed_delete_from_dash (s : string) : string :=
  match s with
  | "" => ""
  | String c s' => if Ascii.eqb c "-" then "" else String c (sed_delete_from_dash s')
  end.

(** [awk -F.]: the fields of a record, cut at each separator character. *)
Fixpoint awk_fields (sep : ascii) (s : string) : list string :=
  match s with
  | "" => [""]
  | String c s' =>
      if Ascii.eqb c sep then "" :: awk_fields sep s'
      else match awk_fields sep s' with
           | f :: fs => String c f :: fs
           | [] => [String c ""]
           end
  end.

(** [$k]; a field past the last one is the empty string. *)
Definition awk_field (k : nat) (fs : list string) : string := nth (k - 1) fs "".

(** [version_code=$(echo "$version" | sed 's/-.*//' |
      awk -F. '{printf "%d%02d%02d", $1, $2, $3}')]

    Each field goes through the integer conversion of [awk] before it is
    printed: a number that does not fit an [int] is not printed as it
    is. *)
Definition version_code (version : string) : string :=
  let fs := awk_fields "." (sed_delete_from_dash version) in
  Dec.fmt_d (Dec.d_to_int (Dec.value (awk_field 1 fs)))
  ++ Dec.fmt_02d (Dec.d_to_int (Dec.value (awk_field 2 fs)))
  ++ Dec.fmt_02d (Dec.d_to_int (Dec.value (awk_field 3 fs))).

(** The version code of [M.m.p[-label]] reads as the number
    [M * 10000 + m * 100 + p], and the version passes validation. *)
Definition encodes_triple (M m p : string) (label : option string) : Prop :=
  let v := version_string M m p label in
  semver_match v = true /\
  Dec.value (version_code v)
  = (Dec.value M * 10000 + Dec.value m * 100 + Dec.value p)%N.

End Version.

(** ** [sed] substitutions on the descriptor files

    A file is the list of its lines. [sed -i "s/PATTERN/REPLACEMENT/"]
    rewrites, on every line, the leftmost longest match of the pattern.
    The three patterns of the script are a fixed text followed by a greedy
    tail. The replacements interpolate [$version] and [$version_code]; a
    validated version holds none of the characters [sed] treats specially
    in a replacement ([&], backslash, slash). *)

Module Sed.

(** The double quote character. *)
Definition dquote : ascii := ascii_of_N 34.

Definition quoted (s : string) : string := String dquote (s ++ String dquote "").

Section Subst.

(** [lit]: the fixed text the pattern starts with; [tail rest]: what is
    left of the line after the longest match of the rest of the pattern
    at the start of [rest], if it matches; [new]: what replaces the part
    matched by the tail (every replacement of the script repeats [lit]). *)
Variable lit : string.
Variable tail : string -> option string.
Variable new : string.

Definition match_here (s : string) : option string :=
  match Str.strip_prefix lit s with
  | Some rest => tail rest
  | None => None
  end.

Fixpoint subst_first (s : string) : string :=
  match match_here s with
  | Some suffix => lit ++ new ++ suffix
  | None =>
      match s with
      | "" => ""
      | String c s' => String c (subst_first s')
      end
  end.

End Subst.

(** Tail [[0-9]*]: the longest run of digits, possibly empty. *)
Fixpoint skip_digits (s : string) : string :=
  match s with
  | String c s' => if Dec.is_digit c then skip_digits s' else s
  | "" => ""
  end.

Definition tail_digits (s : string) : option string := Some (skip_digits s).

(** Tail [.*] followed by a double quote: anything up to the last double
    quote of the line. *)
Fixpoint tail_quoted (s : string) : option string :=
  match s with
  | "" => None
  | String c s' =>
      match tail_quoted s' with
      | Some r => Some r
      | None => if Ascii.eqb c dquote then Some s' else None
      end
  end.

(** Any character but the double quote. *)
Definition not_quote (c : ascii) : bool := negb (Ascii.eqb c dquote).

(** The text that opens the version field of the manifest: the quoted
    word version, a colon, a space and an opening double quote. *)
Definition version_key : string := quoted "version" ++ ": " ++ String dquote "".

(** The substitution of [update_package_json]: the version field, up to
    the last double quote of its line, becomes the field holding [$version]. *)
Definition subst_package_version (version : string) : string -> string :=
  subst_first version_key tail_quoted (version ++ String dquote "").

(** [s/versionCode [0-9]*/versionCode $version_code/] *)
Definition subst_version_code (version_code : string) : string -> string :=
  subst_first "versionCode " tail_digits version_code.

(** [versionName], a space and an opening double quote. *)
Definition version_name_key : string := "versionName " ++ String dquote "".

(** The second substitution of [update_android_version]: the quoted text
    after [versionName], up to the last double quote of the line, becomes
    the quoted [$version]. *)
Definition subst_version_name (version : string) : string -> string :=
  subst_first version_name_key tail_quoted (version ++ String dquote "").

(** What the two [sed] commands of [update_android_version] make of one
    line. *)
Definition bump_gradle_line (version version_code : string) (line : string)
  : string :=
  subst_version_name version (subst_version_code version_code line).

(** A line that does not hold both [versionCode] and [versionName]: the
    fields of the build descriptor are on lines of their own. *)
Definition one_field (line : string) : bool :=
  negb (Str.contains "versionCode " line && Str.contains version_name_key line).

(** [grep] for the quoted word version: the lines holding it. *)
Definition grep_version (lines : list string) : list string :=
  filter (Str.contains (quoted "version")) lines.

End Sed.

(** ** [jq '.version = $version']

    [jq] is an external tool: its reader and printer are taken from the
    environment; the filter itself is modelled on JSON values. An object
    keeps its keys in insertion order. *)

Module Json.

#[local] Unset Elimination Schemes.

Inductive json : Type :=
| JNull
| JBool (b : bool)
| JNum (literal : string)
| JStr (s : string)
| JArr (items : list json)
| JObj (fields : list (string * json)).

#[local] Set Elimination Schemes.

(** Set a key of an object: an existing key keeps its place, a new key
    goes last. *)
Fixpoint obj_set (k : string) (v : json) (fields : list (string * json))
  : list (string * json) :=
  match fields with
  | [] => [(k, v)]
  | (k', v') :: rest =>
      if String.eqb k' k then (k, v) :: rest else (k', v') :: obj_set k v rest
  end.

(** [.version = $version]: defined on objects and on [null]; on any other
    value [jq] stops with an error (status 5). *)
Definition assign_version (version : string) (j : json) : option json :=
  match j with
  | JObj fields => Some (JObj (obj_set "version" (JStr version) fields))
  | JNull => Some (JObj [("version", JStr version)])
  | _ => None
  end.

End Json.

(** ** The release script *)

Module Release.

Import Json.

Definition nl : string := String (ascii_of_N 10) "".

(** *** The environment the script runs in

    What the external commands answer: [command -v], [jq], [git], [npm],
    [./gradlew], [date]. A status is the exit status of the command; [0]
    is success. The queries [git status -s] and [git branch --show-current]
    are taken to succeed inside a repository, and so are [cd], [mktemp],
    [mv] and [sed -i]: the project directories and the two descriptor
    files exist and can be written. *)
Record env : Type := {
  OSTYPE_darwin : bool;
  has_git : bool;
  has_node : bool;
  has_jq : bool;
  jq_parse : list string -> option json;
  jq_print : json -> list string;
  in_git_repo : bool;             (* [git rev-parse --git-dir] *)
  git_status : list string;       (* the lines of [git status -s] *)
  git_branch : string;            (* [git branch --show-current] *)
  git_head_short : string;        (* [git rev-parse --short HEAD] *)
  resolves_otherwise : string -> bool;
    (* [git rev-parse NAME] on a name that is neither a tag nor a branch of
       the repository: a path in the working directory, another ref, an
       object name, a name as [git describe] prints them *)
  origin_path : string;           (* [remote.origin.url], host and [.git] cut *)
  date : string;
  npm_test : N;
  gradlew : N;
  git_add : N;
  git_commit : N;
  git_tag : N;
  git_push_branch : N;
  git_push_tag : N
}.

(** *** The working tree and the repositories *)

Record commit : Type := {
  message : string;
  c_package_json : list string;
  c_build_gradle : list string
}.

Record tag : Type := {
  tag_name : string;
  annotation : string;
  target : commit
}.

Record world : Type := {
  package_json : list string;           (* [$PACKAGE_JSON], by lines *)
  build_gradle : list string;           (* [$ANDROID_BUILD_GRADLE], by lines *)
  staged : option (list string * list string);   (* the index, if [git add] ran *)
  commits : list commit;                (* local history, newest first *)
  tags : list tag;                      (* local tags *)
  heads : list string;                  (* local branch names *)
  remote_branches : list (string * list commit);
  remote_tags : list tag
}.

(** [git rev-parse NAME] succeeds when the name resolves: to a tag, to a
    branch, or to anything else [git] takes the name for. *)
Definition rev_parse (e : env) (w : world) (name : string) : bool :=
  existsb (String.eqb name) (map tag_name (tags w))
  || existsb (String.eqb name) (heads w)
  || resolves_otherwise e name.

(** *** Output and executed commands *)

Inductive msg : Type :=
| Echo (s : string)
| Err (s : string)        (* [print_error] *)
| Warn (s : string)       (* [print_warning] *)
| Info (s : string)       (* [print_info] *)
| Success (s : string)    (* [print_success] *)
| Step (s : string)       (* [print_step] *)
| Prompt (s : string).    (* [read -p] *)

Inductive file : Type := PackageJson | BuildGradle.

(** The commands that write to the working tree, verify it, or publish. *)
Inductive step : Type :=
| WriteFile (f : file)
| NpmTest
| Gradlew
| GitAdd
| GitCommit
| GitTag
| GitPushBranch
| GitPushTag.

(** A command that was run, with its exit status. *)
Definition event : Type := (step * N)%type.

(** *** Shell state *)

Record state : Type := {
  w : world;
  out : list msg;                 (* what was printed, in order *)
  trace : list event;             (* the commands run, in order *)
  stdin : list string;            (* what the next [read]s will put in [REPLY] *)
  USE_JQ : bool;
  CURRENT_BRANCH : string
}.

Definition set_w (f : world -> world) (s : state) : state :=
  {| w := f (w s); out := out s; trace := trace s; stdin := stdin s;
     USE_JQ := USE_JQ s; CURRENT_BRANCH := CURRENT_BRANCH s |}.

(** The globals [main] sets from the command line; nothing assigns them
    afterwards. *)
Record options : Type := {
  VERSION : string;
  SKIP_TESTS : bool;
  SKIP_BUILD : bool;
  PRERELEASE : bool;
  DRY_RUN : bool;
  FORCE : bool
}.

(** The places where the script ends before its last line: an explicit
    [exit], or a failing command under [set -e]. *)
Inductive site : Type :=
| HelpRequested
| UnknownOption
| MultipleVersions
| VersionRequired
| InvalidVersion
| MissingDependencies
| NotAGitRepository
| AbortedByUser
| ReadFailed
| TagExists
| ReleaseCancelled
| DryRunCompleted
| JqFailed
| GrepFailed
| TestsFailed
| BuildFailed
| GitAddFailed
| GitCommitFailed
| GitTagFailed
| GitPushBranchFailed
| GitPushTagFailed.

Inductive result (A : Type) : Type :=
| Done (a : A) (s : state)
| Exited (code : N) (at_ : site) (s : state).

Arguments Done {A} a s.
Arguments Exited {A} code at_ s.

(** *** The shell monad: state, and [exit] *)

Definition sh (A : Type) : Type := state -> result A.

Definition ret {A : Type} (a : A) : sh A := fun s => Done a s.

Definition bind {A B : Type} (c : sh A) (k : A -> sh B) : sh B :=
  fun s =>
    match c s with
    | Done a s' => k a s'
    | Exited code at_ s' => Exited code at_ s'
    end.

Definition exit {A : Type} (code : N) (at_ : site) : sh A :=
  fun s => Exited code at_ s.

Declare Scope sh_scope.
Delimit Scope sh_scope with sh.
Notation "x <- c1 ;; c2" := (bind c1 (fun x => c2))
  (at level 61, c1 at next level, right associativity) : sh_scope.
Notation "c1 ;; c2" := (bind c1 (fun _ => c2))
  (at level 61, right associativity) : sh_scope.
Open Scope sh_scope.

Definition get {A : Type} (f : state -> A) : sh A := fun s => Done (f s) s.

Definition modify (f : state -> state) : sh unit := fun s => Done tt (f s).

Definition print (m : msg) : sh unit :=
  modify (fun s =>
    {| w := w s; out := out s ++ [m]; trace := trace s; stdin := stdin s;
       USE_JQ := USE_JQ s; CURRENT_BRANCH := CURRENT_BRANCH s |}).

Definition log (st : step) (status : N) : sh unit :=
  modify (fun s =>
    {| w := w s; out := out s; trace := trace s ++ [(st, status)];
       stdin := stdin s; USE_JQ := USE_JQ s;
       CURRENT_BRANCH := CURRENT_BRANCH s |}).

Definition set_USE_JQ (b : bool) : sh unit :=
  modify (fun s =>
    {| w := w s; out := out s; trace := trace s; stdin := stdin s;
       USE_JQ := b; CURRENT_BRANCH := CURRENT_BRANCH s |}).

Definition set_CURRENT_BRANCH (b : string) : sh unit :=
  modify (fun s =>
    {| w := w s; out := out s; trace := trace s; stdin := stdin s;
       USE_JQ := USE_JQ s; CURRENT_BRANCH := b |}).

Definition echo (s : string) : sh unit := print (Echo s).
Definition print_error (s : string) : sh unit := print (Err s).
Definition print_warning (s : string) : sh unit := print (Warn s).
Definition print_info (s : string) : sh unit := print (Info s).
Definition print_success (s : string) : sh unit := print (Success s).
Definition print_step (s : string) : sh unit := print (Step s).

Fixpoint echo_lines (lines : list string) : sh unit :=
  match lines with
  | [] => ret tt
  | l :: rest => echo l ;; echo_lines rest
  end.

(** [read -p PROMPT -n 1 -r]: under [set -e] the script ends with status 1
    when there is no input left. *)
Definition read (prompt : string) : sh string :=
  print (Prompt prompt) ;;
  fun s =>
    match stdin s with
    | [] => Exited 1 ReadFailed s
    | reply :: rest =>
        Done reply
          {| w := w s; out := out s; trace := trace s; stdin := rest;
             USE_JQ := USE_JQ s; CURRENT_BRANCH := CURRENT_BRANCH s |}
    end.

(** [[[ $REPLY =~ ^[Yy]$ ]]] *)
Definition is_yes (reply : string) : bool :=
  String.eqb reply "y" || String.eqb reply "Y".

(** A command run under [set -e]: the script ends with the command's
    status when it is not zero. *)
Definition run (st : step) (status : N) (at_ : site) (effect : world -> world)
  : sh unit :=
  log st status ;;
  if (status =? 0)%N then modify (set_w effect) else exit status at_.

(** *** Helper functions *)

(** The frame of the banner is drawn with box characters in the script;
    it is rendered in ASCII here. *)
Definition print_header : sh unit :=
  echo "+-----------------------------------------------------------+" ;;
  echo "|           NativeBridge Release Automation                 |" ;;
  echo "+-----------------------------------------------------------+" ;;
  echo "".

Definition show_usage : sh unit :=
  echo_lines
    [ "Usage: $0 <version> [options]"; "";
      "Arguments:";
      "  version       Version number (e.g., 1.0.0, 2.0.0-beta)"; "";
      "Options:";
      "  --skip-tests      Skip running tests";
      "  --skip-build      Skip build verification";
      "  --prerelease      Mark as pre-release";
      "  --dry-run         Show what would happen without making changes";
      "  --force           Skip confirmations";
      "  -h, --help        Show this help message"; "";
      "Examples:";
      "  $0 1.0.0";
      "  $0 1.2.3 --skip-tests";
      "  $0 2.0.0-beta --prerelease";
      "  $0 1.0.1 --dry-run"; "" ].

(** *** Validation functions *)

Definition check_dependencies (e : env) : sh unit :=
  print_step "Checking dependencies" ;;
  let missing_deps :=
    ((if has_git e then [] else ["git"]) ++ (if has_node e then [] else ["node"]))%list in
  (if has_jq e then
     set_USE_JQ true ;;
     print_success "jq is available"
   else
     print_warning
       "jq is not installed. Installing it is recommended for JSON manipulation." ;;
     print_info "macOS: brew install jq" ;;
     print_info "Linux: sudo apt-get install jq" ;;
     set_USE_JQ false) ;;
  match missing_deps with
  | [] => print_success "All required dependencies found"
  | _ =>
      print_error ("Missing required dependencies: " ++ String.concat " " missing_deps) ;;
      exit 1 MissingDependencies
  end.

(** Returns the status as a boolean: [true] is [return 0]. *)
Definition validate_version (version : string) : sh bool :=
  if Version.semver_match version then ret true
  else
    print_error ("Invalid version format: " ++ version) ;;
    print_info "Version must follow semantic versioning (e.g., 1.0.0, 1.2.3-beta)" ;;
    ret false.

(** The prompt shared by the two checks of [check_git_status]. *)
Definition continue_anyway (o : options) : sh unit :=
  if FORCE o then ret tt
  else
    reply <- read "Continue anyway? (y/n) " ;;
    echo "" ;;
    if is_yes reply then ret tt
    else print_error "Aborted by user" ;; exit 1 AbortedByUser.

Definition check_git_status (e : env) (o : options) : sh unit :=
  print_step "Checking git status" ;;
  (if in_git_repo e then ret tt
   else print_error "Not in a git repository" ;; exit 1 NotAGitRepository) ;;
  match git_status e with
  | [] => print_success "Working directory is clean"
  | changes =>
      print_warning "You have uncommitted changes:" ;;
      echo_lines changes ;;
      (if FORCE o then ret tt else echo "") ;;
      continue_anyway o
  end ;;
  set_CURRENT_BRANCH (git_branch e) ;;
  print_info ("Current branch: " ++ git_branch e) ;;
  if String.eqb (git_branch e) "main" || String.eqb (git_branch e) "master"
  then ret tt
  else
    print_warning "Not on main/master branch" ;;
    continue_anyway o.

Definition check_tag_exists (e : env) (version : string) : sh unit :=
  let tag := "v" ++ version in
  exists_ <- get (fun s => rev_parse e (w s) tag) ;;
  if exists_ then
    print_error ("Tag " ++ tag ++ " already exists") ;;
    print_info ("Delete it with: git tag -d " ++ tag) ;;
    exit 1 TagExists
  else ret tt.

(** *** Version bump functions *)

Definition write_package_json (lines : list string) (x : world) : world :=
  {| package_json := lines; build_gradle := build_gradle x; staged := staged x;
     commits := commits x; tags := tags x; heads := heads x;
     remote_branches := remote_branches x; remote_tags := remote_tags x |}.

Definition write_build_gradle (lines : list string) (x : world) : world :=
  {| package_json := package_json x; build_gradle := lines; staged := staged x;
     commits := commits x; tags := tags x; heads := heads x;
     remote_branches := remote_branches x; remote_tags := remote_tags x |}.

(** [sed -i SCRIPT FILE] *)
Definition sed_i (f : file) (script : string -> string) : sh unit :=
  log (WriteFile f) 0 ;;
  modify (set_w (fun x =>
    match f with
    | PackageJson => write_package_json (map script (package_json x)) x
    | BuildGradle => write_build_gradle (map script (build_gradle x)) x
    end)).

(** [jq --arg version "$version" '.version = $version' "$PACKAGE_JSON"
      > "$temp_file"; mv "$temp_file" "$PACKAGE_JSON"]:
    with [set -e] a failing [jq] ends the script with its status, 2 for
    unreadable input and 5 for a filter error, before the [mv]. *)
Definition jq_set_version (e : env) (version : string) : sh unit :=
  old <- get (fun s => package_json (w s)) ;;
  match jq_parse e old with
  | None => exit 2 JqFailed
  | Some j =>
      match assign_version version j with
      | None => exit 5 JqFailed
      | Some j' =>
          log (WriteFile PackageJson) 0 ;;
          modify (set_w (write_package_json (jq_print e j')))
      end
  end.

Definition update_package_json (e : env) (version : string) : sh unit :=
  print_step "Updating package.json" ;;
  use_jq <- get USE_JQ ;;
  (if use_jq then
     jq_set_version e version ;;
     print_success ("Updated package.json to version " ++ version)
   else
     (if OSTYPE_darwin e
      then sed_i PackageJson (Sed.subst_package_version version)
      else sed_i PackageJson (Sed.subst_package_version version)) ;;
     print_success ("Updated package.json to version " ++ version)) ;;
  print_info "New version in package.json:" ;;
  found <- get (fun s => Sed.grep_version (package_json (w s))) ;;
  match found with
  | [] => exit 1 GrepFailed
  | _ => echo_lines found
  end.

Definition update_android_version (e : env) (version : string) : sh unit :=
  print_step "Updating Android build.gradle" ;;
  let version_code := Version.version_code version in
  print_info ("Version: " ++ version) ;;
  print_info ("Version Code: " ++ version_code) ;;
  (if OSTYPE_darwin e then
     sed_i BuildGradle (Sed.subst_version_code version_code) ;;
     sed_i BuildGradle (Sed.subst_version_name version)
   else
     sed_i BuildGradle (Sed.subst_version_code version_code) ;;
     sed_i BuildGradle (Sed.subst_version_name version)) ;;
  print_success "Updated Android build.gradle" ;;
  print_info ("versionCode: " ++ version_code) ;;
  print_info ("versionName: " ++ version).

(** *** Build and test functions *)

Definition run_tests (e : env) (o : options) : sh unit :=
  if SKIP_TESTS o then print_warning "Skipping tests (--skip-tests)"
  else
    print_step "Running tests" ;;
    log NpmTest (npm_test e) ;;
    if (npm_test e =? 0)%N then print_success "All tests passed"
    else print_error "Tests failed" ;; exit 1 TestsFailed.

Definition verify_build (e : env) (o : options) : sh unit :=
  if SKIP_BUILD o then print_warning "Skipping build verification (--skip-build)"
  else
    print_step "Verifying Android build" ;;
    log Gradlew (gradlew e) ;;
    if (gradlew e =? 0)%N then print_success "Android build successful"
    else print_error "Android build failed" ;; exit 1 BuildFailed.

(** *** Git functions *)

Definition do_add (x : world) : world :=
  {| package_json := package_json x; build_gradle := build_gradle x;
     staged := Some (package_json x, build_gradle x);
     commits := commits x; tags := tags x; heads := heads x;
     remote_branches := remote_branches x; remote_tags := remote_tags x |}.

Definition do_commit (msg : string) (x : world) : world :=
  match staged x with
  | None => x
  | Some (p, g) =>
      {| package_json := package_json x; build_gradle := build_gradle x;
         staged := None;
         commits := {| message := msg; c_package_json := p; c_build_gradle := g |}
                    :: commits x;
         tags := tags x; heads := heads x;
         remote_branches := remote_branches x; remote_tags := remote_tags x |}
  end.

Definition commit_message (version : string) : string :=
  "chore: bump version to " ++ version ++ nl ++ nl
  ++ "- Updated package.json version" ++ nl
  ++ "- Updated Android versionCode and versionName" ++ nl
  ++ "- Preparing for release v" ++ version.

Definition commit_version_changes (e : env) (version : string) : sh unit :=
  print_step "Committing version changes" ;;
  run GitAdd (git_add e) GitAddFailed do_add ;;
  run GitCommit (git_commit e) GitCommitFailed (do_commit (commit_message version)) ;;
  print_success "Changes committed".

Definition tag_annotation (e : env) (version : string) : string :=
  "Release v" ++ version ++ nl ++ nl
  ++ "Version: " ++ version ++ nl
  ++ "Date: " ++ date e ++ nl
  ++ "Branch: " ++ git_branch e ++ nl
  ++ "Commit: " ++ git_head_short e ++ nl ++ nl
  ++ "This release includes:" ++ nl
  ++ "- Android APK: NativeBridge-v" ++ version ++ ".apk" ++ nl
  ++ "- iOS .app: NativeBridge-iOS-v" ++ version ++ ".app.zip" ++ nl ++ nl
  ++ "Automated build via GitHub Actions CI/CD pipeline.".

(** The tag made by [git tag -a], bound to the head commit. *)
Definition new_tag (e : env) (version : string) (x : world) : option tag :=
  match commits x with
  | [] => None
  | head :: _ =>
      Some {| tag_name := "v" ++ version;
              annotation := tag_annotation e version;
              target := head |}
  end.

Definition do_tag (e : env) (version : string) (x : world) : world :=
  match new_tag e version x with
  | None => x
  | Some t =>
      {| package_json := package_json x; build_gradle := build_gradle x;
         staged := staged x; commits := commits x; tags := t :: tags x;
         heads := heads x;
         remote_branches := remote_branches x; remote_tags := remote_tags x |}
  end.

(** [git tag -a] refuses, with status 128, a name that is taken or a
    repository without a commit. *)
Definition git_tag_status (e : env) (version : string) (x : world) : N :=
  if existsb (String.eqb ("v" ++ version)) (map tag_name (tags x)) then 128%N
  else match commits x with
       | [] => 128%N
       | _ => git_tag e
       end.

Definition do_push_branch (branch : string) (x : world) : world :=
  {| package_json := package_json x; build_gradle := build_gradle x;
     staged := staged x; commits := commits x; tags := tags x; heads := heads x;
     remote_branches := (branch, commits x) :: remote_branches x;
     remote_tags := remote_tags x |}.

Definition do_push_tag (name : string) (x : world) : world :=
  {| package_json := package_json x; build_gradle := build_gradle x;
     staged := staged x; commits := commits x; tags := tags x; heads := heads x;
     remote_branches := remote_branches x;
     remote_tags :=
       filter (fun t => String.eqb (tag_name t) name) (tags x) ++ remote_tags x |}.

Definition create_and_push_tag (e : env) (version : string) : sh unit :=
  let tag := "v" ++ version in
  print_step "Creating git tag" ;;
  status <- get (fun s => git_tag_status e version (w s)) ;;
  run GitTag status GitTagFailed (do_tag e version) ;;
  print_success ("Tag " ++ tag ++ " created") ;;
  print_step "Pushing to remote" ;;
  branch <- get CURRENT_BRANCH ;;
  run GitPushBranch (git_push_branch e) GitPushBranchFailed (do_push_branch branch) ;;
  print_success ("Pushed commit to " ++ branch) ;;
  run GitPushTag (git_push_tag e) GitPushTagFailed (do_push_tag tag) ;;
  print_success ("Pushed tag " ++ tag) ;;
  print_info "GitHub Actions will now build the release".

(** *** Main release process *)

Definition show_bool (b : bool) : string := if b then "true" else "false".

Definition confirm_release (o : options) (version : string) : sh unit :=
  if negb (DRY_RUN o) && negb (FORCE o) then
    branch <- get CURRENT_BRANCH ;;
    echo "===========================================================" ;;
    echo "Release Summary:" ;;
    echo ("  Version:      " ++ version) ;;
    echo ("  Tag:          v" ++ version) ;;
    echo ("  Branch:       " ++ branch) ;;
    echo ("  Skip Tests:   " ++ show_bool (SKIP_TESTS o)) ;;
    echo ("  Skip Build:   " ++ show_bool (SKIP_BUILD o)) ;;
    echo "===========================================================" ;;
    echo "" ;;
    reply <- read "Continue with release? (y/n) " ;;
    echo "" ;;
    if is_yes reply then ret tt
    else print_error "Release cancelled by user" ;; exit 1 ReleaseCancelled
  else ret tt.

Definition dry_run_report (version : string) : sh unit :=
  print_warning "DRY RUN MODE - No changes will be made" ;;
  echo "" ;;
  print_info ("Would update package.json to version " ++ version) ;;
  print_info "Would update Android build.gradle" ;;
  print_info "Would run tests (if not skipped)" ;;
  print_info "Would verify build (if not skipped)" ;;
  print_info "Would commit changes" ;;
  print_info ("Would create and push tag v" ++ version) ;;
  print_info "Would trigger CI/CD pipeline" ;;
  echo "" ;;
  print_success "Dry run completed" ;;
  exit 0 DryRunCompleted.

Definition perform_release (e : env) (o : options) (version : string) : sh unit :=
  print_header ;;
  echo ("Release Version: " ++ version) ;;
  echo ("Tag: v" ++ version) ;;
  echo "" ;;
  valid <- validate_version version ;;
  (if valid then ret tt else exit 1 InvalidVersion) ;;
  check_dependencies e ;;
  check_git_status e o ;;
  check_tag_exists e version ;;
  confirm_release o version ;;
  (if DRY_RUN o then dry_run_report version else ret tt) ;;
  update_package_json e version ;;
  update_android_version e version ;;
  run_tests e o ;;
  verify_build e o ;;
  commit_version_changes e version ;;
  create_and_push_tag e version ;;
  echo "" ;;
  print_success "===========================================================" ;;
  print_success ("Release " ++ version ++ " completed successfully!") ;;
  print_success "===========================================================" ;;
  echo "" ;;
  print_info "Next steps:" ;;
  print_info ("1. Monitor the build at: https://github.com/" ++ origin_path e ++ "/actions") ;;
  print_info ("2. Download artifacts from: https://github.com/" ++ origin_path e
              ++ "/releases/tag/v" ++ version) ;;
  print_info "3. Test the built APK and .app" ;;
  echo "".

(** *** Entry point *)

Definition default_options : options :=
  {| VERSION := ""; SKIP_TESTS := false; SKIP_BUILD := false;
     PRERELEASE := false; DRY_RUN := false; FORCE := false |}.

Definition starts_with_dash (a : string) : bool :=
  match a with
  | String c _ => Ascii.eqb c "-"
  | "" => false
  end.

(** The [while]/[case] loop over the arguments. *)
Fixpoint parse_args (args : list string) (o : options) : sh options :=
  match args with
  | [] => ret o
  | a :: rest =>
      if String.eqb a "-h" || String.eqb a "--help" then
        show_usage ;; exit 0 HelpRequested
      else if String.eqb a "--skip-tests" then
        parse_args rest
          {| VERSION := VERSION o; SKIP_TESTS := true; SKIP_BUILD := SKIP_BUILD o;
             PRERELEASE := PRERELEASE o; DRY_RUN := DRY_RUN o; FORCE := FORCE o |}
      else if String.eqb a "--skip-build" then
        parse_args rest
          {| VERSION := VERSION o; SKIP_TESTS := SKIP_TESTS o; SKIP_BUILD := true;
             PRERELEASE := PRERELEASE o; DRY_RUN := DRY_RUN o; FORCE := FORCE o |}
      else if String.eqb a "--prerelease" then
        parse_args rest
          {| VERSION := VERSION o; SKIP_TESTS := SKIP_TESTS o;
             SKIP_BUILD := SKIP_BUILD o;
             PRERELEASE := true; DRY_RUN := DRY_RUN o; FORCE := FORCE o |}
      else if String.eqb a "--dry-run" then
        parse_args rest
          {| VERSION := VERSION o; SKIP_TESTS := SKIP_TESTS o;
             SKIP_BUILD := SKIP_BUILD o;
             PRERELEASE := PRERELEASE o; DRY_RUN := true; FORCE := FORCE o |}
      else if String.eqb a "--force" then
        parse_args rest
          {| VERSION := VERSION o; SKIP_TESTS := SKIP_TESTS o;
             SKIP_BUILD := SKIP_BUILD o;
             PRERELEASE := PRERELEASE o; DRY_RUN := DRY_RUN o; FORCE := true |}
      else if starts_with_dash a then
        print_error ("Unknown option: " ++ a) ;;
        show_usage ;;
        exit 1 UnknownOption
      else if String.eqb (VERSION o) "" then
        parse_args rest
          {| VERSION := a; SKIP_TESTS := SKIP_TESTS o; SKIP_BUILD := SKIP_BUILD o;
             PRERELEASE := PRERELEASE o; DRY_RUN := DRY_RUN o; FORCE := FORCE o |}
      else
        print_error "Multiple versions specified" ;;
        show_usage ;;
        exit 1 MultipleVersions
  end.

Definition main (e : env) (args : list string) : sh unit :=
  o <- parse_args args default_options ;;
  if String.eqb (VERSION o) "" then
    print_error "Version number required" ;;
    echo "" ;;
    show_usage ;;
    exit 1 VersionRequired
  else perform_release e o (VERSION o).

(** The exit status of the script: that of its last command, [echo], when
    it runs to its end. *)
Definition exit_code {A : Type} (r : result A) : N :=
  match r with
  | Done _ _ => 0%N
  | Exited code _ _ => code
  end.

Definition final {A : Type} (r : result A) : state :=
  match r with
  | Done _ s => s
  | Exited _ _ s => s
  end.

(** The state after printing some more lines. *)
Definition with_out (s : state) (lines : list msg) : state :=
  {| w := w s; out := out s ++ lines; trace := trace s; stdin := stdin s;
     USE_JQ := USE_JQ s; CURRENT_BRANCH := CURRENT_BRANCH s |}.

(** The working tree, the repositories and the commands run so far. *)
Definition same_tree (s s' : state) : Prop :=
  w s' = w s /\ trace s' = trace s.

End Release.

(** ** The stages of a release

    The script of [perform_release], cut where the properties below need
    to look at it, and the vocabulary they are stated in. *)

Module Stages.

Import Json Release.

(** Validation and pre-flight checks, up to [check_tag_exists]. *)
Definition checks (e : env) (o : options) (version : string) : sh unit :=
  print_header ;;
  echo ("Release Version: " ++ version) ;;
  echo ("Tag: v" ++ version) ;;
  echo "" ;;
  valid <- validate_version version ;;
  (if valid then ret tt else exit 1 InvalidVersion) ;;
  check_dependencies e ;;
  check_git_status e o ;;
  check_tag_exists e version.

Definition mutate (e : env) (version : string) : sh unit :=
  update_package_json e version ;;
  update_android_version e version.

Definition verify (e : env) (o : options) : sh unit :=
  run_tests e o ;;
  verify_build e o.

Definition publish (e : env) (version : string) : sh unit :=
  commit_version_changes e version ;;
  create_and_push_tag e version.

(** The closing messages of [perform_release] (the emoji of the success
    line is left out). *)
Definition report (e : env) (version : string) : sh unit :=
  echo "" ;;
  print_success "===========================================================" ;;
  print_success ("Release " ++ version ++ " completed successfully!") ;;
  print_success "===========================================================" ;;
  echo "" ;;
  print_info "Next steps:" ;;
  print_info ("1. Monitor the build at: https://github.com/" ++ origin_path e ++ "/actions") ;;
  print_info ("2. Download artifacts from: https://github.com/" ++ origin_path e
              ++ "/releases/tag/v" ++ version) ;;
  print_info "3. Test the built APK and .app" ;;
  echo "".

Definition live (e : env) (o : options) (version : string) : sh unit :=
  mutate e version ;;
  verify e o ;;
  publish e version ;;
  report e version.

Definition staged_release (e : env) (o : options) (version : string) : sh unit :=
  checks e o version ;;
  confirm_release o version ;;
  (if DRY_RUN o then dry_run_report version else ret tt) ;;
  live e o version.

(** The manifest after [update_package_json], when it succeeds in writing
    it: through [jq] or through [sed]. *)
Definition new_package_json (e : env) (use_jq : bool) (version : string)
  (lines : list string) : option (list string) :=
  if use_jq then
    match jq_parse e lines with
    | Some j => option_map (jq_print e) (assign_version version j)
    | None => None
    end
  else Some (map (Sed.subst_package_version version) lines).

(** The build descriptor after [update_android_version]. *)
Definition new_build_gradle (version : string) (lines : list string) : list string :=
  map (Sed.bump_gradle_line version (Version.version_code version)) lines.

(** Everything [git] keeps: the index, the history, the tags and the
    remote. *)
Definition repositories (x : world)
  : option (list string * list string) * list commit * list tag
    * list (string * list commit) * list tag :=
  (staged x, commits x, tags x, remote_branches x, remote_tags x).

(** The commands a live run goes through, in the order of the script. *)
Definition plan (o : options) : list step :=
  ([WriteFile PackageJson; WriteFile BuildGradle; WriteFile BuildGradle]
   ++ (if SKIP_TESTS o then [] else [NpmTest])
   ++ (if SKIP_BUILD o then [] else [Gradlew])
   ++ [GitAdd; GitCommit; GitTag; GitPushBranch; GitPushTag])%list.

Definition publish_step (st : step) : bool :=
  match st with
  | GitAdd | GitCommit | GitTag | GitPushBranch | GitPushTag => true
  | _ => false
  end.

(** The commands of a run went through a plan in order, each one started
    only after the one before it had succeeded. *)
Definition follows (steps : list step) (new : list event) : Prop :=
  (exists k, map fst new = firstn k steps) /\
  Forall (fun ev => snd ev = 0%N) (removelast new).

(** The outcome of a run, in the terms of the specification. *)
Inductive failure : Type :=
| Usage
| Validation
| Precondition
| UserDeclined
| Mutation
| Verification
| Publish.

Inductive outcome : Type :=
| Completed
| DryRunReport
| HelpShown
| Failed (f : failure).

(** A [read] that finds no input counts as a confirmation that was not
    given. *)
Definition site_outcome (x : site) : outcome :=
  match x with
  | HelpRequested => HelpShown
  | UnknownOption | MultipleVersions | VersionRequired => Failed Usage
  | InvalidVersion => Failed Validation
  | MissingDependencies | NotAGitRepository | TagExists => Failed Precondition
  | AbortedByUser | ReadFailed | ReleaseCancelled => Failed UserDeclined
  | DryRunCompleted => DryRunReport
  | JqFailed | GrepFailed => Failed Mutation
  | TestsFailed | BuildFailed => Failed Verification
  | GitAddFailed | GitCommitFailed | GitTagFailed
  | GitPushBranchFailed | GitPushTagFailed => Failed Publish
  end.

Definition outcome_of {A : Type} (r : result A) : outcome :=
  match r with
  | Done _ _ => Completed
  | Exited _ x _ => site_outcome x
  end.

(** The exit status fits the outcome: it is 0 exactly for a completed
    run, a dry-run report and the help text; 1 for a usage error, a
    validation, pre-flight or verification failure and a declined
    confirmation; and, for a publish failure, the status, not zero, of the
    publish command that ran last. *)
Definition coded (r : result unit) : Prop :=
  (exit_code r = 0%N <-> In (outcome_of r) [Completed; DryRunReport; HelpShown]) /\
  (In (outcome_of r)
      [Failed Usage; Failed Validation; Failed Precondition;
       Failed UserDeclined; Failed Verification] -> exit_code r = 1%N) /\
  (outcome_of r = Failed Publish ->
   exit_code r <> 0%N /\
   exists before st,
     trace (final r) = (before ++ [(st, exit_code r)])%list /\
     publish_step st = true).

(** Options that differ at most in [PRERELEASE]. *)
Definition same_but_prerelease (o o' : options) : Prop :=
  VERSION o = VERSION o' /\ SKIP_TESTS o = SKIP_TESTS o' /\
  SKIP_BUILD o = SKIP_BUILD o' /\ DRY_RUN o = DRY_RUN o' /\ FORCE o = FORCE o'.

End Stages.

(** ** A sample project and environment *)

Module Sample.

Import Json Release.

(** A reader and printer for flat objects with string values, one field per
    line, in the layout [jq] prints. *)
Definition print_value (j : json) : string :=
  match j with
  | JStr s => Sed.quoted s
  | JNum n => n
  | JBool b => show_bool b
  | _ => "null"
  end.

Fixpoint print_fields (fields : list (string * json)) : list string :=
  match fields with
  | [] => []
  | [(k, v)] => ["  " ++ Sed.quoted k ++ ": " ++ print_value v]
  | (k, v) :: rest =>
      ("  " ++ Sed.quoted k ++ ": " ++ print_value v ++ ",") :: print_fields rest
  end.

Definition flat_print (j : json) : list string :=
  match j with
  | JObj fields => (["{"] ++ print_fields fields ++ ["}"])%list
  | v => [print_value v]
  end.

(** The text before the first double quote, and the text after it. *)
Fixpoint until_quote (s : string) : option (string * string) :=
  match s with
  | "" => None
  | String c s' =>
      if Ascii.eqb c Sed.dquote then Some ("", s')
      else match until_quote s' with
           | Some (a, b) => Some (String c a, b)
           | None => None
           end
  end.

Definition parse_field (line : string) : option (string * json) :=
  match Str.strip_prefix ("  " ++ String Sed.dquote "") line with
  | None => None
  | Some r1 =>
      match until_quote r1 with
      | None => None
      | Some (k, r2) =>
          match Str.strip_prefix (": " ++ String Sed.dquote "") r2 with
          | None => None
          | Some r3 =>
              match until_quote r3 with
              | None => None
              | Some (v, r4) =>
                  if String.eqb r4 "" || String.eqb r4 "," then Some (k, JStr v)
                  else None
              end
          end
      end
  end.

Fixpoint parse_fields (lines : list string) : option (list (string * json)) :=
  match lines with
  | [] => None
  | l :: rest =>
      if String.eqb l "}" then
        match rest with [] => Some [] | _ => None end
      else
        match parse_field l, parse_fields rest with
        | Some f, Some fs => Some (f :: fs)
        | _, _ => None
        end
  end.

Definition flat_parse (lines : list string) : option json :=
  match lines with
  | l :: rest =>
      if String.eqb l "{" then option_map JObj (parse_fields rest) else None
  | [] => None
  end.

(** Every tool is installed and every command succeeds; the tree is clean,
    on [main]. *)
Definition env_ok : env :=
  {| OSTYPE_darwin := false;
     has_git := true; has_node := true; has_jq := true;
     jq_parse := flat_parse; jq_print := flat_print;
     in_git_repo := true; git_status := []; git_branch := "main";
     git_head_short := "abc1234"; resolves_otherwise := fun _ => false;
     origin_path := "acme/nativebridge";
     date := "2024-01-01 00:00:00";
     npm_test := 0; gradlew := 0;
     git_add := 0; git_commit := 0; git_tag := 0;
     git_push_branch := 0; git_push_tag := 0 |}.

(** The same, without [jq]: the script falls back to [sed]. *)
Definition env_sed : env :=
  {| OSTYPE_darwin := false;
     has_git := true; has_node := true; has_jq := false;
     jq_parse := flat_parse; jq_print := flat_print;
     in_git_repo := true; git_status := []; git_branch := "main";
     git_head_short := "abc1234"; resolves_otherwise := fun _ => false;
     origin_path := "acme/nativebridge";
     date := "2024-01-01 00:00:00";
     npm_test := 0; gradlew := 0;
     git_add := 0; git_commit := 0; git_tag := 0;
     git_push_branch := 0; git_push_tag := 0 |}.

(** The build check fails. *)
Definition env_build_fails : env :=
  {| OSTYPE_darwin := false;
     has_git := true; has_node := true; has_jq := true;
     jq_parse := flat_parse; jq_print := flat_print;
     in_git_repo := true; git_status := []; git_branch := "main";
     git_head_short := "abc1234"; resolves_otherwise := fun _ => false;
     origin_path := "acme/nativebridge";
     date := "2024-01-01 00:00:00";
     npm_test := 0; gradlew := 1;
     git_add := 0; git_commit := 0; git_tag := 0;
     git_push_branch := 0; git_push_tag := 0 |}.

(** No remote can be reached: [git push] ends with status 128. *)
Definition env_push_fails : env :=
  {| OSTYPE_darwin := false;
     has_git := true; has_node := true; has_jq := true;
     jq_parse := flat_parse; jq_print := flat_print;
     in_git_repo := true; git_status := []; git_branch := "main";
     git_head_short := "abc1234"; resolves_otherwise := fun _ => false;
     origin_path := "acme/nativebridge";
     date := "2024-01-01 00:00:00";
     npm_test := 0; gradlew := 0;
     git_add := 0; git_commit := 0; git_tag := 0;
     git_push_branch := 128; git_push_tag := 128 |}.

Definition manifest : list string :=
  [ "{";
    "  " ++ Sed.quoted "name" ++ ": " ++ Sed.quoted "nativebridge" ++ ",";
    "  " ++ Sed.quoted "version" ++ ": " ++ Sed.quoted "0.0.1";
    "}" ].

Definition gradle : list string :=
  [ "android {";
    "    defaultConfig {";
    "        versionCode 1";
    "        versionName " ++ Sed.quoted "1.0";
    "    }";
    "}" ].

Definition initial_commit : commit :=
  {| message := "Initial commit";
     c_package_json := manifest; c_build_gradle := gradle |}.

Definition world0 : world :=
  {| package_json := manifest; build_gradle := gradle; staged := None;
     commits := [initial_commit]; tags := []; heads := ["main"];
     remote_branches := [("main", [initial_commit])]; remote_tags := [] |}.

(** The operator answers yes once. *)
Definition state0 : state :=
  {| w := world0; out := []; trace := []; stdin := ["y"];
     USE_JQ := false; CURRENT_BRANCH := "" |}.

(** The release [v1.0.0] is already tagged. *)
Definition world_tagged : world :=
  {| package_json := manifest; build_gradle := gradle; staged := None;
     commits := [initial_commit];
     tags := [ {| tag_name := "v1.0.0"; annotation := "Release v1.0.0";
                  target := initial_commit |} ];
     heads := ["main"];
     remote_branches := [("main", [initial_commit])]; remote_tags := [] |}.

Definition state_tagged : state :=
  {| w := world_tagged; out := []; trace := []; stdin := ["y"];
     USE_JQ := false; CURRENT_BRANCH := "" |}.

(** A build descriptor with both fields on one line, the name first and a
    second [versionCode] after it. *)
Definition gradle_one_line : list string :=
  [ "versionName " ++ Sed.quoted "versionCode 1" ++ " versionCode 2" ].

Definition world_one_line : world :=
  {| package_json := manifest; build_gradle := gradle_one_line; staged := None;
     commits := [initial_commit]; tags := []; heads := ["main"];
     remote_branches := [("main", [initial_commit])]; remote_tags := [] |}.

Definition state_one_line : state :=
  {| w := world_one_line; out := []; trace := []; stdin := [];
     USE_JQ := false; CURRENT_BRANCH := "main" |}.

(** The state in which [mutate] starts when [jq] was found. *)
Definition state_jq : state :=
  {| w := world0; out := []; trace := []; stdin := [];
     USE_JQ := true; CURRENT_BRANCH := "main" |}.

Definition force : options :=
  {| VERSION := "2.1.0"; SKIP_TESTS := false; SKIP_BUILD := false;
     PRERELEASE := false; DRY_RUN := false; FORCE := true |}.

Definition dry_run : options :=
  {| VERSION := "2.1.0"; SKIP_TESTS := false; SKIP_BUILD := false;
     PRERELEASE := false; DRY_RUN := true; FORCE := false |}.

End Sample.

(** ** The remote's path in the closing links

    [$(git config --get remote.origin.url | sed 's/.*://; s/.git$//')],
    the text [perform_release] puts into its two links, and the value of
    [origin_path] in the environment. An unset remote gives the empty
    line. *)

Module Origin.

Definition not_colon (c : ascii) : bool := negb (Ascii.eqb c ":").

(** What follows the last colon of a line, if it has one. *)
Fixpoint after_last_colon (s : string) : option string :=
  match s with
  | "" => None
  | String c s' =>
      match after_last_colon s' with
      | Some r => Some r
      | None => if Ascii.eqb c ":" then Some s' else None
      end
  end.

(** [s/.*://]: the longest match at the start of the line, everything
    through its last colon, is deleted. *)
Definition sed_delete_through_colon (s : string) : string :=
  match after_last_colon s with
  | Some r => r
  | None => s
  end.

(** [s/.git$//]: the last four characters of the line are deleted when the
    last three are [git]; the dot of the pattern stands for any
    character. *)
Fixpoint sed_delete_dot_git (s : string) : string :=
  match s with
  | "" => ""
  | String c s' =>
      if String.eqb s' "git" then "" else String c (sed_delete_dot_git s')
  end.

Definition origin_path_of (url : string) : string :=
  sed_delete_dot_git (sed_delete_through_colon url).

End Origin.

(** ** The command line, by kind of argument *)

Module Cli.

(** The options that set a global and [shift]. *)
Definition is_flag (a : string) : bool :=
  String.eqb a "--skip-tests" || String.eqb a "--skip-build"
  || String.eqb a "--prerelease" || String.eqb a "--dry-run"
  || String.eqb a "--force".

(** [-h|--help] *)
Definition is_help (a : string) : bool :=
  String.eqb a "-h" || String.eqb a "--help".

End Cli.

(** ** Reading the descriptors back *)

Module Query.

Import Json.

(** The value of the first field named [k] among the fields of an
    object. *)
Fixpoint field (k : string) (fields : list (string * json)) : option json :=
  match fields with
  | [] => None
  | (k', v) :: rest => if String.eqb k' k then Some v else field k rest
  end.

(** The characters with a meaning of their own in the replacement of a
    [sed] substitution: the delimiter, the ampersand, the backslash and
    the newline. *)
Definition sed_special (c : ascii) : bool :=
  Ascii.eqb c "/" || Ascii.eqb c "&" || Ascii.eqb c (ascii_of_N 92)
  || Ascii.eqb c (ascii_of_N 10).

Definition sed_plain (c : ascii) : bool := negb (sed_special c).

(** No character of [s] is [c]. *)
Definition free_of (c : ascii) (s : string) : bool :=
  Str.all (fun x => negb (Ascii.eqb x c)) s.

(** How many times [c] occurs in [s]. *)
Fixpoint count (c : ascii) (s : string) : nat :=
  match s with
  | "" => 0
  | String x s' => (if Ascii.eqb x c then 1 else 0) + count c s'
  end.

End Query.

(** ** More sample projects *)

Module Cases.

Import Json Release.

(** A manifest on one line, written without a space after the colon. *)
Definition manifest_compact : list string :=
  [ "{" ++ Sed.quoted "name" ++ ":" ++ Sed.quoted "nativebridge" ++ ","
    ++ Sed.quoted "version" ++ ":" ++ Sed.quoted "0.0.1" ++ "}" ].

(** A manifest without a version field. *)
Definition manifest_unversioned : list string :=
  [ "{";
    "  " ++ Sed.quoted "name" ++ ": " ++ Sed.quoted "nativebridge";
    "}" ].

(** A manifest that is an array, not an object. *)
Definition manifest_array : list string := [ "[]" ].

Definition world_with (manifest : list string) : world :=
  {| package_json := manifest; build_gradle := Sample.gradle; staged := None;
     commits := [Sample.initial_commit]; tags := []; heads := ["main"];
     remote_branches := [("main", [Sample.initial_commit])]; remote_tags := [] |}.

(** The state in which the version bump starts, with or without [jq]. *)
Definition state_with (manifest : list string) (use_jq : bool) : state :=
  {| w := world_with manifest; out := []; trace := []; stdin := [];
     USE_JQ := use_jq; CURRENT_BRANCH := "main" |}.

(** A file named like the tag of the release [2.1.0] lies in the working
    directory: [git rev-parse] takes the name for a path. *)
Definition env_path_v : env :=
  {| OSTYPE_darwin := false;
     has_git := true; has_node := true; has_jq := false;
     jq_parse := Sample.flat_parse; jq_print := Sample.flat_print;
     in_git_repo := true; git_status := []; git_branch := "main";
     git_head_short := "abc1234"; resolves_otherwise := String.eqb "v2.1.0";
     origin_path := "acme/nativebridge";
     date := "2024-01-01 00:00:00";
     npm_test := 0; gradlew := 0;
     git_add := 0; git_commit := 0; git_tag := 0;
     git_push_branch := 0; git_push_tag := 0 |}.

(** The operator answers no. *)
Definition state_declining : state :=
  {| w := Sample.world0; out := []; trace := []; stdin := ["n"];
     USE_JQ := false; CURRENT_BRANCH := "" |}.

(** A branch is named like the tag of the release [1.0.0]. *)
Definition world_branch_v : world :=
  {| package_json := Sample.manifest; build_gradle := Sample.gradle;
     staged := None; commits := [Sample.initial_commit]; tags := [];
     heads := ["main"; "v1.0.0"];
     remote_branches := [("main", [Sample.initial_commit])];
     remote_tags := [] |}.

Definition state_branch_v : state :=
  {| w := world_branch_v; out := []; trace := []; stdin := [];
     USE_JQ := false; CURRENT_BRANCH := "" |}.

End Cases.

(** ** Runs that got as far as the tag *)

Module Runs.

Import Release.

(** The run got past [git tag]: it completed, or it ended at one of the
    two pushes. *)
Definition past_tagging (r : result unit) : Prop :=
  match r with
  | Done _ _ => True
  | Exited _ x _ => x = GitPushBranchFailed \/ x = GitPushTagFailed
  end.

End Runs.

(** * Facts about the embedding *)

Module StrFacts.

Import Str.

Lemma app_nil_r (s : string) : s ++ "" = s.
Proof. induction s; simpl; congruence. Qed.

Lemma app_assoc (a b c : string) : (a ++ b) ++ c = a ++ (b ++ c).
Proof. induction a; simpl; congruence. Qed.

Lemma length_app (a b : string) :
  String.length (a ++ b) = String.length a + String.length b.
Proof. induction a; simpl; congruence. Qed.

Lemma app_inv_head (a b c : string) : a ++ b = a ++ c -> b = c.
Proof. induction a; simpl; intros H; [assumption | injection H; auto]. Qed.

Lemma all_app p a b : all p (a ++ b) = all p a && all p b.
Proof. induction a; simpl; [reflexivity | rewrite IHa, andb_assoc; reflexivity]. Qed.

Lemma strip_prefix_app lit rest : strip_prefix lit (lit ++ rest) = Some rest.
Proof.
  induction lit; simpl; [destruct rest; reflexivity |].
  rewrite Ascii.eqb_refl. assumption.
Qed.

Lemma strip_prefix_some lit s rest :
  strip_prefix lit s = Some rest -> s = lit ++ rest.
Proof.
  revert s. induction lit as [|a lit IH]; intros [|b s]; simpl; intros H;
    try congruence.
  destruct (Ascii.eqb a b) eqn:E; [|discriminate].
  apply Ascii.eqb_eq in E. subst b. f_equal. auto.
Qed.

End StrFacts.

Module RegexFacts.

Import Regex.

#[local] Hint Constructors lang : core.

Lemma app_eq_empty (a b : string) : a ++ b = "" -> a = "" /\ b = "".
Proof. destruct a; simpl; intros H; [auto | discriminate]. Qed.

Lemma nullable_lang r : nullable r = true <-> lang r "".
Proof.
  split.
  - induction r; simpl; intros H; try discriminate; auto.
    + apply andb_true_iff in H as [H1 H2].
      change "" with ("" ++ ""). auto.
    + apply orb_true_iff in H as [H|H]; auto.
  - intros H. remember "" as s eqn:Es. induction H; simpl; auto;
      try discriminate.
    + apply app_eq_empty in Es as [-> ->]. rewrite IHlang1, IHlang2; auto.
    + rewrite IHlang; auto.
    + rewrite IHlang; auto. apply orb_true_r.
Qed.

Lemma cat_inv r1 r2 s :
  lang (Cat r1 r2) s -> exists s1 s2, s = s1 ++ s2 /\ lang r1 s1 /\ lang r2 s2.
Proof. intros H. inversion H; subst. eauto. Qed.

Lemma class_inv p s : lang (Class p) s -> exists c, s = String c "" /\ p c = true.
Proof. intros H. inversion H; subst. eauto. Qed.

Lemma alt_inv r1 r2 s : lang (Alt r1 r2) s -> lang r1 s \/ lang r2 s.
Proof. intros H. inversion H; subst; auto. Qed.

Lemma star_cons_inv r c s :
  lang (Star r) (String c s) ->
  exists s1 s2, s = s1 ++ s2 /\ lang r (String c s1) /\ lang (Star r) s2.
Proof.
  intros H. remember (Star r) as r' eqn:Er. remember (String c s) as w eqn:Ew.
  induction H; try discriminate.
  injection Er as ->.
  destruct s1 as [|c1 s1]; simpl in Ew.
  - auto.
  - injection Ew as -> <-. eauto.
Qed.

Lemma deriv_lang c r s : lang (deriv c r) s <-> lang r (String c s).
Proof.
  revert s. induction r; intros s; simpl.
  - split; intros H; inversion H.
  - split; intros H; inversion H.
  - destruct (p c) eqn:E; split; intros H; inversion H; subst; auto; congruence.
  - split.
    + intros H.
      assert (Hcat : forall w, lang (Cat (deriv c r1) r2) w ->
                               lang (Cat r1 r2) (String c w)).
      { intros w Hw. inversion Hw; subst.
        change (String c (s1 ++ s2)) with (String c s1 ++ s2).
        constructor; [apply IHr1|]; assumption. }
      destruct (nullable r1) eqn:N; [|auto].
      inversion H; subst; [auto|].
      change (String c s) with ("" ++ String c s).
      constructor; [apply nullable_lang | apply IHr2]; assumption.
    + intros H. apply cat_inv in H as (s1 & s2 & E & H1 & H2).
      destruct s1 as [|c1 s1]; simpl in E.
      * subst s2. apply nullable_lang in H1. rewrite H1.
        apply L_alt_r, IHr2. assumption.
      * injection E as <- ->.
        assert (lang (Cat (deriv c r1) r2) (s1 ++ s2))
          by (constructor; [apply IHr1|]; assumption).
        destruct (nullable r1); auto.
  - split; intros H; inversion H; subst;
      solve [apply L_alt_l; apply IHr1; assumption
            |apply L_alt_r; apply IHr2; assumption].
  - split.
    + intros H. inversion H; subst.
      change (String c (s1 ++ s2)) with (String c s1 ++ s2).
      constructor; [apply IHr|]; assumption.
    + intros H. apply star_cons_inv in H as (s1 & s2 & -> & H1 & H2).
      constructor; [apply IHr|]; assumption.
Qed.

Theorem matches_lang r s : matches r s = true <-> lang r s.
Proof.
  revert r. induction s as [|c s IH]; intros r; simpl.
  - apply nullable_lang.
  - rewrite IH. apply deriv_lang.
Qed.

(** The language of a repeated character class. *)
Lemma star_class p s : lang (Star (Class p)) s <-> Str.all p s = true.
Proof.
  split.
  - intros H. remember (Star (Class p)) as r eqn:Er.
    induction H; try discriminate; [reflexivity|].
    injection Er as ->. rewrite StrFacts.all_app, IHlang2 by reflexivity.
    apply class_inv in H as (c & -> & Hc). simpl. rewrite Hc. reflexivity.
  - induction s as [|c s IH]; simpl; intros H; [constructor|].
    apply andb_true_iff in H as [Hc Hs].
    change (String c s) with (String c "" ++ s). auto.
Qed.

Lemma plus_class p s :
  lang (Plus (Class p)) s <-> Str.nonempty s = true /\ Str.all p s = true.
Proof.
  unfold Plus. split.
  - intros H. apply cat_inv in H as (s1 & s2 & -> & H1 & H2).
    apply class_inv in H1 as (c & -> & Hc).
    apply star_class in H2. simpl. rewrite Hc, H2. auto.
  - destruct s as [|c s]; simpl; intros [Hn H]; [discriminate|].
    apply andb_true_iff in H as [Hc Hs].
    change (String c s) with (String c "" ++ s).
    constructor; [auto | apply star_class; assumption].
Qed.

Lemma chr_lang c s : lang (Chr c) s <-> s = String c "".
Proof.
  unfold Chr. split.
  - intros H. apply class_inv in H as (c' & -> & Hc).
    apply Ascii.eqb_eq in Hc. congruence.
  - intros ->. constructor. apply Ascii.eqb_refl.
Qed.

End RegexFacts.

Module DecFacts.

Import Dec.

Open Scope N_scope.

Lemma digit_cases (d : N) :
  d < 10 ->
  d = 0 \/ d = 1 \/ d = 2 \/ d = 3 \/ d = 4 \/ d = 5 \/ d = 6 \/ d = 7 \/
  d = 8 \/ d = 9.
Proof. lia. Qed.

Lemma digit_char_ok (d : N) :
  d < 10 -> is_digit (digit_char d) = true /\ digit_val (digit_char d) = d.
Proof.
  intros H. apply digit_cases in H.
  repeat (destruct H as [->|H]; [split; reflexivity|]). subst. split; reflexivity.
Qed.

Lemma value_acc_shift (d : string) :
  Str.all is_digit d = true ->
  forall a, value_acc a d = a * 10 ^ N.of_nat (String.length d) + value d.
Proof.
  unfold value. induction d as [|c d IH]; intros H a;
    cbn [value_acc Str.all String.length] in *.
  - simpl. lia.
  - apply andb_true_iff in H as [Hc Hd]. rewrite Hc.
    rewrite (IH Hd (10 * a + digit_val c)), (IH Hd (10 * 0 + digit_val c)).
    rewrite Nat2N.inj_succ, N.pow_succ_r'. lia.
Qed.

Lemma value_acc_app (d rest : string) :
  Str.all is_digit d = true ->
  forall a, value_acc a (d ++ rest) = value_acc (value_acc a d) rest.
Proof.
  induction d as [|c d IH]; intros H a;
    cbn [value_acc Str.all String.append] in *; [reflexivity|].
  apply andb_true_iff in H as [Hc Hd]. rewrite Hc. apply IH. assumption.
Qed.

(** Value of a concatenation of digit runs. *)
Lemma value_app (d e : string) :
  Str.all is_digit d = true -> Str.all is_digit e = true ->
  value (d ++ e) = value d * 10 ^ N.of_nat (String.length e) + value e.
Proof.
  intros Hd He. unfold value at 1. rewrite value_acc_app by assumption.
  rewrite value_acc_shift by assumption. reflexivity.
Qed.

Lemma digits_spec (fuel : nat) :
  forall n acc,
    n < 2 ^ N.of_nat fuel ->
    Str.all is_digit acc = true ->
    Str.all is_digit (digits fuel n acc) = true /\
    value (digits fuel n acc) = n * 10 ^ N.of_nat (String.length acc) + value acc.
Proof.
  induction fuel as [|fuel IH]; intros n acc Hn Hacc.
  - simpl in *. assert (n = 0) by lia. subst. split; [assumption | lia].
  - cbn [digits].
    assert (Hm : n mod 10 < 10) by (apply N.mod_lt; lia).
    destruct (digit_char_ok _ Hm) as [Hd Hv].
    assert (Hacc' : Str.all is_digit (String (digit_char (n mod 10)) acc) = true)
      by (simpl; rewrite Hd, Hacc; reflexivity).
    assert (Hval : value (String (digit_char (n mod 10)) acc)
                   = n mod 10 * 10 ^ N.of_nat (String.length acc) + value acc).
    { unfold value at 1. cbn [value_acc String.length]. rewrite Hd, Hv.
      rewrite value_acc_shift by assumption. lia. }
    destruct (n <? 10) eqn:E.
    + apply N.ltb_lt in E. split; [assumption|].
      rewrite Hval, N.mod_small by assumption. reflexivity.
    + apply N.ltb_ge in E.
      assert (Hdiv : n / 10 < 2 ^ N.of_nat fuel).
      { rewrite Nat2N.inj_succ, N.pow_succ_r' in Hn.
        apply N.Div0.div_lt_upper_bound. lia. }
      destruct (IH (n / 10) _ Hdiv Hacc') as [Ha Hb].
      split; [assumption|]. rewrite Hb, Hval.
      cbn [String.length]. rewrite Nat2N.inj_succ, N.pow_succ_r'.
      pose proof (N.div_mod n 10 ltac:(lia)) as En.
      remember (n / 10) as q. remember (n mod 10) as r.
      rewrite En. ring.
Qed.

Lemma fmt_d_spec (n : N) :
  Str.all is_digit (fmt_d n) = true /\ value (fmt_d n) = n.
Proof.
  unfold fmt_d.
  assert (Hn : n < 2 ^ N.of_nat (S (N.to_nat (N.size n)))).
  { rewrite Nat2N.inj_succ, N2Nat.id, N.pow_succ_r'.
    pose proof (N.size_gt n). lia. }
  destruct (digits_spec _ n "" Hn eq_refl) as [Ha Hb].
  split; [assumption|]. rewrite Hb.
  change (N.of_nat (String.length "")) with 0. change (value "") with 0.
  rewrite N.pow_0_r. lia.
Qed.

Lemma fmt_02d_spec (n : N) :
  Str.all is_digit (fmt_02d n) = true /\ value (fmt_02d n) = n.
Proof.
  destruct (fmt_d_spec n) as [Ha Hb]. unfold fmt_02d.
  destruct (Nat.ltb (String.length (fmt_d n)) 2); [|auto].
  split; [simpl; assumption|].
  rewrite value_app by (assumption || reflexivity). rewrite Hb. reflexivity.
Qed.

(** Below one hundred, [%02d] prints exactly two characters. *)
Lemma fmt_02d_length (n : N) : n < 100 -> String.length (fmt_02d n) = 2%nat.
Proof.
  intros H.
  assert (Hall : forallb (fun k => Nat.eqb (String.length (fmt_02d (N.of_nat k))) 2)
                   (seq 0 100) = true) by (vm_compute; reflexivity).
  rewrite forallb_forall in Hall.
  specialize (Hall (N.to_nat n)). rewrite N2Nat.id in Hall.
  apply Nat.eqb_eq, Hall, in_seq. lia.
Qed.

(** A number that fits an [int] goes through the conversion as it is. *)
Lemma d_to_int_small (n : N) : n < 2 ^ 31 -> d_to_int n = n.
Proof.
  intros H. unfold d_to_int, max_int. apply N.min_l.
  change (2 ^ 31) with 2147483648 in H. lia.
Qed.

End DecFacts.

Module VersionFacts.

Import Regex RegexFacts Version.

(** *** The grammar, characterised *)

Lemma numeral_lang s : lang (Plus (Class Dec.is_digit)) s <-> Dec.numeral s = true.
Proof. unfold Dec.numeral. rewrite plus_class, andb_true_iff. reflexivity. Qed.

Lemma label_lang s :
  lang (Opt (Cat (Chr "-") (Plus (Class is_label_char)))) s <->
  exists label, label_ok label = true /\ s = label_suffix label.
Proof.
  split.
  - intros H. apply alt_inv in H as [H|H].
    + apply cat_inv in H as (s1 & s2 & -> & H1 & H2).
      apply chr_lang in H1 as ->. apply plus_class in H2 as [Hn Ha].
      exists (Some s2). simpl. rewrite Hn, Ha. auto.
    + inversion H; subst. exists None. auto.
  - intros ([l|] & Hl & ->); simpl in *.
    + apply L_alt_l. change (String "-" l) with ("-" ++ l).
      apply andb_true_iff in Hl as [Hn Ha].
      constructor; [apply chr_lang; reflexivity | apply plus_class; auto].
    + apply L_alt_r. constructor.
Qed.

Theorem semver_match_iff (s : string) : semver_match s = true <-> well_formed s.
Proof.
  unfold semver_match, semver_re. rewrite matches_lang. split.
  - intros H.
    apply cat_inv in H as (M & s1 & -> & HM & H). apply numeral_lang in HM.
    apply cat_inv in H as (d1 & s2 & -> & Hd1 & H). apply chr_lang in Hd1 as ->.
    apply cat_inv in H as (m & s3 & -> & Hm & H). apply numeral_lang in Hm.
    apply cat_inv in H as (d2 & s4 & -> & Hd2 & H). apply chr_lang in Hd2 as ->.
    apply cat_inv in H as (p & s5 & -> & Hp & H). apply numeral_lang in Hp.
    apply label_lang in H as (label & Hl & ->).
    apply (wf_version M m p label); assumption.
  - intros [M m p label HM Hm Hp Hl]. unfold version_string.
    repeat (constructor;
            [first [apply numeral_lang; assumption | apply chr_lang; reflexivity]|]).
    apply label_lang. eauto.
Qed.

(** *** The version code of a well-formed version *)

Lemma all_impl (p q : ascii -> bool) (s : string) :
  (forall c, p c = true -> q c = true) -> Str.all p s = true -> Str.all q s = true.
Proof.
  intros Hpq. induction s as [|c s IH]; simpl; [auto|].
  intros H. apply andb_true_iff in H as [Hc Hs]. rewrite (Hpq c Hc). auto.
Qed.

Lemma digit_not (x : ascii) (c : ascii) :
  Dec.is_digit x = false -> Dec.is_digit c = true -> Ascii.eqb c x = false.
Proof.
  intros Hx Hc. destruct (Ascii.eqb c x) eqn:E; [|reflexivity].
  apply Ascii.eqb_eq in E. congruence.
Qed.

Lemma sed_delete_keep (a : string) :
  Str.all (fun c => negb (Ascii.eqb c "-")) a = true ->
  forall rest, sed_delete_from_dash (a ++ rest) = a ++ sed_delete_from_dash rest.
Proof.
  induction a as [|c a IH]; simpl; intros H rest; [reflexivity|].
  apply andb_true_iff in H as [Hc Ha]. apply negb_true_iff in Hc.
  rewrite Hc, IH by assumption. reflexivity.
Qed.

Lemma numeral_all (d : string) : Dec.numeral d = true -> Str.all Dec.is_digit d = true.
Proof. unfold Dec.numeral. intros H. apply andb_true_iff in H. tauto. Qed.

Lemma numeral_no (x : ascii) (d : string) :
  Dec.is_digit x = false -> Dec.numeral d = true ->
  Str.all (fun c => negb (Ascii.eqb c x)) d = true.
Proof.
  intros Hx Hd. apply numeral_all in Hd. revert Hd. apply all_impl.
  intros c Hc. rewrite (digit_not x c Hx Hc). reflexivity.
Qed.

Lemma sed_delete_version M m p label :
  Dec.numeral M = true -> Dec.numeral m = true -> Dec.numeral p = true ->
  sed_delete_from_dash (version_string M m p label) = M ++ "." ++ m ++ "." ++ p.
Proof.
  intros HM Hm Hp. unfold version_string.
  rewrite sed_delete_keep by (apply numeral_no; auto).
  cbn [String.append sed_delete_from_dash]. simpl (Ascii.eqb "." "-").
  rewrite sed_delete_keep by (apply numeral_no; auto).
  cbn [String.append sed_delete_from_dash]. simpl (Ascii.eqb "." "-").
  rewrite sed_delete_keep by (apply numeral_no; auto).
  destruct label as [l|]; simpl; rewrite ?StrFacts.app_nil_r; reflexivity.
Qed.

Lemma awk_fields_nonempty sep s : awk_fields sep s <> [].
Proof.
  destruct s as [|c s]; simpl; [discriminate|].
  destruct (Ascii.eqb c sep); [discriminate|].
  destruct (awk_fields sep s); discriminate.
Qed.

Lemma awk_fields_single sep (a : string) :
  Str.all (fun c => negb (Ascii.eqb c sep)) a = true -> awk_fields sep a = [a].
Proof.
  induction a as [|c a IH]; simpl; intros H; [reflexivity|].
  apply andb_true_iff in H as [Hc Ha]. apply negb_true_iff in Hc.
  rewrite Hc, IH by assumption. reflexivity.
Qed.

Lemma awk_fields_cons sep (a rest : string) :
  Str.all (fun c => negb (Ascii.eqb c sep)) a = true ->
  awk_fields sep (a ++ String sep rest) = a :: awk_fields sep rest.
Proof.
  induction a as [|c a IH]; simpl; intros H.
  - rewrite Ascii.eqb_refl. reflexivity.
  - apply andb_true_iff in H as [Hc Ha]. apply negb_true_iff in Hc.
    rewrite Hc, IH by assumption. reflexivity.
Qed.

(** On a well-formed version the code is the three numbers, converted
    and printed with [%d%02d%02d], whatever the label. *)
Lemma version_code_string M m p label :
  Dec.numeral M = true -> Dec.numeral m = true -> Dec.numeral p = true ->
  version_code (version_string M m p label)
  = Dec.fmt_d (Dec.d_to_int (Dec.value M))
    ++ Dec.fmt_02d (Dec.d_to_int (Dec.value m))
    ++ Dec.fmt_02d (Dec.d_to_int (Dec.value p)).
Proof.
  intros HM Hm Hp. unfold version_code.
  rewrite sed_delete_version by assumption.
  change (M ++ "." ++ m ++ "." ++ p)
    with (M ++ String "." (m ++ String "." p)).
  rewrite awk_fields_cons by (apply numeral_no; auto).
  rewrite awk_fields_cons by (apply numeral_no; auto).
  rewrite awk_fields_single by (apply numeral_no; auto).
  reflexivity.
Qed.

End VersionFacts.

Module JsonFacts.

Import Json.

Lemma obj_set_idem k v fields : obj_set k v (obj_set k v fields) = obj_set k v fields.
Proof.
  induction fields as [|[k' v'] rest IH]; simpl.
  - rewrite String.eqb_refl. reflexivity.
  - destruct (String.eqb k' k) eqn:E; simpl.
    + rewrite String.eqb_refl. reflexivity.
    + rewrite E, IH. reflexivity.
Qed.

Lemma assign_version_idem version j j' :
  assign_version version j = Some j' -> assign_version version j' = Some j'.
Proof.
  destruct j; simpl; intros H; try discriminate; injection H as <-; simpl.
  - reflexivity.
  - rewrite obj_set_idem. reflexivity.
Qed.

End JsonFacts.

Module SedFacts.

Import Str StrFacts Sed.

(** *** Prefixes *)

(** Whether a text no longer than [lit] starts [lit ++ y] does not depend
    on [y]. *)
Lemma is_prefix_app (lit : string) :
  forall l y z,
    String.length l <= String.length lit ->
    is_prefix l (lit ++ y) = is_prefix l (lit ++ z).
Proof.
  unfold is_prefix.
  induction lit as [|a lit IH]; intros [|b l] y z Hlen; simpl in *;
    try reflexivity; try lia.
  destruct (Ascii.eqb b a); [|reflexivity]. apply IH. lia.
Qed.

Section Subst.

Variable lit : string.
Variable tail : string -> option string.
Variable new : string.

Local Abbreviation subst := (subst_first lit tail new).

Lemma match_here_some s suffix :
  match_here lit tail s = Some suffix ->
  exists rest, s = lit ++ rest /\ tail rest = Some suffix.
Proof.
  unfold match_here. destruct (strip_prefix lit s) as [rest|] eqn:E;
    [|discriminate].
  intros H. exists rest. split; [apply strip_prefix_some|]; assumption.
Qed.

Lemma match_here_app rest :
  match_here lit tail (lit ++ rest) = tail rest.
Proof. unfold match_here. rewrite strip_prefix_app. reflexivity. Qed.

Lemma subst_first_match s suffix :
  match_here lit tail s = Some suffix -> subst s = lit ++ new ++ suffix.
Proof. destruct s; simpl; intros ->; reflexivity. Qed.

Lemma subst_first_skip c s :
  match_here lit tail (String c s) = None ->
  subst (String c s) = String c (subst s).
Proof. simpl. intros ->. reflexivity. Qed.

(** The substitution keeps the first characters of the line, as many as
    [lit] has. *)
Lemma subst_first_prefix s :
  forall l, String.length l <= String.length lit ->
            is_prefix l (subst s) = is_prefix l s.
Proof.
  induction s as [|c s IH]; intros l Hlen.
  - destruct (match_here lit tail "") as [suffix|] eqn:E.
    + rewrite (subst_first_match _ _ E).
      apply match_here_some in E as (rest & E & _). rewrite E.
      apply is_prefix_app. assumption.
    + simpl. rewrite E. reflexivity.
  - destruct (match_here lit tail (String c s)) as [suffix|] eqn:E.
    + rewrite (subst_first_match _ _ E).
      apply match_here_some in E as (rest & E & _). rewrite E.
      apply is_prefix_app. assumption.
    + rewrite (subst_first_skip _ _ E). unfold is_prefix.
      destruct l as [|b l]; [reflexivity|]. simpl.
      destruct (Ascii.eqb b c); [|reflexivity].
      apply IH. simpl in Hlen. lia.
Qed.

Lemma strip_prefix_subst c s :
  strip_prefix lit (String c s) = None ->
  strip_prefix lit (String c (subst s)) = None.
Proof.
  intros H.
  assert (E : match_here lit tail (String c s) = None)
    by (unfold match_here; rewrite H; reflexivity).
  pose proof (subst_first_prefix (String c s) lit (Nat.le_refl _)) as P.
  rewrite (subst_first_skip _ _ E) in P. unfold is_prefix in P.
  rewrite H in P.
  destruct (strip_prefix lit (String c (subst s))); [discriminate|reflexivity].
Qed.

(** A line without the fixed text is left as it is. *)
Lemma subst_first_absent s : contains lit s = false -> subst s = s.
Proof.
  induction s as [|c s IH]; intros H; simpl in H.
  - destruct (strip_prefix lit "") eqn:E; [discriminate|].
    simpl. unfold match_here. rewrite E. reflexivity.
  - destruct (strip_prefix lit (String c s)) eqn:E; [discriminate|].
    rewrite subst_first_skip by (unfold match_here; rewrite E; reflexivity).
    rewrite IH by assumption. reflexivity.
Qed.

(** What a substitution does to a line it changes. *)
Lemma subst_first_shape s :
  subst s = s \/
  exists before rest suffix,
    s = before ++ lit ++ rest /\ tail rest = Some suffix /\
    subst s = before ++ lit ++ new ++ suffix.
Proof.
  induction s as [|c s IH].
  - destruct (match_here lit tail "") as [suffix|] eqn:E.
    + right. rewrite (subst_first_match _ _ E).
      apply match_here_some in E as (rest & E & Ht).
      exists "", rest, suffix. auto.
    + left. simpl. rewrite E. reflexivity.
  - destruct (match_here lit tail (String c s)) as [suffix|] eqn:E.
    + right. rewrite (subst_first_match _ _ E).
      apply match_here_some in E as (rest & E & Ht).
      exists "", rest, suffix. auto.
    + rewrite (subst_first_skip _ _ E).
      destruct IH as [IH | (before & rest & suffix & Es & Ht & Er)].
      * left. rewrite IH. reflexivity.
      * right. exists (String c before), rest, suffix.
        rewrite Er, Es. auto.
Qed.

End Subst.

(** *** Occurrences of a text in a line *)

Lemma strip_prefix_extend lit a r x :
  strip_prefix lit a = Some r -> strip_prefix lit (a ++ x) = Some (r ++ x).
Proof.
  revert a. induction lit as [|c lit IH]; intros [|b a]; simpl; intros H;
    try discriminate.
  - injection H as <-. destruct x; reflexivity.
  - injection H as <-. reflexivity.
  - destruct (Ascii.eqb c b); [auto | discriminate].
Qed.

Lemma contains_app_l lit a x : contains lit a = true -> contains lit (a ++ x) = true.
Proof.
  induction a as [|c a IH]; simpl; intros H.
  - destruct (strip_prefix lit "") as [r|] eqn:E; [|discriminate].
    apply (strip_prefix_extend _ _ _ x) in E. simpl in E.
    destruct x; simpl; rewrite E; reflexivity.
  - destruct (strip_prefix lit (String c a)) as [r|] eqn:E.
    + apply (strip_prefix_extend _ _ _ x) in E. simpl in E. rewrite E. reflexivity.
    + destruct (strip_prefix lit (String c (a ++ x))); auto.
Qed.

Lemma contains_app_r lit x b : contains lit b = true -> contains lit (x ++ b) = true.
Proof.
  intros H. induction x as [|c x IH]; simpl; [assumption|].
  destruct (strip_prefix lit (String c (x ++ b))); auto.
Qed.

Section Barrier.

(** [lit] holds no character of the class [p]. *)
Variable p : ascii -> bool.
Variable lit : string.
Hypothesis lit_free : all (fun c => negb (p c)) lit = true.

(** An occurrence of [lit] cannot run over a character of the class. *)
Lemma strip_prefix_barrier :
  forall a c b r,
    p c = true ->
    strip_prefix lit (a ++ String c b) = Some r ->
    exists r', strip_prefix lit a = Some r'.
Proof.
  revert lit_free. induction lit as [|x l IH]; intros Hfree a c b r Hc H.
  - exists a. destruct a; reflexivity.
  - simpl in Hfree. apply andb_true_iff in Hfree as [Hx Hl].
    apply negb_true_iff in Hx.
    destruct a as [|y a]; simpl in *.
    + destruct (Ascii.eqb x c) eqn:E; [|discriminate].
      apply Ascii.eqb_eq in E. congruence.
    + destruct (Ascii.eqb x y); [|discriminate]. eapply IH; eauto.
Qed.

Lemma contains_barrier a c b :
  p c = true ->
  contains lit (a ++ String c b) = true ->
  contains lit a = true \/ contains lit b = true.
Proof.
  intros Hc. induction a as [|y a IH]; intros H.
  - simpl in H. destruct (strip_prefix lit (String c b)) as [r|] eqn:E; [|auto].
    left. apply (strip_prefix_barrier "" c b r Hc) in E as (r' & E).
    simpl. rewrite E. reflexivity.
  - change (String y a ++ String c b) with (String y (a ++ String c b)) in H.
    cbn [contains] in H.
    destruct (strip_prefix lit (String y (a ++ String c b))) as [r|] eqn:E.
    + left. apply (strip_prefix_barrier (String y a) c b r Hc) in E as (r' & E).
      cbn [contains]. rewrite E. reflexivity.
    + destruct (IH H) as [Ha|Hb]; [left|right; assumption].
      cbn [contains]. destruct (strip_prefix lit (String y a)); auto.
Qed.

(** Nor can it start inside a run of such characters. *)
Lemma contains_after_run d b :
  nonempty lit = true ->
  all p d = true ->
  contains lit (d ++ b) = true -> contains lit b = true.
Proof.
  intros Hne. induction d as [|c d IH]; simpl; intros Hd H; [assumption|].
  apply andb_true_iff in Hd as [Hc Hd].
  destruct (strip_prefix lit (String c (d ++ b))) as [r|] eqn:E; [|auto].
  exfalso. destruct lit as [|x l]; [discriminate|]. simpl in E, lit_free.
  apply andb_true_iff in lit_free as [Hx _]. apply negb_true_iff in Hx.
  destruct (Ascii.eqb x c) eqn:Exc; [|discriminate].
  apply Ascii.eqb_eq in Exc. congruence.
Qed.

End Barrier.

(** A line made of characters of a class holds no text with a character
    outside it. *)
Lemma strip_prefix_all p lit s r :
  all p s = true -> strip_prefix lit s = Some r -> all p lit = true.
Proof.
  revert s. induction lit as [|x l IH]; intros [|c s]; simpl; intros Hs H;
    try discriminate; try reflexivity.
  apply andb_true_iff in Hs as [Hc Hs].
  destruct (Ascii.eqb x c) eqn:E; [|discriminate].
  apply Ascii.eqb_eq in E. subst c. rewrite Hc. eauto.
Qed.

Lemma contains_all p lit s :
  all p s = true -> contains lit s = true -> all p lit = true.
Proof.
  induction s as [|c s IH]; simpl; intros Hs H.
  - destruct (strip_prefix lit "") as [r|] eqn:E; [|discriminate].
    eapply strip_prefix_all; [|exact E]. reflexivity.
  - destruct (strip_prefix lit (String c s)) as [r|] eqn:E.
    + eapply strip_prefix_all; [|exact E]. assumption.
    + apply andb_true_iff in Hs as [_ Hs]. auto.
Qed.

(** *** The digit tail *)

Lemma skip_digits_run d r :
  all Dec.is_digit d = true -> skip_digits (d ++ r) = skip_digits r.
Proof.
  induction d as [|c d IH]; simpl; intros H; [reflexivity|].
  apply andb_true_iff in H as [Hc Hd]. rewrite Hc. auto.
Qed.

Lemma skip_digits_idem r : skip_digits (skip_digits r) = skip_digits r.
Proof.
  induction r as [|c r IH]; simpl; [reflexivity|].
  destruct (Dec.is_digit c) eqn:E; [assumption|]. simpl. rewrite E. reflexivity.
Qed.

Lemma skip_digits_split r : exists d, r = d ++ skip_digits r.
Proof.
  induction r as [|c r [d IH]]; simpl; [exists ""; reflexivity|].
  destruct (Dec.is_digit c).
  - exists (String c d). simpl. congruence.
  - exists "". reflexivity.
Qed.

(** *** The quoted tail *)

Lemma tail_quoted_none r : tail_quoted r = None <-> all not_quote r = true.
Proof.
  unfold not_quote. induction r as [|c r IH]; simpl; [tauto|].
  destruct (tail_quoted r).
  - split; [discriminate|]. intros H. apply andb_true_iff in H as [_ H].
    apply IH in H. discriminate.
  - destruct (Ascii.eqb c dquote); simpl; [split; discriminate|].
    split; intros _; [apply IH|]; reflexivity.
Qed.

Lemma tail_quoted_some r suffix :
  tail_quoted r = Some suffix ->
  all not_quote suffix = true /\ exists mid, r = mid ++ String dquote suffix.
Proof.
  revert suffix. induction r as [|c r IH]; simpl; intros suffix H; [discriminate|].
  destruct (tail_quoted r) as [x|] eqn:E.
  - injection H as ->. destruct (IH _ eq_refl) as (Hs & mid & ->).
    split; [assumption|]. exists (String c mid). reflexivity.
  - destruct (Ascii.eqb c dquote) eqn:Ec; [|discriminate].
    injection H as ->. apply Ascii.eqb_eq in Ec. subst c.
    split; [apply tail_quoted_none; assumption|]. exists "". reflexivity.
Qed.

Lemma tail_quoted_last v suffix :
  all not_quote suffix = true ->
  tail_quoted (v ++ String dquote suffix) = Some suffix.
Proof.
  intros Hs. apply tail_quoted_none in Hs.
  induction v as [|c v IH]; simpl.
  - rewrite Hs. reflexivity.
  - rewrite IH. reflexivity.
Qed.

(** Two ways to cut one line: the longer head extends the shorter one. *)
Lemma app_eq_app (a b c d : string) :
  a ++ b = c ++ d -> String.length c <= String.length a ->
  exists x, d = x ++ b.
Proof.
  revert c. induction a as [|y a IH]; intros [|z c]; simpl; intros H Hlen;
    try lia.
  - exists "". auto.
  - exists (String y a). auto.
  - injection H as -> H. apply (IH c); [assumption | lia].
Qed.

Lemma all_app_r p x b : all p (x ++ b) = true -> all p b = true.
Proof. rewrite all_app. intros H. apply andb_true_iff in H. tauto. Qed.

Section Quoted.

Variable lit : string.
Variable new : string.

Local Abbreviation subst := (subst_first lit tail_quoted new).

(** No double quote after the place where the fixed text would end: no
    match on the line. *)
Lemma subst_quoted_no_quote s :
  forall a b,
    s = a ++ b -> String.length a <= String.length lit ->
    all not_quote b = true -> subst s = s.
Proof.
  induction s as [|c s IH]; intros a b Es Hlen Hb.
  - unfold subst_first, match_here.
    destruct (strip_prefix lit "") as [r|] eqn:E; [|reflexivity].
    apply strip_prefix_some in E. destruct lit; [|discriminate].
    simpl in E. subst r. reflexivity.
  - assert (E : match_here lit tail_quoted (String c s) = None).
    { unfold match_here.
      destruct (strip_prefix lit (String c s)) as [rest|] eqn:E; [|reflexivity].
      apply strip_prefix_some in E. rewrite Es in E. symmetry in E.
      apply app_eq_app in E as (x & ->); [|assumption].
      apply tail_quoted_none. eapply all_app_r. eassumption. }
    rewrite subst_first_skip by assumption. f_equal.
    destruct a as [|y a]; simpl in Es.
    + subst b. simpl in Hb. apply andb_true_iff in Hb as [_ Hb].
      apply (IH "" s); [reflexivity | simpl; lia | assumption].
    + injection Es as -> ->.
      apply (IH a b); [reflexivity | simpl in Hlen; lia | assumption].
Qed.

End Quoted.

(** *** Each substitution, applied twice *)

Lemma subst_digits_idem lit code s :
  all Dec.is_digit code = true ->
  subst_first lit tail_digits code (subst_first lit tail_digits code s)
  = subst_first lit tail_digits code s.
Proof.
  intros Hcode. induction s as [|c s IH].
  - destruct (match_here lit tail_digits "") as [suffix|] eqn:E.
    + rewrite (subst_first_match _ _ _ _ _ E).
      apply match_here_some in E as (rest & _ & Ht). injection Ht as <-.
      apply subst_first_match. rewrite match_here_app. unfold tail_digits.
      rewrite skip_digits_run, skip_digits_idem by assumption. reflexivity.
    + simpl. rewrite E. simpl. rewrite E. reflexivity.
  - destruct (match_here lit tail_digits (String c s)) as [suffix|] eqn:E.
    + rewrite (subst_first_match _ _ _ _ _ E).
      apply match_here_some in E as (rest & _ & Ht). injection Ht as <-.
      apply subst_first_match. rewrite match_here_app. unfold tail_digits.
      rewrite skip_digits_run, skip_digits_idem by assumption. reflexivity.
    + rewrite (subst_first_skip _ _ _ _ _ E).
      assert (Hs : strip_prefix lit (String c s) = None).
      { unfold match_here, tail_digits in E.
        destruct (strip_prefix lit (String c s)); [discriminate|reflexivity]. }
      apply (strip_prefix_subst lit tail_digits code) in Hs.
      rewrite subst_first_skip by (unfold match_here; rewrite Hs; reflexivity).
      rewrite IH. reflexivity.
Qed.

Lemma subst_quoted_idem lit v s :
  all not_quote v = true ->
  let new := v ++ String dquote "" in
  subst_first lit tail_quoted new (subst_first lit tail_quoted new s)
  = subst_first lit tail_quoted new s.
Proof.
  intros Hv new.
  assert (Hmatch : forall s suffix,
             match_here lit tail_quoted s = Some suffix ->
             subst_first lit tail_quoted new (lit ++ new ++ suffix)
             = lit ++ new ++ suffix).
  { intros s0 suffix E.
    apply match_here_some in E as (rest & _ & Ht).
    apply tail_quoted_some in Ht as [Hsuf _].
    apply subst_first_match. rewrite match_here_app. unfold new.
    rewrite app_assoc. simpl. apply tail_quoted_last. assumption. }
  induction s as [|c s IH].
  - destruct (match_here lit tail_quoted "") as [suffix|] eqn:E.
    + rewrite (subst_first_match _ _ _ _ _ E). eapply Hmatch. eassumption.
    + simpl. rewrite E. simpl. rewrite E. reflexivity.
  - destruct (match_here lit tail_quoted (String c s)) as [suffix|] eqn:E.
    + rewrite (subst_first_match _ _ _ _ _ E). eapply Hmatch. eassumption.
    + destruct (strip_prefix lit (String c s)) as [rest|] eqn:Hs.
      * assert (Hsame : subst_first lit tail_quoted new (String c s) = String c s).
        { apply (subst_quoted_no_quote lit new _ lit rest).
          - apply strip_prefix_some. assumption.
          - lia.
          - apply tail_quoted_none. unfold match_here in E. rewrite Hs in E.
            assumption. }
        rewrite Hsame. assumption.
      * rewrite (subst_first_skip _ _ _ _ _ E).
        apply (strip_prefix_subst lit tail_quoted new) in Hs.
        rewrite subst_first_skip by (unfold match_here; rewrite Hs; reflexivity).
        rewrite IH. reflexivity.
Qed.

End SedFacts.

Module DescriptorFacts.

Import Str StrFacts Sed SedFacts Version VersionFacts.

(** *** The characters of a validated version *)

Lemma digit_version_char c : Dec.is_digit c = true -> is_version_char c = true.
Proof.
  unfold is_version_char, is_label_char. intros ->.
  rewrite orb_true_r. reflexivity.
Qed.

Lemma label_version_char c : is_label_char c = true -> is_version_char c = true.
Proof. unfold is_version_char. intros ->. reflexivity. Qed.

Lemma version_chars v : semver_match v = true -> all is_version_char v = true.
Proof.
  intros H. apply semver_match_iff in H.
  destruct H as [M m p label HM Hm Hp Hl]. unfold version_string.
  assert (Hnum : forall d, Dec.numeral d = true -> all is_version_char d = true).
  { intros d Hd. apply numeral_all in Hd. revert Hd.
    apply all_impl, digit_version_char. }
  rewrite !all_app, (Hnum M HM), (Hnum m Hm), (Hnum p Hp). simpl.
  destruct label as [l|]; simpl in *; [|reflexivity].
  apply andb_true_iff in Hl as [_ Hl]. revert Hl.
  apply all_impl, label_version_char.
Qed.

Lemma version_char_not_quote c : is_version_char c = true -> not_quote c = true.
Proof.
  destruct c as [[] [] [] [] [] [] [] []]; vm_compute; intros H;
    first [reflexivity | discriminate].
Qed.

Lemma version_char_not_space c : is_version_char c = true -> not_space c = true.
Proof.
  destruct c as [[] [] [] [] [] [] [] []]; vm_compute; intros H;
    first [reflexivity | discriminate].
Qed.

Lemma version_no_quote v : semver_match v = true -> all not_quote v = true.
Proof.
  intros H. apply version_chars in H. revert H.
  apply all_impl, version_char_not_quote.
Qed.

Lemma version_no_space v : semver_match v = true -> all not_space v = true.
Proof.
  intros H. apply version_chars in H. revert H.
  apply all_impl, version_char_not_space.
Qed.

(** *** The version code is a non-empty run of digits *)

Lemma digits_nonempty fuel n acc :
  nonempty acc = true -> nonempty (Dec.digits fuel n acc) = true.
Proof.
  revert n acc. induction fuel as [|fuel IH]; intros n acc H; simpl;
    [assumption|].
  destruct (n <? 10)%N; [reflexivity|]. apply IH. reflexivity.
Qed.

Lemma fmt_d_nonempty n : nonempty (Dec.fmt_d n) = true.
Proof.
  unfold Dec.fmt_d. simpl. destruct (n <? 10)%N; [reflexivity|].
  apply digits_nonempty. reflexivity.
Qed.

Lemma version_code_digits v :
  all Dec.is_digit (version_code v) = true /\ nonempty (version_code v) = true.
Proof.
  unfold version_code. split.
  - rewrite !all_app.
    rewrite (proj1 (DecFacts.fmt_d_spec _)), !(proj1 (DecFacts.fmt_02d_spec _)).
    reflexivity.
  - pose proof (fmt_d_nonempty (Dec.d_to_int (Dec.value
      (awk_field 1 (awk_fields "." (sed_delete_from_dash v)))))) as H.
    destruct (Dec.fmt_d _); [discriminate | reflexivity].
Qed.

(** *** The two substitutions of the build descriptor do not feed each other *)

(** Writing the code brings no [versionName] field to a line. *)
Lemma code_keeps_name_absent code line :
  all Dec.is_digit code = true -> nonempty code = true ->
  contains version_name_key line = false ->
  contains version_name_key (subst_version_code code line) = false.
Proof.
  intros Hd Hne Habs. unfold subst_version_code.
  destruct (subst_first_shape "versionCode " tail_digits code line)
    as [-> | (before & rest & suffix & Es & Ht & ->)]; [assumption|].
  destruct (contains version_name_key
              (before ++ "versionCode " ++ code ++ suffix)) eqn:E; [|reflexivity].
  exfalso. rewrite <- Bool.not_true_iff_false in Habs. apply Habs. clear Habs.
  injection Ht as <-. destruct (skip_digits_split rest) as [d Hrest].
  destruct code as [|c code]; [discriminate|]. simpl in Hd.
  apply andb_true_iff in Hd as [Hc Hcode].
  rewrite <- app_assoc in E.
  change (String c code ++ skip_digits rest)
    with (String c (code ++ skip_digits rest)) in E.
  apply (contains_barrier Dec.is_digit version_name_key eq_refl) in E;
    [|assumption].
  rewrite Es. destruct E as [E|E].
  - rewrite <- app_assoc. apply contains_app_l. assumption.
  - apply (contains_after_run Dec.is_digit version_name_key eq_refl) in E;
      [|reflexivity|assumption].
    rewrite Hrest, <- !app_assoc. apply contains_app_r. assumption.
Qed.

(** Writing the name brings no [versionCode] field to a line. *)
Lemma name_keeps_code_absent v line :
  all not_quote v = true -> all not_space v = true ->
  contains "versionCode " line = false ->
  contains "versionCode " (subst_version_name v line) = false.
Proof.
  intros Hq Hs Habs. unfold subst_version_name.
  destruct (subst_first_shape version_name_key tail_quoted
              (v ++ String dquote "") line)
    as [-> | (before & rest & suffix & Es & Ht & ->)]; [assumption|].
  destruct (contains "versionCode "
              (before ++ version_name_key ++ (v ++ String dquote "") ++ suffix))
    eqn:E; [|reflexivity].
  exfalso. rewrite <- Bool.not_true_iff_false in Habs. apply Habs. clear Habs.
  apply tail_quoted_some in Ht as (_ & mid & ->).
  unfold version_name_key in *.
  assert (Enew : before ++ ("versionName " ++ String dquote "")
                   ++ (v ++ String dquote "") ++ suffix
                 = (before ++ "versionName ")
                   ++ String dquote (v ++ String dquote suffix)).
  { rewrite !app_assoc. reflexivity. }
  assert (Eold : line = (before ++ "versionName ")
                        ++ String dquote (mid ++ String dquote suffix)).
  { rewrite Es, !app_assoc. reflexivity. }
  rewrite Enew in E. rewrite Eold.
  apply (contains_barrier (Ascii.eqb dquote) "versionCode " eq_refl) in E;
    [|reflexivity].
  destruct E as [E|E]; [apply contains_app_l; assumption|].
  apply (contains_barrier (Ascii.eqb dquote) "versionCode " eq_refl) in E;
    [|reflexivity].
  destruct E as [E|E].
  - apply (contains_all not_space) in E; [discriminate | assumption].
  - apply contains_app_r.
    change (String dquote (mid ++ String dquote suffix))
      with ((String dquote mid) ++ String dquote suffix).
    apply contains_app_r.
    change (String dquote suffix) with (String dquote "" ++ suffix).
    apply contains_app_r. assumption.
Qed.

(** *** One line of the build descriptor, bumped twice *)

Lemma bump_gradle_line_idem v line :
  semver_match v = true -> one_field line = true ->
  bump_gradle_line v (version_code v) (bump_gradle_line v (version_code v) line)
  = bump_gradle_line v (version_code v) line.
Proof.
  intros Hv H1. unfold bump_gradle_line.
  destruct (version_code_digits v) as [Hd Hne].
  pose proof (version_no_quote v Hv) as Hq.
  pose proof (version_no_space v Hv) as Hs.
  unfold one_field in H1. apply negb_true_iff, andb_false_iff in H1.
  destruct H1 as [Hc|Hn].
  - (* no versionCode on the line *)
    assert (E1 : subst_version_code (version_code v) line = line)
      by (apply subst_first_absent; assumption).
    rewrite E1.
    assert (E2 : subst_version_code (version_code v) (subst_version_name v line)
                 = subst_version_name v line).
    { apply subst_first_absent, name_keeps_code_absent; assumption. }
    rewrite E2. unfold subst_version_name.
    apply subst_quoted_idem. assumption.
  - (* no versionName on the line *)
    pose proof (code_keeps_name_absent _ line Hd Hne Hn) as Hn'.
    assert (E1 : subst_version_name v (subst_version_code (version_code v) line)
                 = subst_version_code (version_code v) line)
      by (apply subst_first_absent; assumption).
    rewrite E1.
    assert (E3 : subst_version_code (version_code v)
                   (subst_version_code (version_code v) line)
                 = subst_version_code (version_code v) line)
      by (apply subst_digits_idem; assumption).
    rewrite E3. exact E1.
Qed.

Lemma subst_package_version_idem v line :
  semver_match v = true ->
  subst_package_version v (subst_package_version v line)
  = subst_package_version v line.
Proof.
  intros Hv. apply subst_quoted_idem, version_no_quote. assumption.
Qed.

End DescriptorFacts.

Module ReleaseFacts.

Import Release Stages.

(** *** Running the primitives *)

Lemma bind_assoc {A B C : Type} (c : sh A) (k : A -> sh B) (h : B -> sh C) s :
  bind (bind c k) h s = bind c (fun a => bind (k a) h) s.
Proof. unfold bind. destruct (c s); reflexivity. Qed.

Lemma bind_ext {A B : Type} (c : sh A) (k k' : A -> sh B) s :
  (forall a s', k a s' = k' a s') -> bind c k s = bind c k' s.
Proof. intros H. unfold bind. destruct (c s); auto. Qed.

Lemma echo_lines_run lines s :
  echo_lines lines s = Done tt (with_out s (map Echo lines)).
Proof.
  revert s. induction lines as [|l lines IH]; intros s; simpl.
  - unfold ret, with_out. rewrite app_nil_r. destruct s; reflexivity.
  - unfold bind, echo, print, modify. rewrite IH. unfold with_out. simpl.
    rewrite <- app_assoc. reflexivity.
Qed.

Lemma same_tree_refl s : same_tree s s.
Proof. split; reflexivity. Qed.

Lemma same_tree_trans s1 s2 s3 :
  same_tree s1 s2 -> same_tree s2 s3 -> same_tree s1 s3.
Proof. unfold same_tree. intros [-> ->] [-> ->]. auto. Qed.

(** *** Symbolic execution *)

#[local] Opaque Version.semver_match Version.version_code String.eqb
  Sed.subst_package_version Sed.subst_version_code Sed.subst_version_name
  Sed.grep_version String.append String.concat.

Ltac unfold_script :=
  cbv [checks confirm_release dry_run_report mutate verify publish report live
       print_header check_dependencies validate_version continue_anyway
       check_git_status check_tag_exists update_package_json jq_set_version
       update_android_version sed_i run_tests verify_build
       commit_version_changes create_and_push_tag run
       bind ret exit get modify print log read echo print_error print_warning
       print_info print_success print_step set_USE_JQ set_CURRENT_BRANCH
       w out trace stdin USE_JQ CURRENT_BRANCH set_w with_out].

Ltac reduce_state :=
  cbn [w out trace stdin USE_JQ CURRENT_BRANCH set_w
       package_json build_gradle staged commits tags heads remote_branches
       remote_tags write_package_json write_build_gradle
       negb andb orb app].

(** One step: settle the next test the script makes. *)
Ltac branch :=
  first
    [ rewrite echo_lines_run
    | match goal with
      | |- context [if has_git ?e then _ else _] => destruct (has_git e) eqn:?
      | |- context [if has_node ?e then _ else _] => destruct (has_node e) eqn:?
      | |- context [match (if ?b then _ else _) with _ => _ end] =>
          destruct b eqn:?
      | |- context [match (if ?b then _ else _) ?s with _ => _ end] =>
          destruct b eqn:?
      | |- context [match ?x with [] => _ | _ :: _ => _ end] => destruct x eqn:?
      | |- context [match ?x with Some _ => _ | None => _ end] =>
          destruct x eqn:?
      | |- context [if ?b then _ else _] => destruct b eqn:?
      end ];
  reduce_state.

Ltac exec := unfold_script; reduce_state; repeat branch.

Ltac statuses :=
  repeat match goal with
         | H : (?x =? 0)%N = true |- _ => apply N.eqb_eq in H; try rewrite H in *
         | H : (?x =? 0)%N = false |- _ => apply N.eqb_neq in H
         end.

Ltac finish :=
  statuses; unfold same_tree, repositories; cbn;
  rewrite ?map_map, <- ?app_assoc, ?app_nil_r; cbn;
  intuition (auto; try congruence).

(** A version outside the grammar: the script stops right after
    [validate_version], having printed only. *)
Lemma perform_release_invalid e o version s :
  Version.semver_match version = false ->
  perform_release e o version s
  = Exited 1 InvalidVersion
      (with_out s
         [ Echo "+-----------------------------------------------------------+";
           Echo "|           NativeBridge Release Automation                 |";
           Echo "+-----------------------------------------------------------+";
           Echo "";
           Echo ("Release Version: " ++ version);
           Echo ("Tag: v" ++ version);
           Echo "";
           Err ("Invalid version format: " ++ version);
           Info "Version must follow semantic versioning (e.g., 1.0.0, 1.2.3-beta)" ]).
Proof.
  intros H. unfold perform_release. unfold_script. rewrite H.
  unfold with_out. rewrite <- !app_assoc. reflexivity.
Qed.

(** *** The script, stage by stage *)

Lemma perform_release_staged e o version s :
  perform_release e o version s = staged_release e o version s.
Proof.
  unfold staged_release, perform_release, live, report, publish, verify, mutate,
    checks.
  repeat (rewrite ?bind_assoc;
          first [reflexivity | apply bind_ext; intros ? ?; cbv beta]).
Qed.

Lemma checks_spec e o version s :
  match checks e o version s with
  | Done _ s' =>
      same_tree s s' /\
      Version.semver_match version = true /\
      rev_parse e (w s) ("v" ++ version) = false /\
      USE_JQ s' = has_jq e /\ CURRENT_BRANCH s' = git_branch e
  | Exited code x s' =>
      same_tree s s' /\ code = 1%N /\
      In x [InvalidVersion; MissingDependencies; NotAGitRepository;
            AbortedByUser; ReadFailed; TagExists] /\
      (x = InvalidVersion -> Version.semver_match version = false) /\
      (x = TagExists -> rev_parse e (w s) ("v" ++ version) = true)
  end.
Proof.
  destruct s as [w0 out0 trace0 stdin0 jq0 branch0].
  exec; finish.
Qed.

Lemma confirm_spec o version s :
  match confirm_release o version s with
  | Done _ s' =>
      same_tree s s' /\ USE_JQ s' = USE_JQ s /\
      CURRENT_BRANCH s' = CURRENT_BRANCH s
  | Exited code x s' =>
      same_tree s s' /\ code = 1%N /\ In x [ReadFailed; ReleaseCancelled]
  end.
Proof.
  destruct s as [w0 out0 trace0 stdin0 jq0 branch0].
  exec; finish.
Qed.

Lemma dry_run_spec version s :
  exists s', dry_run_report version s = Exited 0 DryRunCompleted s' /\
             same_tree s s'.
Proof.
  destruct s as [w0 out0 trace0 stdin0 jq0 branch0].
  eexists. split; [exec; reflexivity | finish].
Qed.

Lemma mutate_spec e version s :
  match mutate e version s with
  | Done _ s' =>
      new_package_json e (USE_JQ s) version (package_json (w s))
      = Some (package_json (w s')) /\
      build_gradle (w s') = new_build_gradle version (build_gradle (w s)) /\
      repositories (w s') = repositories (w s) /\
      trace s' = (trace s ++ [(WriteFile PackageJson, 0%N);
                              (WriteFile BuildGradle, 0%N);
                              (WriteFile BuildGradle, 0%N)])%list /\
      USE_JQ s' = USE_JQ s /\ CURRENT_BRANCH s' = CURRENT_BRANCH s /\
      Sed.grep_version (package_json (w s')) <> []
  | Exited code x s' =>
      In x [JqFailed; GrepFailed] /\ code <> 0%N /\
      (new_package_json e (USE_JQ s) version (package_json (w s)) = None \/
       exists pkg,
         new_package_json e (USE_JQ s) version (package_json (w s)) = Some pkg /\
         Sed.grep_version pkg = []) /\
      build_gradle (w s') = build_gradle (w s) /\
      repositories (w s') = repositories (w s) /\
      (trace s' = trace s \/
       trace s' = (trace s ++ [(WriteFile PackageJson, 0%N)])%list)
  end.
Proof.
  destruct s as [w0 out0 trace0 stdin0 jq0 branch0].
  unfold new_package_json, new_build_gradle, Sed.bump_gradle_line.
  exec; finish; right; eauto.
Qed.

Lemma verify_spec e o s :
  match verify e o s with
  | Done _ s' =>
      w s' = w s /\
      trace s' = (trace s ++ (if SKIP_TESTS o then [] else [(NpmTest, 0%N)])
                          ++ (if SKIP_BUILD o then [] else [(Gradlew, 0%N)]))%list /\
      USE_JQ s' = USE_JQ s /\ CURRENT_BRANCH s' = CURRENT_BRANCH s
  | Exited code x s' =>
      code = 1%N /\ w s' = w s /\
      ((x = TestsFailed /\ SKIP_TESTS o = false /\ npm_test e <> 0%N /\
        trace s' = (trace s ++ [(NpmTest, npm_test e)])%list) \/
       (x = BuildFailed /\ SKIP_BUILD o = false /\ gradlew e <> 0%N /\
        trace s' = (trace s ++ (if SKIP_TESTS o then [] else [(NpmTest, 0%N)])
                            ++ [(Gradlew, gradlew e)])%list))
  end.
Proof.
  destruct s as [w0 out0 trace0 stdin0 jq0 branch0].
  exec; finish.
Qed.

Lemma publish_spec e version s :
  match publish e version s with
  | Done _ s' =>
      package_json (w s') = package_json (w s) /\
      build_gradle (w s') = build_gradle (w s) /\
      trace s' = (trace s ++ [(GitAdd, 0%N); (GitCommit, 0%N); (GitTag, 0%N);
                              (GitPushBranch, 0%N); (GitPushTag, 0%N)])%list
  | Exited code x s' =>
      code <> 0%N /\
      package_json (w s') = package_json (w s) /\
      build_gradle (w s') = build_gradle (w s) /\
      ((x = GitAddFailed /\ code = git_add e /\
        trace s' = (trace s ++ [(GitAdd, code)])%list) \/
       (x = GitCommitFailed /\ code = git_commit e /\
        trace s' = (trace s ++ [(GitAdd, 0%N); (GitCommit, code)])%list) \/
       (x = GitTagFailed /\
        trace s' = (trace s ++ [(GitAdd, 0%N); (GitCommit, 0%N);
                                (GitTag, code)])%list) \/
       (x = GitPushBranchFailed /\ code = git_push_branch e /\
        trace s' = (trace s ++ [(GitAdd, 0%N); (GitCommit, 0%N); (GitTag, 0%N);
                                (GitPushBranch, code)])%list) \/
       (x = GitPushTagFailed /\ code = git_push_tag e /\
        trace s' = (trace s ++ [(GitAdd, 0%N); (GitCommit, 0%N); (GitTag, 0%N);
                                (GitPushBranch, 0%N); (GitPushTag, code)])%list))
  end.
Proof.
  destruct s as [w0 out0 trace0 stdin0 jq0 branch0].
  exec; finish.
Qed.

Lemma report_spec e version s :
  exists s', report e version s = Done tt s' /\ same_tree s s'.
Proof.
  destruct s as [w0 out0 trace0 stdin0 jq0 branch0].
  eexists. split; [exec; reflexivity | finish].
Qed.

(** *** The command line *)

Lemma parse_args_spec args :
  forall o s,
    match parse_args args o s with
    | Done _ s' => same_tree s s'
    | Exited code x s' =>
        same_tree s s' /\
        ((x = HelpRequested /\ code = 0%N) \/
         (In x [UnknownOption; MultipleVersions] /\ code = 1%N))
    end.
Proof.
  induction args as [|a rest IH]; intros o s; cbn [parse_args].
  - exec. finish.
  - repeat match goal with
           | |- context [if ?b then _ else _] => destruct b
           end;
      try apply IH;
      destruct s as [w0 out0 trace0 stdin0 jq0 branch0];
      unfold show_usage; exec; finish.
Qed.

Lemma parse_args_dry_run args :
  forall o s o' s',
    parse_args args o s = Done o' s' ->
    DRY_RUN o = true \/ In "--dry-run"%string args ->
    DRY_RUN o' = true.
Proof.
  induction args as [|a rest IH]; intros o s o' s' Hrun Hflag;
    cbn [parse_args] in Hrun.
  - injection Hrun as <- _. destruct Hflag as [H|[]]. exact H.
  - repeat match type of Hrun with
           | context [if ?b then _ else _] => destruct b eqn:?
           end;
      try (apply (IH _ _ _ _ Hrun); cbn [DRY_RUN];
           destruct Hflag as [H|[Ha|H]]; auto; subst a;
           repeat match goal with
                  | E : _ = true |- _ =>
                      vm_compute in E; first [discriminate E | clear E]
                  | E : _ = false |- _ =>
                      vm_compute in E; first [discriminate E | clear E]
                  end; fail);
      exfalso; destruct s as [w0 out0 trace0 stdin0 jq0 branch0];
      revert Hrun; unfold show_usage; exec; discriminate.
Qed.

(** With [DRY_RUN] set the release never gets to the mutation stage. *)
Lemma perform_release_dry_run e o version s :
  DRY_RUN o = true ->
  same_tree s (final (perform_release e o version s)).
Proof.
  intros Hdry. rewrite perform_release_staged. unfold staged_release, bind.
  pose proof (checks_spec e o version s) as Hc.
  destruct (checks e o version s) as [a s0|code x s0]; [|apply Hc].
  destruct Hc as (Hc & _).
  pose proof (confirm_spec o version s0) as Hf.
  destruct (confirm_release o version s0) as [a0 s1|code x s1].
  - destruct Hf as (Hf & _). rewrite Hdry.
    destruct (dry_run_spec version s1) as (s2 & E & Hd). rewrite E.
    apply (same_tree_trans s s0); [assumption|].
    apply (same_tree_trans s0 s1); assumption.
  - destruct Hf as (Hf & _). apply (same_tree_trans s s0); assumption.
Qed.

Lemma perform_release_prerelease e o o' version s :
  same_but_prerelease o o' ->
  perform_release e o version s = perform_release e o' version s.
Proof.
  destruct o, o'. unfold same_but_prerelease. cbn.
  intros (-> & -> & -> & -> & ->). reflexivity.
Qed.

Lemma parse_args_prerelease args :
  forall o o' s,
    same_but_prerelease o o' ->
    match parse_args args o s, parse_args args o' s with
    | Done o1 s1, Done o2 s2 => same_but_prerelease o1 o2 /\ s1 = s2
    | Exited c1 x1 s1, Exited c2 x2 s2 => c1 = c2 /\ x1 = x2 /\ s1 = s2
    | _, _ => False
    end.
Proof.
  induction args as [|a rest IH]; intros o o' s Ho; cbn [parse_args].
  - unfold ret. auto.
  - destruct Ho as (Hv & Ht & Hb & Hd & Hf). rewrite Hv.
    repeat match goal with
           | |- context [if ?b then _ else _] => destruct b
           end;
      try (apply IH; unfold same_but_prerelease; cbn; auto);
      match goal with
      | |- context [match ?r with _ => _ end] =>
          destruct r; unfold same_but_prerelease; repeat split; reflexivity
      end.
Qed.

End ReleaseFacts.

(** * The properties of the specification *)

Module VersionProperties.

Import Str StrFacts Dec DecFacts Version VersionFacts.

Open Scope N_scope.

(** C1. The script breaks the formula it documents: with a patch number
    of three digits, the version [1.2.100] passes validation and
    [%d%02d%02d] prints [102100], which is not
    [1 * 10000 + 2 * 100 + 100 = 10300]. *)
Lemma version_code_wide_patch :
  numeral "1" = true /\ numeral "2" = true /\ numeral "100" = true /\
  semver_match "1.2.100" = true /\
  version_code "1.2.100" = "102100"%string /\
  ~ encodes_triple "1" "2" "100" None.
Proof.
  repeat (split; [vm_compute; reflexivity|]).
  intros [_ H]. vm_compute in H. discriminate.
Qed.

(** Where the formula does hold: for every well-formed version [M.m.p],
    optionally followed by [-label], whose minor and patch numbers are at
    most 99 and whose major number fits an [int] (it is below [2^31]),
    validation succeeds and the version code written into the build
    descriptor is a run of digits that reads as
    [M * 10000 + m * 100 + p], whatever the label. *)
Theorem version_code_encoding (M m p : string) (label : option string) :
  numeral M = true -> numeral m = true -> numeral p = true ->
  label_ok label = true ->
  value M < 2 ^ 31 -> value m <= 99 -> value p <= 99 ->
  encodes_triple M m p label /\
  all is_digit (version_code (version_string M m p label)) = true.
Proof.
  intros HM Hm Hp Hl HM31 Hm99 Hp99. unfold encodes_triple. cbv zeta.
  rewrite version_code_string by assumption.
  rewrite (d_to_int_small (value M)) by assumption.
  rewrite (d_to_int_small (value m))
    by (change (2 ^ 31) with 2147483648; lia).
  rewrite (d_to_int_small (value p))
    by (change (2 ^ 31) with 2147483648; lia).
  destruct (fmt_d_spec (value M)) as [HMd HMv].
  destruct (fmt_02d_spec (value m)) as [Hmd Hmv].
  destruct (fmt_02d_spec (value p)) as [Hpd Hpv].
  assert (Hmp : all is_digit (fmt_02d (value m) ++ fmt_02d (value p)) = true)
    by (rewrite all_app, Hmd, Hpd; reflexivity).
  repeat split.
  - apply semver_match_iff. constructor; assumption.
  - rewrite value_app by assumption.
    rewrite (value_app (fmt_02d (value m))) by assumption.
    rewrite length_app, !fmt_02d_length by lia.
    rewrite HMv, Hmv, Hpv. change (10 ^ N.of_nat (2 + 2)) with 10000.
    change (10 ^ N.of_nat 2) with 100. lia.
  - rewrite all_app, HMd, Hmp. reflexivity.
Qed.

Lemma version_code_encoding_witness :
  encodes_triple "1" "2" "3" (Some "beta"%string) /\
  all is_digit (version_code "1.2.3-beta") = true /\
  version_code "1.2.3-beta" = "10203"%string.
Proof.
  destruct (version_code_encoding "1" "2" "3" (Some "beta"%string)) as [H1 H2];
    try reflexivity; try (vm_compute; intros H; discriminate H).
  split; [exact H1|]. split; [exact H2|]. vm_compute. reflexivity.
Defined.

(** C2. Two valid versions with the same numbers for major, minor and
    patch get the same version code, whatever their labels (or their
    absence): the code depends on the triple only. *)
Theorem version_code_ignores_label
  (M m p M' m' p' : string) (label label' : option string) :
  numeral M = true -> numeral m = true -> numeral p = true ->
  numeral M' = true -> numeral m' = true -> numeral p' = true ->
  label_ok label = true -> label_ok label' = true ->
  value M = value M' -> value m = value m' -> value p = value p' ->
  semver_match (version_string M m p label) = true /\
  semver_match (version_string M' m' p' label') = true /\
  version_code (version_string M m p label)
  = version_code (version_string M' m' p' label').
Proof.
  intros HM Hm Hp HM' Hm' Hp' Hl Hl' EM Em Ep.
  split; [|split]; try (apply semver_match_iff; constructor; assumption).
  rewrite !version_code_string by assumption.
  rewrite EM, Em, Ep. reflexivity.
Qed.

Lemma version_code_ignores_label_witness :
  version_code "1.0.0" = version_code "1.0.0-beta" /\
  version_code "1.0.0" = version_code "01.00.0-rc.1".
Proof.
  split.
  - apply (version_code_ignores_label "1" "0" "0" "1" "0" "0" None
             (Some "beta"%string)); reflexivity.
  - apply (version_code_ignores_label "1" "0" "0" "01" "00" "0" None
             (Some "rc.1"%string)); reflexivity.
Defined.

End VersionProperties.

Module PipelineProperties.

Import Release Stages ReleaseFacts.

(** Run one stage and keep what its specification says of the result. *)
Ltac stage spec :=
  let H := fresh "Hstage" in
  pose proof spec as H;
  match type of H with
  | match ?c ?s with _ => _ end =>
      let a := fresh "a" in
      let s' := fresh "s" in
      let code := fresh "code" in
      let x := fresh "x" in
      destruct (c s) as [a s'|code x s']
  | exists s', ?c ?s = _ /\ _ =>
      let s'' := fresh "s" in
      let E := fresh "E" in
      destruct H as (s'' & E & H); rewrite E
  end.

(** C3. For every input that is not of the form
    [MAJOR.MINOR.PATCH[-label]], whatever the options, the release stops
    with status 1 right after validation: the error printed shows the
    rejected input and names the expected form (semantic versioning, with
    examples), no file is written, no command is run and the repositories
    are as they were. *)
Theorem invalid_version_rejected (e : env) (o : options) (version : string)
  (s : state) :
  ~ Version.well_formed version ->
  exists s',
    perform_release e o version s = Exited 1 InvalidVersion s' /\
    w s' = w s /\ trace s' = trace s /\
    In (Err ("Invalid version format: " ++ version)) (out s') /\
    In (Info "Version must follow semantic versioning (e.g., 1.0.0, 1.2.3-beta)")
       (out s').
Proof.
  intros Hwf.
  assert (H : Version.semver_match version = false).
  { destruct (Version.semver_match version) eqn:E; [|reflexivity].
    exfalso. apply Hwf, VersionFacts.semver_match_iff. assumption. }
  eexists. split; [apply perform_release_invalid; assumption|].
  unfold with_out. cbn [w trace out].
  repeat split; apply in_or_app; right; simpl; tauto.
Qed.

Lemma invalid_version_rejected_witness :
  ~ Version.well_formed "1.0" /\
  ~ Version.well_formed "v1.0.0" /\
  ~ Version.well_formed "1.0.0.0" /\
  exists s',
    perform_release Sample.env_ok Sample.force "1.0" Sample.state0
    = Exited 1 InvalidVersion s' /\
    w s' = Sample.world0 /\ trace s' = [].
Proof.
  assert (Hno : forall v, Version.semver_match v = false ->
                          ~ Version.well_formed v).
  { intros v Hv Hwf. apply VersionFacts.semver_match_iff in Hwf. congruence. }
  repeat (split; [apply Hno; vm_compute; reflexivity|]).
  destruct (invalid_version_rejected Sample.env_ok Sample.force "1.0"
              Sample.state0) as (s' & E & Hw & Ht & _).
  - apply Hno. vm_compute. reflexivity.
  - exists s'. repeat split; assumption.
Defined.

Lemma rev_parse_tag (e : env) (x : world) (name : string) :
  In name (map tag_name (tags x)) -> rev_parse e x name = true.
Proof.
  intros H. unfold rev_parse. rewrite <- orb_assoc. apply orb_true_iff. left.
  apply existsb_exists. exists name. split; [assumption|].
  apply String.eqb_refl.
Qed.

(** C4. For every version whose tag [v<version>] is already in the
    repository, the release stops with status 1 during the pre-flight
    checks, at the latest at [check_tag_exists]: no file is written and no
    command is run. This holds for every choice of options ([--force],
    the skip flags, [--dry-run]) and whatever the operator answers. *)
Theorem existing_tag_blocks_release (e : env) (o : options) (version : string)
  (s : state) :
  Version.semver_match version = true ->
  In ("v" ++ version) (map tag_name (tags (w s))) ->
  exists x s',
    perform_release e o version s = Exited 1 x s' /\
    In x [MissingDependencies; NotAGitRepository; AbortedByUser; ReadFailed;
          TagExists] /\
    w s' = w s /\ trace s' = trace s.
Proof.
  intros Hv Htag. apply (rev_parse_tag e) in Htag.
  rewrite perform_release_staged. unfold staged_release, bind.
  stage (checks_spec e o version s).
  - destruct Hstage as (_ & _ & Hrev & _). congruence.
  - destruct Hstage as ([Hw Ht] & -> & Hx & Hinv & _).
    exists x, s0. repeat split; try assumption.
    simpl in Hx. simpl.
    destruct Hx as [<-|Hx]; [|assumption].
    rewrite Hinv in Hv by reflexivity. discriminate.
Qed.

Lemma existing_tag_blocks_release_witness :
  exists s',
    perform_release Sample.env_ok Sample.force "1.0.0" Sample.state_tagged
    = Exited 1 TagExists s' /\
    w s' = Sample.world_tagged /\ trace s' = [].
Proof.
  destruct (existing_tag_blocks_release Sample.env_ok Sample.force "1.0.0"
              Sample.state_tagged) as (x & s' & E & _ & Hw & Ht).
  - vm_compute. reflexivity.
  - simpl. left. reflexivity.
  - exists s'. split; [|split; assumption].
    rewrite E. vm_compute in E. injection E as <- _. reflexivity.
Defined.

(** C5. Every invocation with [--dry-run] on the command line leaves
    the working tree, the index, the local history and tags, and the
    remote as they were, and runs no command that writes a file, commits,
    tags or pushes. *)
Theorem dry_run_changes_nothing (e : env) (args : list string) (s : state) :
  In "--dry-run"%string args ->
  w (final (main e args s)) = w s /\
  trace (final (main e args s)) = trace s.
Proof.
  intros Hflag. unfold main, bind.
  pose proof (parse_args_spec args default_options s) as Hparse.
  pose proof (parse_args_dry_run args default_options s) as Hdry.
  destruct (parse_args args default_options s) as [o s0|code x s0].
  - specialize (Hdry o s0 eq_refl (or_intror Hflag)).
    destruct (String.eqb (VERSION o) "").
    + destruct s0 as [w0 out0 trace0 stdin0 jq0 branch0].
      unfold show_usage. exec. exact Hparse.
    + apply (same_tree_trans s s0); [assumption|].
      apply perform_release_dry_run. assumption.
  - apply Hparse.
Qed.

Lemma dry_run_changes_nothing_witness :
  exit_code (main Sample.env_ok ["2.1.0"; "--dry-run"] Sample.state0) = 0%N /\
  w (final (main Sample.env_ok ["2.1.0"; "--dry-run"] Sample.state0))
  = Sample.world0 /\
  trace (final (main Sample.env_ok ["2.1.0"; "--dry-run"] Sample.state0)) = [].
Proof.
  split; [vm_compute; reflexivity|].
  apply (dry_run_changes_nothing Sample.env_ok ["2.1.0"; "--dry-run"]
           Sample.state0).
  simpl. right. left. reflexivity.
Defined.

(** C7. Whenever a run ends because the tests or the build check failed,
    it ends with status 1; the manifest and the build descriptor hold the
    new version as the mutation stage wrote them, nothing was rolled back,
    the index, the history, the tags and the remote are untouched, and no
    publish command (add, commit, tag, push) was run. *)
Theorem verification_failure_keeps_edits (e : env) (o : options)
  (version : string) (s s' : state) (code : N) (x : site) :
  perform_release e o version s = Exited code x s' ->
  x = TestsFailed \/ x = BuildFailed ->
  code = 1%N /\
  new_package_json e (has_jq e) version (package_json (w s))
  = Some (package_json (w s')) /\
  build_gradle (w s') = new_build_gradle version (build_gradle (w s)) /\
  repositories (w s') = repositories (w s) /\
  exists new,
    trace s' = (trace s ++ new)%list /\
    Forall (fun ev => publish_step (fst ev) = false) new.
Proof.
  intros Hrun Hx. rewrite perform_release_staged in Hrun.
  unfold staged_release, live, bind in Hrun.
  stage (checks_spec e o version s); cbv beta iota in Hrun.
  2: { injection Hrun as <- <- <-. simpl in Hstage.
       destruct Hx; subst; intuition discriminate. }
  destruct Hstage as ([Hw0 Ht0] & _ & _ & Hjq0 & _).
  stage (confirm_spec o version s0); cbv beta iota in Hrun.
  2: { injection Hrun as <- <- <-. simpl in Hstage.
       destruct Hx; subst; intuition discriminate. }
  destruct Hstage as ([Hw1 Ht1] & Hjq1 & _).
  destruct (DRY_RUN o).
  { destruct (dry_run_spec version s1) as (s2 & E & _). rewrite E in Hrun.
    injection Hrun as <- <- <-. destruct Hx; discriminate. }
  cbv beta iota in Hrun. unfold ret in Hrun.
  stage (mutate_spec e version s1); cbv beta iota in Hrun.
  2: { injection Hrun as <- <- <-. simpl in Hstage.
       destruct Hx; subst; intuition discriminate. }
  destruct Hstage as (Hpkg & Hgradle & Hrepo & Ht2 & _).
  stage (verify_spec e o s2); cbv beta iota in Hrun.
  - stage (publish_spec e version s3); cbv beta iota in Hrun.
    + destruct (report_spec e version s4) as (s5 & E & _). rewrite E in Hrun.
      discriminate.
    + injection Hrun as <- <- <-.
      destruct Hx; subst; intuition discriminate.
  - injection Hrun as <- <- <-. destruct Hstage as (-> & Hw3 & Htrace).
    rewrite Hw3, <- Hw0, <- Hw1, <- Hjq0, <- Hjq1.
    repeat split; try assumption.
    rewrite <- Ht0, <- Ht1.
    destruct Htrace as [(_ & _ & _ & ->) | (_ & _ & _ & ->)];
      rewrite Ht2, <- !app_assoc; eexists; (split; [reflexivity|]);
      destruct (SKIP_TESTS o); repeat constructor.
Qed.

Lemma verification_failure_keeps_edits_witness :
  exists s',
    perform_release Sample.env_build_fails Sample.force "2.1.0" Sample.state0
    = Exited 1 BuildFailed s' /\
    nth 2 (package_json (w s')) ""
    = ("  " ++ Sed.quoted "version" ++ ": " ++ Sed.quoted "2.1.0")%string /\
    nth 2 (build_gradle (w s')) "" = "        versionCode 20100"%string /\
    repositories (w s') = repositories Sample.world0.
Proof.
  eexists. split; [vm_compute; reflexivity|].
  split; [vm_compute; reflexivity|]. split; [vm_compute; reflexivity|].
  eapply (verification_failure_keeps_edits Sample.env_build_fails Sample.force
            "2.1.0" Sample.state0).
  - vm_compute. reflexivity.
  - right. reflexivity.
Defined.

Lemma exited_not_completed (code : N) (x : site) (s : state) :
  outcome_of (Exited (A:=unit) code x s) <> Completed.
Proof. destruct x; discriminate. Qed.

Ltac prefix_of_plan :=
  unfold follows, plan; cbn;
  split;
  [ match goal with
    | |- exists k, ?l = firstn k _ => exists (List.length l); reflexivity
    end
  | repeat constructor ].

Ltac order_of_exit :=
  cbn [final]; rewrite <- ?app_assoc; cbn [app];
  first [ exists []; split; [rewrite app_nil_r; reflexivity|]
        | eexists; split; [reflexivity|] ];
  split;
  [ prefix_of_plan
  | let H := fresh "Hdone" in
    intros H; apply exited_not_completed in H; contradiction ].

Ltac stage_goal spec :=
  generalize spec;
  match goal with
  | |- (match ?c ?s with _ => _ end) -> _ => destruct (c s) as [? ?|? ? ?]
  end.

Ltac live_order Etests Ebuild Ht2 :=
  let Ht3 := fresh "Hverify" in
  let Ht4 := fresh "Hpublish" in
  let Ht5 := fresh "Hreport" in
  let E := fresh "Ereport" in
  match goal with
  | |- context [verify ?e ?o ?s2] => stage_goal (verify_spec e o s2)
  end;
  [ intros (_ & Ht3 & _); rewrite Etests, Ebuild, Ht2 in Ht3;
    match goal with
    | |- context [publish ?e ?v ?s3] => stage_goal (publish_spec e v s3)
    end;
    [ intros (_ & _ & Ht4); rewrite Ht3 in Ht4;
      match goal with
      | |- context [report ?e ?v ?s4] =>
          let s5 := fresh "s" in
          destruct (report_spec e v s4) as (s5 & E & [_ Ht5])
      end;
      rewrite E;
      cbn [final outcome_of]; rewrite Ht5, Ht4, <- ?app_assoc; cbn [app];
      eexists; (split; [reflexivity|]); unfold plan; rewrite Etests, Ebuild;
      split; [prefix_of_plan | intros _; split; [reflexivity | repeat constructor]]
    | intros (_ & _ & _ & Ht4); rewrite Ht3 in Ht4;
      destruct Ht4 as [(_ & _ & Ht4) | [(_ & _ & Ht4) | [(_ & Ht4)
                      | [(_ & _ & Ht4) | (_ & _ & Ht4)]]]];
      cbn [final]; rewrite Ht4; unfold plan; rewrite Etests, Ebuild;
      order_of_exit ]
  | intros (_ & _ & Ht3);
    rewrite ?Etests, ?Ebuild in Ht3;
    destruct Ht3 as [(_ & ? & _ & Ht3) | (_ & ? & _ & Ht3)];
    try discriminate;
    cbn [final]; rewrite Ht3, Ht2; unfold plan; rewrite Etests, Ebuild;
    order_of_exit ].

(** C9. The commands of a run follow the plan of the script in order:
    the writes of the two descriptors, the tests and the build check when
    they are not skipped, then [git add] and [git commit], the annotated
    tag, the push of the branch, the push of the tag. Each command of a
    run but its last one has succeeded: a command is started only after
    all the commands before it in the plan have run and succeeded, so no
    publish command starts before mutation and verification are through.
    A run that completes has gone through the whole plan. *)
Theorem publish_order (e : env) (o : options) (version : string) (s : state) :
  exists new,
    trace (final (perform_release e o version s)) = (trace s ++ new)%list /\
    follows (plan o) new /\
    (outcome_of (perform_release e o version s) = Completed ->
     map fst new = plan o /\ Forall (fun ev => snd ev = 0%N) new).
Proof.
  rewrite perform_release_staged. unfold staged_release, live, bind.
  stage (checks_spec e o version s).
  2: { destruct Hstage as ([_ Ht] & _). cbn [final]. rewrite Ht. order_of_exit. }
  destruct Hstage as ([_ Ht0] & _).
  stage (confirm_spec o version s0).
  2: { destruct Hstage as ([_ Ht] & _). cbn [final]. rewrite Ht, Ht0.
       order_of_exit. }
  destruct Hstage as ([_ Ht1] & _). rewrite Ht0 in Ht1.
  destruct (DRY_RUN o).
  { destruct (dry_run_spec version s1) as (s2 & E & [_ Ht]). rewrite E.
    cbn [final]. rewrite Ht, Ht1. order_of_exit. }
  unfold ret.
  stage (mutate_spec e version s1).
  2: { destruct Hstage as (_ & _ & _ & _ & _ & [Ht|Ht]); cbn [final];
       rewrite Ht, Ht1; order_of_exit. }
  destruct Hstage as (_ & _ & _ & Ht2 & _). rewrite Ht1 in Ht2.
  destruct (SKIP_TESTS o) eqn:Etests, (SKIP_BUILD o) eqn:Ebuild.
  - live_order Etests Ebuild Ht2.
  - live_order Etests Ebuild Ht2.
  - live_order Etests Ebuild Ht2.
  - live_order Etests Ebuild Ht2.
Qed.

Lemma parse_args_skip_prerelease args1 :
  forall args2 o o' s,
    same_but_prerelease o o' ->
    match parse_args (args1 ++ "--prerelease" :: args2) o s,
          parse_args (args1 ++ args2) o' s with
    | Done o1 s1, Done o2 s2 => same_but_prerelease o1 o2 /\ s1 = s2
    | Exited c1 x1 s1, Exited c2 x2 s2 => c1 = c2 /\ x1 = x2 /\ s1 = s2
    | _, _ => False
    end.
Proof.
  induction args1 as [|a rest IH]; intros args2 o o' s Ho; cbn [app].
  - change (parse_args ("--prerelease" :: args2) o s)
      with (parse_args args2
              {| VERSION := VERSION o; SKIP_TESTS := SKIP_TESTS o;
                 SKIP_BUILD := SKIP_BUILD o; PRERELEASE := true;
                 DRY_RUN := DRY_RUN o; FORCE := FORCE o |} s).
    apply parse_args_prerelease. exact Ho.
  - cbn [parse_args].
    destruct Ho as (Hv & Ht & Hb & Hd & Hf). rewrite Hv.
    repeat match goal with
           | |- context [if ?b then _ else _] => destruct b
           end;
      try (apply IH; unfold same_but_prerelease; cbn; auto);
      match goal with
      | |- context [match ?r with _ => _ end] =>
          destruct r; unfold same_but_prerelease; repeat split; reflexivity
      end.
Qed.

(** C10. Adding [--prerelease] anywhere on the command line changes
    nothing: the run ends the same way, with the same exit status, the
    same output, the same files and repositories, and the same commands
    run. The flag is stored in [PRERELEASE], which nothing reads. *)
Theorem prerelease_flag_unobservable (e : env) (args1 args2 : list string)
  (s : state) :
  main e (args1 ++ "--prerelease" :: args2) s = main e (args1 ++ args2) s.
Proof.
  unfold main, bind.
  pose proof (parse_args_skip_prerelease args1 args2 default_options
                default_options s) as H.
  destruct (parse_args (args1 ++ "--prerelease" :: args2) default_options s)
    as [o1 s1|c1 x1 s1],
    (parse_args (args1 ++ args2) default_options s) as [o2 s2|c2 x2 s2];
    try (exfalso; apply H; unfold same_but_prerelease; auto 10; fail).
  - destruct H as [Ho ->]; [unfold same_but_prerelease; auto 10|].
    pose proof Ho as (Hv & _). rewrite Hv.
    destruct (String.eqb (VERSION o2) ""); [reflexivity|].
    apply perform_release_prerelease. exact Ho.
  - destruct H as (-> & -> & ->); [unfold same_but_prerelease; auto 10|].
    reflexivity.
Qed.

(** C8, as stated, fails: when [git push] cannot reach the remote and
    ends with status 128, the run is a publish failure and, under
    [set -e], the script ends with that status, not with 1. *)
Lemma push_failure_exit_code :
  outcome_of (main Sample.env_push_fails ["2.1.0"; "--force"] Sample.state0)
  = Failed Publish /\
  exit_code (main Sample.env_push_fails ["2.1.0"; "--force"] Sample.state0)
  = 128%N /\
  exit_code (main Sample.env_push_fails ["2.1.0"; "--force"] Sample.state0)
  <> 1%N.
Proof.
  split; [vm_compute; reflexivity|]. split; [vm_compute; reflexivity|].
  vm_compute. discriminate.
Qed.

Ltac coded_exit :=
  unfold coded; cbn [exit_code outcome_of final];
  cbn [In] in *;
  intuition (subst; cbn in *; try discriminate; try congruence; auto 10).

(** C8 (amended). For every invocation, the exit status is 0 exactly
    when the run completed, reported a dry run, or printed the help text;
    it is 1 for a usage error, for every validation, pre-flight and
    verification failure and for a declined confirmation; and when a
    publish command ([git add], [commit], [tag], [push]) fails, the exit
    status is the status of that command, which is not zero. *)
Theorem exit_code_by_outcome (e : env) (args : list string) (s : state) :
  let r := main e args s in
  (exit_code r = 0%N <-> In (outcome_of r) [Completed; DryRunReport; HelpShown]) /\
  (In (outcome_of r)
      [Failed Usage; Failed Validation; Failed Precondition;
       Failed UserDeclined; Failed Verification] -> exit_code r = 1%N) /\
  (outcome_of r = Failed Publish ->
   exit_code r <> 0%N /\
   exists before st,
     trace (final r) = (before ++ [(st, exit_code r)])%list /\
     publish_step st = true).
Proof.
  cbv zeta. change (coded (main e args s)).
  unfold main, bind.
  stage (parse_args_spec args default_options s).
  2: { coded_exit. }
  clear Hstage.
  destruct (String.eqb (VERSION a) "").
  { destruct s0 as [w0 out0 trace0 stdin0 jq0 branch0].
    unfold show_usage. exec. coded_exit. }
  rewrite perform_release_staged. unfold staged_release, live, bind.
  stage (checks_spec e a (VERSION a) s0).
  2: { coded_exit. }
  clear Hstage.
  stage (confirm_spec a (VERSION a) s1).
  2: { coded_exit. }
  clear Hstage.
  destruct (DRY_RUN a).
  { destruct (dry_run_spec (VERSION a) s2) as (s3 & E & _). rewrite E.
    coded_exit. }
  unfold ret.
  stage (mutate_spec e (VERSION a) s2).
  2: { coded_exit. }
  clear Hstage.
  stage (verify_spec e a s3).
  2: { coded_exit. }
  clear Hstage.
  stage (publish_spec e (VERSION a) s4).
  - destruct (report_spec e (VERSION a) s5) as (s6 & E & _). rewrite E.
    coded_exit.
  - destruct Hstage as (Hcode & _ & _ & Hx).
    unfold coded. cbn [exit_code outcome_of final].
    assert (Hpub : site_outcome x = Failed Publish)
      by (intuition (subst; reflexivity)).
    rewrite Hpub. split; [|split].
    + split; [intros; contradiction|].
      simpl. intuition discriminate.
    + simpl. intuition discriminate.
    + intros _. split; [assumption|].
      destruct Hx as [(_ & _ & ->) | [(_ & _ & ->) | [(_ & ->)
                     | [(_ & _ & ->) | (_ & _ & ->)]]]].
      * exists (trace s4), GitAdd. auto.
      * exists (trace s4 ++ [(GitAdd, 0%N)])%list, GitCommit.
        rewrite <- app_assoc. auto.
      * exists (trace s4 ++ [(GitAdd, 0%N); (GitCommit, 0%N)])%list, GitTag.
        rewrite <- app_assoc. auto.
      * exists (trace s4 ++ [(GitAdd, 0%N); (GitCommit, 0%N); (GitTag, 0%N)])%list,
          GitPushBranch.
        rewrite <- app_assoc. auto.
      * exists (trace s4 ++ [(GitAdd, 0%N); (GitCommit, 0%N); (GitTag, 0%N);
                             (GitPushBranch, 0%N)])%list, GitPushTag.
        rewrite <- app_assoc. auto.
Qed.

End PipelineProperties.

Module DescriptorProperties.

Import Json Release Stages ReleaseFacts DescriptorFacts.

Lemma new_build_gradle_idem (version : string) (lines : list string) :
  Version.semver_match version = true ->
  Forall (fun l => Sed.one_field l = true) lines ->
  new_build_gradle version (new_build_gradle version lines)
  = new_build_gradle version lines.
Proof.
  intros Hv Hlines. unfold new_build_gradle.
  induction Hlines as [|l lines Hl _ IH]; simpl; [reflexivity|].
  rewrite IH, bump_gradle_line_idem by assumption. reflexivity.
Qed.

Lemma new_package_json_idem (e : env) (use_jq : bool) (version : string)
  (lines pkg : list string) :
  Version.semver_match version = true ->
  (use_jq = true ->
   forall j j', jq_parse e lines = Some j -> assign_version version j = Some j' ->
                jq_parse e (jq_print e j') = Some j') ->
  new_package_json e use_jq version lines = Some pkg ->
  new_package_json e use_jq version pkg = Some pkg.
Proof.
  intros Hv Hjq. unfold new_package_json. destruct use_jq.
  - destruct (jq_parse e lines) as [j|] eqn:Ej; [|discriminate].
    destruct (assign_version version j) as [j'|] eqn:Ea; [|discriminate].
    simpl. intros H. injection H as <-.
    rewrite (Hjq eq_refl j j' eq_refl Ea).
    rewrite (JsonFacts.assign_version_idem _ _ _ Ea). reflexivity.
  - intros H. injection H as <-. f_equal. rewrite map_map.
    apply map_ext. intros l. apply subst_package_version_idem. assumption.
Qed.

(** C6, as stated, fails: on a build descriptor with the line
    [versionName "versionCode 1" versionCode 2] the first run rewrites the
    [versionCode] inside the quotes, which the second [sed] then replaces
    with the version; the second run finds the other [versionCode] and
    rewrites it, so the file changes again. *)
Lemma descriptor_bump_not_idempotent :
  Version.semver_match "1.2.3" = true /\
  exists s1 s2,
    mutate Sample.env_sed "1.2.3" Sample.state_one_line = Done tt s1 /\
    mutate Sample.env_sed "1.2.3" s1 = Done tt s2 /\
    build_gradle (w s1)
    = [("versionName " ++ Sed.quoted "1.2.3" ++ " versionCode 2")%string] /\
    build_gradle (w s2)
    = [("versionName " ++ Sed.quoted "1.2.3" ++ " versionCode 10203")%string] /\
    build_gradle (w s2) <> build_gradle (w s1).
Proof.
  split; [vm_compute; reflexivity|].
  eexists. eexists.
  split; [vm_compute; reflexivity|].
  split; [vm_compute; reflexivity|].
  split; [vm_compute; reflexivity|].
  split; [vm_compute; reflexivity|].
  vm_compute. discriminate.
Qed.

(** C6 (amended). For every valid version, when no line of the build
    descriptor holds both a [versionCode] and a [versionName] field (and,
    on the [jq] path, [jq] reads back the manifest it printed), applying
    the descriptor mutation a second time with the same version succeeds
    and leaves the manifest and the build descriptor exactly as the first
    application left them. *)
Theorem descriptor_bump_idempotent (e : env) (version : string) (s s1 : state) :
  Version.semver_match version = true ->
  Forall (fun l => Sed.one_field l = true) (build_gradle (w s)) ->
  (USE_JQ s = true ->
   forall j j',
     jq_parse e (package_json (w s)) = Some j ->
     assign_version version j = Some j' ->
     jq_parse e (jq_print e j') = Some j') ->
  mutate e version s = Done tt s1 ->
  exists s2,
    mutate e version s1 = Done tt s2 /\
    package_json (w s2) = package_json (w s1) /\
    build_gradle (w s2) = build_gradle (w s1).
Proof.
  intros Hv Hlines Hjq Hrun.
  pose proof (mutate_spec e version s) as H1. rewrite Hrun in H1.
  destruct H1 as (Hpkg & Hgradle & _ & _ & Huse & _ & Hgrep).
  apply (new_package_json_idem _ _ _ _ _ Hv Hjq) in Hpkg.
  rewrite <- Huse in Hpkg.
  pose proof (mutate_spec e version s1) as H2.
  destruct (mutate e version s1) as [[] s2|code x s2].
  - destruct H2 as (Hpkg2 & Hgradle2 & _).
    exists s2. split; [reflexivity|]. split.
    + congruence.
    + rewrite Hgradle2, Hgradle. apply new_build_gradle_idem; assumption.
  - exfalso. destruct H2 as (_ & _ & [Hnone | (pkg & Hsome & Hempty)] & _).
    + congruence.
    + rewrite Hpkg in Hsome. injection Hsome as <-. contradiction.
Qed.

Lemma descriptor_bump_idempotent_witness :
  exists s2,
    mutate Sample.env_ok "2.1.0"
      (final (mutate Sample.env_ok "2.1.0" Sample.state_jq)) = Done tt s2 /\
    package_json (w s2)
    = package_json (w (final (mutate Sample.env_ok "2.1.0" Sample.state_jq))) /\
    build_gradle (w s2)
    = build_gradle (w (final (mutate Sample.env_ok "2.1.0" Sample.state_jq))).
Proof.
  apply (descriptor_bump_idempotent Sample.env_ok "2.1.0" Sample.state_jq).
  - vm_compute. reflexivity.
  - repeat constructor.
  - intros _ j j' Hj Hj'. vm_compute in Hj. injection Hj as <-.
    vm_compute in Hj'. injection Hj' as <-. vm_compute. reflexivity.
  - vm_compute. reflexivity.
Defined.

End DescriptorProperties.

(** * Further properties of the script *)

Module OriginFacts.

Import Str StrFacts Origin.

Lemma after_last_colon_none s :
  after_last_colon s = None <-> all not_colon s = true.
Proof.
  unfold not_colon. induction s as [|c s IH]; simpl; [tauto|].
  destruct (after_last_colon s).
  - split; [discriminate|]. intros H. apply andb_true_iff in H as [_ H].
    apply IH in H. discriminate.
  - destruct (Ascii.eqb c ":"); simpl; [split; discriminate|].
    split; intros _; [apply IH|]; reflexivity.
Qed.

Lemma after_last_colon_some s r :
  after_last_colon s = Some r -> all not_colon r = true.
Proof.
  revert r. induction s as [|c s IH]; simpl; intros r H; [discriminate|].
  destruct (after_last_colon s) as [x|] eqn:E.
  - injection H as ->. auto.
  - destruct (Ascii.eqb c ":"); [|discriminate].
    injection H as ->. apply after_last_colon_none. assumption.
Qed.

Lemma after_last_colon_last a b :
  all not_colon b = true -> after_last_colon (a ++ String ":" b) = Some b.
Proof.
  intros Hb. apply after_last_colon_none in Hb.
  induction a as [|c a IH]; simpl.
  - rewrite Hb. reflexivity.
  - rewrite IH. reflexivity.
Qed.

Lemma delete_through_colon_last a b :
  all not_colon b = true -> sed_delete_through_colon (a ++ String ":" b) = b.
Proof.
  intros Hb. unfold sed_delete_through_colon.
  rewrite after_last_colon_last by assumption. reflexivity.
Qed.

Lemma delete_dot_git_suffix a c : sed_delete_dot_git (a ++ String c "git") = a.
Proof.
  induction a as [|x a IH]; simpl; [reflexivity|].
  destruct (String.eqb_spec (a ++ String c "git") "git") as [E|_].
  - apply (f_equal String.length) in E. rewrite length_app in E.
    simpl in E. lia.
  - rewrite IH. reflexivity.
Qed.

Lemma delete_dot_git_all p s :
  all p s = true -> all p (sed_delete_dot_git s) = true.
Proof.
  induction s as [|c s IH]; simpl; intros H; [reflexivity|].
  apply andb_true_iff in H as [Hc Hs].
  destruct (String.eqb s "git"); simpl; [reflexivity|].
  rewrite Hc. auto.
Qed.

End OriginFacts.

Module OriginProperties.

Import Str StrFacts Origin OriginFacts.

(** X1. For a remote written the way [scp] names a path, [HOST:PATH] with the
    suffix [.git], the text put into the links is [PATH]. The dot of
    [.git$] being a wildcard, any character followed by [git] at the end
    of the line is cut the same way: a remote ending in [legit] loses
    its last four characters. *)
Theorem origin_path_scp_style (host path : string) (c : ascii) :
  all not_colon path = true -> not_colon c = true ->
  origin_path_of (host ++ ":" ++ path ++ String c "git") = path.
Proof.
  intros Hp Hc. unfold origin_path_of.
  change (host ++ ":" ++ path ++ String c "git")
    with (host ++ String ":" (path ++ String c "git")).
  rewrite delete_through_colon_last.
  - apply delete_dot_git_suffix.
  - rewrite all_app, Hp. simpl. rewrite Hc. reflexivity.
Qed.

Lemma origin_path_scp_style_witness :
  origin_path_of "git@github.com:acme/nativebridge.git" = "acme/nativebridge" /\
  origin_path_of "git@github.com:acme/legit" = "acme/l".
Proof.
  split.
  - apply (origin_path_scp_style "git@github.com" "acme/nativebridge" ".");
      reflexivity.
  - apply (origin_path_scp_style "git@github.com" "acme/l" "e"); reflexivity.
Defined.

(** X2. For a remote written as a URL with a scheme and no port,
    [SCHEME://REST.git], the text put into the links is [//REST]: the two
    slashes and the host stay, so the links printed start with
    [https://github.com///]. *)
Theorem origin_path_url_style (scheme rest : string) :
  all not_colon rest = true ->
  origin_path_of (scheme ++ "://" ++ rest ++ ".git") = "//" ++ rest.
Proof.
  intros Hr. unfold origin_path_of.
  change (scheme ++ "://" ++ rest ++ ".git")
    with (scheme ++ String ":" (("//" ++ rest) ++ ".git")).
  rewrite delete_through_colon_last.
  - apply (delete_dot_git_suffix ("//" ++ rest) ".").
  - rewrite all_app. simpl. rewrite Hr. reflexivity.
Qed.

Lemma origin_path_url_style_witness :
  origin_path_of "https://github.com/acme/nativebridge.git"
  = "//github.com/acme/nativebridge".
Proof.
  apply (origin_path_url_style "https" "github.com/acme/nativebridge").
  reflexivity.
Defined.

End OriginProperties.

Module GrammarFacts.

Import Str StrFacts Dec DecFacts Version VersionFacts Query.

Open Scope N_scope.

Lemma count_app c a b : count c (a ++ b) = (count c a + count c b)%nat.
Proof. induction a as [|x a IH]; simpl; [reflexivity|]. rewrite IH. lia. Qed.

(** A text made of characters other than [c] does not count. *)
Lemma count_all (p : ascii -> bool) c s :
  p c = false -> all p s = true -> count c s = 0%nat.
Proof.
  intros Hc. induction s as [|x s IH]; simpl; intros H; [reflexivity|].
  apply andb_true_iff in H as [Hx Hs]. rewrite (IH Hs).
  destruct (Ascii.eqb_spec x c) as [->|_]; [congruence | reflexivity].
Qed.

Lemma version_char_plain c : is_version_char c = true -> sed_plain c = true.
Proof.
  destruct c as [[] [] [] [] [] [] [] []]; vm_compute; intros H;
    first [reflexivity | discriminate].
Qed.

(** The number a version code reads as, when the major number fits an
    [int] and the minor and patch numbers have at most two digits. *)
Lemma version_code_value M m p label :
  numeral M = true -> numeral m = true -> numeral p = true ->
  value M < 2 ^ 31 -> value m <= 99 -> value p <= 99 ->
  value (version_code (version_string M m p label))
  = value M * 10000 + value m * 100 + value p.
Proof.
  intros HM Hm Hp HM31 Hm99 Hp99.
  rewrite version_code_string by assumption.
  rewrite (d_to_int_small (value M)) by assumption.
  rewrite (d_to_int_small (value m))
    by (change (2 ^ 31) with 2147483648; lia).
  rewrite (d_to_int_small (value p))
    by (change (2 ^ 31) with 2147483648; lia).
  destruct (fmt_d_spec (value M)) as [HMd HMv].
  destruct (fmt_02d_spec (value m)) as [Hmd Hmv].
  destruct (fmt_02d_spec (value p)) as [Hpd Hpv].
  assert (Hmp : all is_digit (fmt_02d (value m) ++ fmt_02d (value p)) = true)
    by (rewrite all_app, Hmd, Hpd; reflexivity).
  rewrite value_app by assumption.
  rewrite (value_app (fmt_02d (value m))) by assumption.
  rewrite length_app, !fmt_02d_length by lia.
  rewrite HMv, Hmv, Hpv. change (10 ^ N.of_nat (2 + 2)) with 10000.
  change (10 ^ N.of_nat 2) with 100. lia.
Qed.

End GrammarFacts.

Module GrammarProperties.

Import Str StrFacts Dec DecFacts Version VersionFacts Query GrammarFacts.

Open Scope N_scope.

(** X3. A version that [validate_version] accepts holds only letters, digits,
    dots and hyphens: no slash, ampersand, backslash or newline, which
    [sed] would read as part of the script once [$version] is put into
    the replacement, and no double quote or space. *)
Theorem validated_version_is_plain (v : string) :
  semver_match v = true ->
  all is_version_char v = true /\ all sed_plain v = true /\
  all Sed.not_quote v = true /\ all not_space v = true.
Proof.
  intros H. pose proof (DescriptorFacts.version_chars v H) as Hc.
  split; [assumption|]. split; [|split].
  - revert Hc. apply all_impl, version_char_plain.
  - apply DescriptorFacts.version_no_quote. assumption.
  - apply DescriptorFacts.version_no_space. assumption.
Qed.

Lemma validated_version_is_plain_witness :
  all sed_plain "2.0.0-rc.1" = true /\ semver_match "1.0.0/&" = false.
Proof.
  split.
  - apply (validated_version_is_plain "2.0.0-rc.1"). vm_compute. reflexivity.
  - vm_compute. reflexivity.
Defined.

(** X4. The grammar is narrower than semantic versioning: a text with two
    hyphens (a label such as [rc-1]) or with a plus sign (build metadata)
    is never accepted. *)
Theorem hyphenated_label_rejected (a b c : string) :
  semver_match (a ++ "-" ++ b ++ "-" ++ c) = false /\
  semver_match (a ++ "+" ++ b) = false.
Proof.
  split.
  - destruct (semver_match (a ++ "-" ++ b ++ "-" ++ c)) eqn:E; [|reflexivity].
    exfalso.
    assert (Htwo : (2 <= count "-" (a ++ "-" ++ b ++ "-" ++ c))%nat).
    { rewrite !count_app. simpl. lia. }
    apply semver_match_iff in E. destruct E as [M m p label HM Hm Hp Hl].
    unfold version_string in Htwo. rewrite !count_app in Htwo.
    rewrite (count_all is_digit "-" M eq_refl (numeral_all M HM)) in Htwo.
    rewrite (count_all is_digit "-" m eq_refl (numeral_all m Hm)) in Htwo.
    rewrite (count_all is_digit "-" p eq_refl (numeral_all p Hp)) in Htwo.
    destruct label as [l|]; simpl in Htwo, Hl; [|lia].
    apply andb_true_iff in Hl as [_ Hl].
    rewrite (count_all is_label_char "-" l eq_refl Hl) in Htwo. lia.
  - destruct (semver_match (a ++ "+" ++ b)) eqn:E; [|reflexivity].
    exfalso. apply DescriptorFacts.version_chars in E.
    rewrite !all_app in E. simpl in E.
    rewrite andb_false_r in E. discriminate.
Qed.

(** X5. What [awk] gets to split: for a version [M.m.p] followed by a hyphen
    and anything, the fields cut at the dots of what [sed] leaves are
    [M], [m] and [p]; the dots of a label such as [rc.1] make no field. *)
Theorem version_fields_recovered (M m p : string) (label : option string) :
  numeral M = true -> numeral m = true -> numeral p = true ->
  awk_fields "." (sed_delete_from_dash (version_string M m p label)) = [M; m; p].
Proof.
  intros HM Hm Hp. rewrite sed_delete_version by assumption.
  change (M ++ "." ++ m ++ "." ++ p) with (M ++ String "." (m ++ String "." p)).
  rewrite awk_fields_cons by (apply numeral_no; auto).
  rewrite awk_fields_cons by (apply numeral_no; auto).
  rewrite awk_fields_single by (apply numeral_no; auto).
  reflexivity.
Qed.

Lemma version_fields_recovered_witness :
  awk_fields "." (sed_delete_from_dash "1.2.3-rc.1") = ["1"; "2"; "3"]%string.
Proof.
  apply (version_fields_recovered "1" "2" "3" (Some "rc.1"%string));
    reflexivity.
Defined.

(** X6. With major numbers that fit an [int] (below [2^31]) and minor and
    patch numbers of at most 99, a later version gets a larger version
    code: the codes are ordered as the triples of numbers are, whatever
    the labels. *)
Theorem version_code_monotone
  (M m p M' m' p' : string) (label label' : option string) :
  numeral M = true -> numeral m = true -> numeral p = true ->
  numeral M' = true -> numeral m' = true -> numeral p' = true ->
  value M < 2 ^ 31 -> value M' < 2 ^ 31 ->
  value m <= 99 -> value p <= 99 -> value m' <= 99 -> value p' <= 99 ->
  value M < value M' \/
  (value M = value M' /\
   (value m < value m' \/ (value m = value m' /\ value p < value p'))) ->
  value (version_code (version_string M m p label))
  < value (version_code (version_string M' m' p' label')).
Proof.
  intros HM Hm Hp HM' Hm' Hp' BM BM' B1 B2 B3 B4 Hlt.
  rewrite !version_code_value by assumption. lia.
Qed.

Lemma version_code_monotone_witness :
  value (version_code "1.9.9-rc.1") < value (version_code "1.10.0").
Proof.
  apply (version_code_monotone "1" "9" "9" "1" "10" "0"
           (Some "rc.1"%string) None);
    try reflexivity; try (vm_compute; intros H; discriminate H).
  right. split; [reflexivity|]. left. vm_compute. reflexivity.
Defined.

(** X7. With major numbers that fit an [int] (below [2^31]) and minor and
    patch numbers of at most 99, two versions whose version codes read as
    the same number have the same major, minor and patch numbers: apart
    from the labels, no two such versions share a code. *)
Theorem version_code_injective
  (M m p M' m' p' : string) (label label' : option string) :
  numeral M = true -> numeral m = true -> numeral p = true ->
  numeral M' = true -> numeral m' = true -> numeral p' = true ->
  value M < 2 ^ 31 -> value M' < 2 ^ 31 ->
  value m <= 99 -> value p <= 99 -> value m' <= 99 -> value p' <= 99 ->
  value (version_code (version_string M m p label))
  = value (version_code (version_string M' m' p' label')) ->
  value M = value M' /\ value m = value m' /\ value p = value p'.
Proof.
  intros HM Hm Hp HM' Hm' Hp' BM BM' B1 B2 B3 B4.
  rewrite !version_code_value by assumption. lia.
Qed.

Lemma version_code_injective_witness :
  value "1" = value "01" /\ value "2" = value "2" /\ value "3" = value "03".
Proof.
  apply (version_code_injective "1" "2" "3" "01" "2" "03" None
           (Some "beta"%string));
    try reflexivity; vm_compute; intros H; discriminate H.
Defined.

(** X8. For a major number of zero the version code is written with a
    leading zero: it is the digit 0 followed by the minor and the patch
    number, two digits each. *)
Theorem version_code_major_zero (M m p : string) (label : option string) :
  numeral M = true -> numeral m = true -> numeral p = true ->
  value M = 0 -> value m <= 99 -> value p <= 99 ->
  version_code (version_string M m p label)
  = ("0" ++ fmt_02d (value m) ++ fmt_02d (value p))%string /\
  String.length (version_code (version_string M m p label)) = 5%nat.
Proof.
  intros HM Hm Hp H0 Hm99 Hp99.
  rewrite version_code_string by assumption. rewrite H0.
  rewrite (d_to_int_small (value m))
    by (change (2 ^ 31) with 2147483648; lia).
  rewrite (d_to_int_small (value p))
    by (change (2 ^ 31) with 2147483648; lia).
  change (fmt_d (d_to_int 0)) with "0"%string. split; [reflexivity|].
  rewrite !length_app, !fmt_02d_length by lia. reflexivity.
Qed.

Lemma version_code_major_zero_witness :
  version_code "0.2.3" = "00203"%string.
Proof.
  refine (proj1 (version_code_major_zero "0" "2" "3" None _ _ _ _ _ _));
    try reflexivity; vm_compute; intros H; discriminate H.
Defined.

End GrammarProperties.

Module EditFacts.

Import Str StrFacts Sed SedFacts Query.

(** The first character of the fixed text does not occur before it: the
    leftmost match starts where the fixed text is. *)
Lemma subst_first_after x0 lit' tail new pre rest suffix :
  free_of x0 pre = true -> tail rest = Some suffix ->
  subst_first (String x0 lit') tail new (pre ++ String x0 lit' ++ rest)
  = pre ++ String x0 lit' ++ new ++ suffix.
Proof.
  intros Hpre Ht. induction pre as [|c pre IH].
  - apply (subst_first_match (String x0 lit') tail new
             (String x0 lit' ++ rest) suffix).
    exact (eq_trans (match_here_app (String x0 lit') tail rest) Ht).
  - unfold free_of in Hpre. simpl in Hpre.
    apply andb_true_iff in Hpre as [Hc Hpre]. apply negb_true_iff in Hc.
    change ((String c pre) ++ String x0 lit' ++ rest)
      with (String c (pre ++ String x0 lit' ++ rest)).
    rewrite subst_first_skip.
    + rewrite (IH Hpre). reflexivity.
    + unfold match_here. simpl.
      destruct (Ascii.eqb_spec x0 c) as [->|_]; [|reflexivity].
      rewrite Ascii.eqb_refl in Hc. discriminate.
Qed.

(** A line that holds a text holds each text it starts with. *)
Lemma strip_prefix_shorter a b s r :
  strip_prefix (a ++ b) s = Some r -> strip_prefix a s = Some (b ++ r).
Proof.
  revert s. induction a as [|x a IH]; intros s H.
  - simpl in *. apply strip_prefix_some in H. rewrite H.
    destruct (b ++ r); reflexivity.
  - destruct s as [|c s]; simpl in *; [discriminate|].
    destruct (Ascii.eqb x c); [auto | discriminate].
Qed.

Lemma contains_shorter a b s : contains (a ++ b) s = true -> contains a s = true.
Proof.
  induction s as [|c s IH]; simpl; intros H.
  - destruct (strip_prefix (a ++ b) "") as [r|] eqn:E; [|discriminate].
    apply strip_prefix_shorter in E. rewrite E. reflexivity.
  - destruct (strip_prefix (a ++ b) (String c s)) as [r|] eqn:E.
    + apply strip_prefix_shorter in E. rewrite E. reflexivity.
    + destruct (strip_prefix a (String c s)); auto.
Qed.

Lemma grep_version_none lines :
  grep_version lines = [] ->
  forall l, In l lines -> contains (quoted "version") l = false.
Proof.
  unfold grep_version. induction lines as [|x lines IH]; simpl; intros H l Hl;
    [contradiction|].
  destruct (contains (quoted "version") x) eqn:E; [discriminate|].
  destruct Hl as [<-|Hl]; auto.
Qed.

Lemma no_key_no_edit version lines :
  (forall l, In l lines -> contains version_key l = false) ->
  map (subst_package_version version) lines = lines.
Proof.
  intros H. induction lines as [|x lines IH]; simpl; [reflexivity|].
  rewrite IH by (intros l Hl; apply H; right; assumption).
  unfold subst_package_version.
  rewrite subst_first_absent by (apply H; left; reflexivity). reflexivity.
Qed.

Lemma no_word_no_key l :
  contains (quoted "version") l = false -> contains version_key l = false.
Proof.
  intros H. destruct (contains version_key l) eqn:E; [|reflexivity].
  unfold version_key in E. apply contains_shorter in E. congruence.
Qed.

End EditFacts.

Module EditProperties.

Import Str StrFacts Sed SedFacts Query EditFacts Json Release Stages ReleaseFacts.

(** X9. The [sed] fallback of [update_package_json], on a line whose first
    double quote opens the version field: the text after the key, up to
    the LAST double quote of the line, is replaced by the new version.
    Whatever stands between the key and that last quote is lost, further
    fields of a manifest written on one line included. *)
Theorem package_version_replaced (version pre old post : string) :
  all not_quote pre = true -> all not_quote post = true ->
  subst_package_version version (pre ++ version_key ++ old ++ String dquote post)
  = pre ++ version_key ++ version ++ String dquote post.
Proof.
  intros Hpre Hpost. unfold subst_package_version.
  change version_key with (String dquote ("version" ++ quoted ": ")).
  rewrite (subst_first_after dquote _ tail_quoted _ pre _ post Hpre).
  - rewrite !app_assoc. reflexivity.
  - apply tail_quoted_last. assumption.
Qed.

Lemma package_version_replaced_witness :
  subst_package_version "2.1.0"
    ("  " ++ quoted "version" ++ ": " ++ quoted "0.0.1" ++ ",")
  = "  " ++ quoted "version" ++ ": " ++ quoted "2.1.0" ++ "," /\
  subst_package_version "2.1.0"
    ("{" ++ quoted "version" ++ ": " ++ quoted "0.0.1" ++ ", "
     ++ quoted "name" ++ ": " ++ quoted "app" ++ "}")
  = "{" ++ quoted "version" ++ ": " ++ quoted "2.1.0" ++ "}".
Proof.
  split.
  - apply (package_version_replaced "2.1.0" "  " "0.0.1" ","); reflexivity.
  - apply (package_version_replaced "2.1.0" "{"
             ("0.0.1" ++ String dquote ", " ++ quoted "name" ++ ": "
              ++ String dquote "app") "}"); reflexivity.
Defined.

(** X10. The first [sed] command of [update_android_version], on a line with no
    letter v before the field: the digits after [versionCode] and a space
    are replaced by the version code. The run of digits may be empty:
    the code is then put in front of what follows the space. *)
Theorem version_code_field_replaced (code pre d post : string) :
  free_of "v" pre = true -> all Dec.is_digit d = true ->
  skip_digits post = post ->
  subst_version_code code (pre ++ "versionCode " ++ d ++ post)
  = pre ++ "versionCode " ++ code ++ post.
Proof.
  intros Hpre Hd Hpost. unfold subst_version_code.
  apply (subst_first_after "v" "ersionCode " tail_digits code pre (d ++ post) post
           Hpre).
  unfold tail_digits. rewrite skip_digits_run, Hpost by assumption. reflexivity.
Qed.

Lemma version_code_field_replaced_witness :
  subst_version_code "20100" "        versionCode 1" = "        versionCode 20100" /\
  subst_version_code "20100" "    versionCode = 1" = "    versionCode 20100= 1".
Proof.
  split.
  - apply (version_code_field_replaced "20100" "        " "1" ""); reflexivity.
  - apply (version_code_field_replaced "20100" "    " "" "= 1"); reflexivity.
Defined.

(** X11. The second [sed] command of [update_android_version], on a line with
    no letter v before the field: the quoted text after [versionName], up
    to the last double quote of the line, is replaced by the quoted
    version. *)
Theorem version_name_field_replaced (version pre old post : string) :
  free_of "v" pre = true -> all not_quote post = true ->
  subst_version_name version
    (pre ++ version_name_key ++ old ++ String dquote post)
  = pre ++ version_name_key ++ version ++ String dquote post.
Proof.
  intros Hpre Hpost. unfold subst_version_name.
  change version_name_key with (String "v" ("ersionName " ++ String dquote "")).
  rewrite (subst_first_after "v" _ tail_quoted _ pre _ post Hpre).
  - rewrite !app_assoc. reflexivity.
  - apply tail_quoted_last. assumption.
Qed.

Lemma version_name_field_replaced_witness :
  subst_version_name "2.1.0" ("        versionName " ++ quoted "1.0")
  = "        versionName " ++ quoted "2.1.0".
Proof.
  apply (version_name_field_replaced "2.1.0" "        " "1.0" ""); reflexivity.
Defined.

(** X12. [update_android_version] has no check of its own and runs to its
    end whatever the build descriptor holds. It leaves the manifest, the
    index, the history, the tags and the remote alone, keeps the number
    of lines of the build descriptor, and leaves as it is every line
    that holds neither [versionCode] followed by a space nor
    [versionName] followed by a space and a double quote. *)
Theorem build_descriptor_frame (e : env) (version : string) (s : state) :
  exists s',
    update_android_version e version s = Done tt s' /\
    package_json (w s') = package_json (w s) /\
    repositories (w s') = repositories (w s) /\
    List.length (build_gradle (w s')) = List.length (build_gradle (w s)) /\
    forall i,
      contains "versionCode " (nth i (build_gradle (w s)) "") = false ->
      contains version_name_key (nth i (build_gradle (w s)) "") = false ->
      nth i (build_gradle (w s')) "" = nth i (build_gradle (w s)) "".
Proof.
  destruct s as [w0 out0 trace0 stdin0 jq0 branch0].
  assert (Hline : forall l,
             contains "versionCode " l = false ->
             contains version_name_key l = false ->
             subst_version_name version
               (subst_version_code (Version.version_code version) l) = l).
  { intros l H1 H2. unfold subst_version_code, subst_version_name.
    rewrite (subst_first_absent _ _ _ l H1). apply subst_first_absent.
    exact H2. }
  unfold_script. reduce_state.
  destruct (OSTYPE_darwin e); cbv beta iota; reduce_state;
    (eexists; split; [reflexivity|]); cbv beta iota; reduce_state;
    (split; [reflexivity|]); (split; [reflexivity|]);
    rewrite map_map; (split; [apply length_map|]);
    intros i Hc Hn;
    (destruct (Nat.lt_ge_cases i (List.length (build_gradle w0))) as [Hi|Hi];
     [ rewrite (nth_indep _ ""
                  (subst_version_name version
                     (subst_version_code (Version.version_code version) "")))
         by (rewrite length_map; assumption);
       rewrite (map_nth (fun l => subst_version_name version
                           (subst_version_code (Version.version_code version) l)));
       apply Hline; assumption
     | rewrite !nth_overflow by (rewrite ?length_map; assumption);
       reflexivity ]).
Qed.

End EditProperties.

Module ManifestFacts.

Import Str StrFacts Sed SedFacts Query EditFacts Json Release Stages ReleaseFacts.

Lemma field_obj_set_same k v fields : field k (obj_set k v fields) = Some v.
Proof.
  induction fields as [|[k' v'] rest IH]; simpl.
  - rewrite String.eqb_refl. reflexivity.
  - destruct (String.eqb k' k) eqn:E; simpl.
    + rewrite String.eqb_refl. reflexivity.
    + rewrite E. assumption.
Qed.

Lemma field_obj_set_other k k0 v fields :
  k0 <> k -> field k0 (obj_set k v fields) = field k0 fields.
Proof.
  intros Hk. assert (Hne : String.eqb k k0 = false)
    by (apply String.eqb_neq; congruence).
  induction fields as [|[k' v'] rest IH]; simpl.
  - rewrite Hne. reflexivity.
  - destruct (String.eqb k' k) eqn:E; simpl.
    + apply String.eqb_eq in E. subst k'. rewrite Hne. reflexivity.
    + rewrite IH. reflexivity.
Qed.

Lemma obj_set_present k v fields :
  field k fields <> None -> map fst (obj_set k v fields) = map fst fields.
Proof.
  induction fields as [|[k' v'] rest IH]; simpl; intros H; [congruence|].
  destruct (String.eqb k' k) eqn:E; simpl.
  - apply String.eqb_eq in E. congruence.
  - rewrite IH by assumption. reflexivity.
Qed.

Lemma obj_set_absent k v fields :
  field k fields = None -> obj_set k v fields = (fields ++ [(k, v)])%list.
Proof.
  induction fields as [|[k' v'] rest IH]; simpl; intros H; [reflexivity|].
  destruct (String.eqb k' k); [discriminate|].
  rewrite IH by assumption. reflexivity.
Qed.

(** How [mutate] can end early. *)
Lemma mutate_exit_spec e version s :
  match mutate e version s with
  | Exited code JqFailed s' =>
      code <> 0%N /\ w s' = w s /\ trace s' = trace s
  | Exited code GrepFailed s' =>
      code = 1%N /\ build_gradle (w s') = build_gradle (w s) /\
      repositories (w s') = repositories (w s) /\
      trace s' = (trace s ++ [(WriteFile PackageJson, 0%N)])%list
  | Exited _ _ _ => False
  | Done _ _ => True
  end.
Proof.
  destruct s as [w0 out0 trace0 stdin0 jq0 branch0].
  exec; finish.
Qed.

End ManifestFacts.

Module ManifestProperties.

Import Str StrFacts Sed SedFacts Query EditFacts Json Release Stages ReleaseFacts
  ManifestFacts.

(** X13. The [jq] filter of [update_package_json], on a manifest that is an
    object: afterwards the field [version] holds the new version, every
    other field holds what it held, and the fields keep their order; a
    manifest without the field gets it as its last one. *)
Theorem jq_sets_only_version (version : string) (fields : list (string * json)) :
  exists fields',
    assign_version version (JObj fields) = Some (JObj fields') /\
    field "version" fields' = Some (JStr version) /\
    (forall k, k <> "version" -> field k fields' = field k fields) /\
    (field "version" fields <> None -> map fst fields' = map fst fields) /\
    (field "version" fields = None ->
     fields' = (fields ++ [("version", JStr version)])%list).
Proof.
  exists (obj_set "version" (JStr version) fields).
  split; [reflexivity|]. split; [apply field_obj_set_same|].
  split; [intros k Hk; apply field_obj_set_other; assumption|].
  split; [apply obj_set_present | apply obj_set_absent].
Qed.

(** X14. When [jq] fails, on a manifest it cannot read or that is neither an
    object nor [null], the script ends with a status that is not zero and
    has written nothing: the manifest is replaced only after [jq] has
    succeeded, and no other command has run. *)
Theorem jq_failure_writes_nothing (e : env) (o : options) (version : string)
  (s s' : state) (code : N) :
  perform_release e o version s = Exited code JqFailed s' ->
  code <> 0%N /\ w s' = w s /\ trace s' = trace s.
Proof.
  intros Hrun. rewrite perform_release_staged in Hrun.
  unfold staged_release, live, bind in Hrun.
  pose proof (checks_spec e o version s) as Hc.
  destruct (checks e o version s) as [a0 s0|c0 x0 s0].
  2: { injection Hrun as -> -> ->. simpl in Hc. intuition discriminate. }
  destruct Hc as ([Hw0 Ht0] & _).
  pose proof (confirm_spec o version s0) as Hf.
  destruct (confirm_release o version s0) as [a1 s1|c1 x1 s1].
  2: { injection Hrun as -> -> ->. simpl in Hf. intuition discriminate. }
  destruct Hf as ([Hw1 Ht1] & _).
  destruct (DRY_RUN o).
  { destruct (dry_run_spec version s1) as (s2 & E & _). rewrite E in Hrun.
    discriminate. }
  unfold ret in Hrun.
  pose proof (mutate_exit_spec e version s1) as Hm.
  destruct (mutate e version s1) as [a2 s2|c2 x2 s2].
  2: { injection Hrun as -> -> ->. destruct Hm as (Hcode & Hw & Ht).
       split; [assumption|]. split; congruence. }
  clear Hm.
  pose proof (verify_spec e o s2) as Hv.
  destruct (verify e o s2) as [a3 s3|c3 x3 s3].
  2: { injection Hrun as -> -> ->. intuition discriminate. }
  pose proof (publish_spec e version s3) as Hp.
  destruct (publish e version s3) as [a4 s4|c4 x4 s4].
  2: { injection Hrun as -> -> ->. intuition discriminate. }
  destruct (report_spec e version s4) as (s5 & E & _). rewrite E in Hrun.
  discriminate.
Qed.

Lemma jq_failure_writes_nothing_witness :
  exists s',
    perform_release Sample.env_ok Sample.force "2.1.0"
      (Cases.state_with Cases.manifest_array false)
    = Exited 2 JqFailed s' /\
    w s' = Cases.world_with Cases.manifest_array /\ trace s' = [].
Proof.
  eexists. split; [vm_compute; reflexivity|].
  eapply (jq_failure_writes_nothing Sample.env_ok Sample.force "2.1.0"
            (Cases.state_with Cases.manifest_array false)).
  vm_compute. reflexivity.
Defined.

(** X15. Without [jq], on a manifest in which no line holds the quoted word
    version, [sed] changes nothing and the [grep] that shows the result
    finds nothing: under [set -e] the script ends there with status 1,
    the manifest being as it was. *)
Theorem sed_fallback_missing_version (e : env) (version : string) (s : state) :
  USE_JQ s = false ->
  grep_version (package_json (w s)) = [] ->
  exists s',
    update_package_json e version s = Exited 1 GrepFailed s' /\
    w s' = w s /\
    trace s' = (trace s ++ [(WriteFile PackageJson, 0%N)])%list.
Proof.
  intros Hjq Hgrep.
  destruct s as [w0 out0 trace0 stdin0 jq0 branch0].
  cbn [USE_JQ w] in *. subst jq0.
  assert (Hmap : map (subst_package_version version) (package_json w0)
                 = package_json w0).
  { apply no_key_no_edit. intros l Hl.
    apply no_word_no_key, (grep_version_none _ Hgrep). assumption. }
  unfold_script. reduce_state.
  destruct (OSTYPE_darwin e); cbv beta iota; reduce_state;
    rewrite Hmap, Hgrep;
    (eexists; split; [reflexivity|]);
    (split; [destruct w0; reflexivity | reflexivity]).
Qed.

Lemma sed_fallback_missing_version_witness :
  exists s',
    update_package_json Sample.env_sed "2.1.0"
      (Cases.state_with Cases.manifest_unversioned false)
    = Exited 1 GrepFailed s' /\
    w s' = Cases.world_with Cases.manifest_unversioned.
Proof.
  destruct (sed_fallback_missing_version Sample.env_sed "2.1.0"
              (Cases.state_with Cases.manifest_unversioned false))
    as (s' & E & Hw & _); [reflexivity | vm_compute; reflexivity |].
  exists s'. split; assumption.
Defined.

(** X16. Without [jq], on a manifest in which some line holds the quoted word
    version but none holds it followed by a colon, one space and a double
    quote, [sed] changes nothing and all the same the script reports that
    the manifest was updated, and goes on. *)
Theorem sed_fallback_silent (e : env) (version : string) (s : state) :
  USE_JQ s = false ->
  (forall l, In l (package_json (w s)) -> contains version_key l = false) ->
  grep_version (package_json (w s)) <> [] ->
  exists s',
    update_package_json e version s = Done tt s' /\
    w s' = w s /\
    trace s' = (trace s ++ [(WriteFile PackageJson, 0%N)])%list /\
    In (Success ("Updated package.json to version " ++ version)) (out s').
Proof.
  intros Hjq Hkey Hgrep.
  destruct s as [w0 out0 trace0 stdin0 jq0 branch0].
  cbn [USE_JQ w] in *. subst jq0.
  pose proof (no_key_no_edit version _ Hkey) as Hmap.
  unfold_script. reduce_state.
  destruct (OSTYPE_darwin e); cbv beta iota; reduce_state; rewrite Hmap;
    (destruct (grep_version (package_json w0)) as [|g gs] eqn:Eg;
     [contradiction|]);
    rewrite echo_lines_run; unfold with_out; reduce_state;
    (eexists; split; [reflexivity|]);
    (split; [destruct w0; reflexivity|]);
    (split; [reflexivity|]);
    apply in_or_app; left; apply in_or_app; left; apply in_or_app; right;
    left; reflexivity.
Qed.

Lemma sed_fallback_silent_witness :
  exists s',
    update_package_json Sample.env_sed "2.1.0"
      (Cases.state_with Cases.manifest_compact false)
    = Done tt s' /\
    package_json (w s') = Cases.manifest_compact.
Proof.
  destruct (sed_fallback_silent Sample.env_sed "2.1.0"
              (Cases.state_with Cases.manifest_compact false))
    as (s' & E & Hw & _).
  - reflexivity.
  - intros l [<-|[]]. vm_compute. reflexivity.
  - vm_compute. discriminate.
  - exists s'. split; [assumption|]. rewrite Hw. reflexivity.
Defined.

End ManifestProperties.

From Stdlib Require Import Permutation.

Module ArgumentFacts.

Import Str Cli Release.

(** An empty argument met while no version is set changes nothing. *)
Lemma parse_args_empty args o s :
  VERSION o = "" -> parse_args ("" :: args) o s = parse_args args o s.
Proof.
  intros H. cbn [parse_args]. simpl. rewrite H. simpl.
  destruct o. cbn in *. subst. reflexivity.
Qed.

(** A command line made of options that set a global is accepted, and
    sets no version. *)
Lemma parse_args_flags_only args :
  Forall (fun a => is_flag a = true) args ->
  forall o s, exists o', parse_args args o s = Done o' s /\ VERSION o' = VERSION o.
Proof.
  induction 1 as [|a rest Ha _ IH]; intros o s.
  - exists o. split; reflexivity.
  - unfold is_flag in Ha.
    repeat (apply orb_true_iff in Ha as [Ha|Ha]);
      apply String.eqb_eq in Ha; subst a;
      cbn [parse_args]; simpl;
      match goal with
      | |- exists o', parse_args rest ?o1 s = _ /\ _ =>
          destruct (IH o1 s) as (o' & E & Hv); exists o'; split; assumption
      end.
Qed.

(** An argument that does not start with a hyphen is none of the
    options. *)
Lemma not_dash_not_option a :
  starts_with_dash a = false -> is_help a = false /\ is_flag a = false.
Proof.
  intros H. unfold is_help, is_flag.
  destruct a as [|c a]; [split; reflexivity|].
  simpl in H. simpl. rewrite H. split; reflexivity.
Qed.

End ArgumentFacts.

Module CommandLineFacts.

Import Str StrFacts Cli Release Stages ReleaseFacts.

#[local] Opaque String.eqb String.append.

(** A run that printed and left cannot have gone on. *)
Ltac no_exit H :=
  exfalso; revert H;
  match goal with
  | |- context [_ ?s = Done _ _] => destruct s as [? ? ? ? ? ?]
  end;
  unfold show_usage; exec; discriminate.

Ltac eqb_facts :=
  repeat match goal with
         | H : String.eqb _ _ = true |- _ => apply String.eqb_eq in H
         | H : String.eqb _ _ = false |- _ => apply String.eqb_neq in H
         | H : (_ || _) = true |- _ => apply orb_true_iff in H
         | H : (_ || _) = false |- _ => apply orb_false_iff in H as [? ?]
         end.

(** The loop over the arguments, cut in two. *)
Lemma parse_args_app args1 :
  forall args2 o s,
    parse_args (args1 ++ args2) o s
    = bind (parse_args args1 o) (parse_args args2) s.
Proof.
  induction args1 as [|a rest IH]; intros args2 o s; cbn [app parse_args].
  - reflexivity.
  - repeat match goal with
           | |- context [if ?b then _ else _] => destruct b
           end;
      try apply IH;
      unfold bind, exit;
      repeat match goal with
             | |- context [match ?x with Done _ _ => _ | Exited _ _ _ => _ end] =>
                 destruct x
             end; reflexivity.
Qed.

(** What an accepted command line leaves in the globals. *)
Lemma parse_args_done args :
  forall o s o' s',
    parse_args args o s = Done o' s' ->
    s' = s /\
    (SKIP_TESTS o' = true <-> SKIP_TESTS o = true \/ In "--skip-tests" args) /\
    (SKIP_BUILD o' = true <-> SKIP_BUILD o = true \/ In "--skip-build" args) /\
    (PRERELEASE o' = true <-> PRERELEASE o = true \/ In "--prerelease" args) /\
    (DRY_RUN o' = true <-> DRY_RUN o = true \/ In "--dry-run" args) /\
    (FORCE o' = true <-> FORCE o = true \/ In "--force" args) /\
    (VERSION o' = VERSION o \/
     (VERSION o = "" /\ In (VERSION o') args /\
      starts_with_dash (VERSION o') = false)) /\
    (forall a, In a args -> is_flag a = true \/ a = VERSION o' \/ a = "").
Proof.
  induction args as [|a rest IH]; intros o s o' s' Hrun; cbn [parse_args] in Hrun.
  - injection Hrun as <- <-. cbn [In]. intuition.
  - repeat match type of Hrun with
           | context [if ?b then _ else _] => destruct b eqn:?
           end;
      try (no_exit Hrun);
      apply IH in Hrun;
      cbn [VERSION SKIP_TESTS SKIP_BUILD PRERELEASE DRY_RUN FORCE] in Hrun;
      destruct Hrun as (Hs & H1 & H2 & H3 & H4 & H5 & H6 & H7);
      eqb_facts; subst s'; (split; [reflexivity|]); cbn [In];
      repeat (split;
              [solve [intuition (subst; try discriminate; try congruence)]|]);
      (intros a0 [<-|Hin]; [|auto];
       first [ left; subst; vm_compute; reflexivity
             | right; destruct H6 as [E|(E & _)];
               [left; congruence | right; congruence] ]).
Qed.

Lemma parse_args_swap x y l o s o' s' :
  x <> "" -> y <> "" ->
  parse_args (y :: x :: l) o s = Done o' s' ->
  parse_args (x :: y :: l) o s = Done o' s'.
Proof.
  intros Hx Hy Hrun. apply String.eqb_neq in Hx, Hy.
  cbn [parse_args] in *.
  repeat match type of Hrun with
         | context [if ?b then _ else _] => destruct b eqn:?
         end;
    cbn [VERSION SKIP_TESTS SKIP_BUILD PRERELEASE DRY_RUN FORCE] in *;
    try (no_exit Hrun);
    repeat match goal with
           | |- context [if ?b then _ else _] => destruct b eqn:?
           end;
    cbn [VERSION SKIP_TESTS SKIP_BUILD PRERELEASE DRY_RUN FORCE] in *;
    congruence.
Qed.

Lemma parse_args_skip x l l' o s o' s' :
  (forall o s o' s',
      parse_args l o s = Done o' s' -> parse_args l' o s = Done o' s') ->
  parse_args (x :: l) o s = Done o' s' ->
  parse_args (x :: l') o s = Done o' s'.
Proof.
  intros IH Hrun. cbn [parse_args] in *.
  repeat match type of Hrun with
         | context [if ?b then _ else _] => destruct b eqn:?
         end;
    try (no_exit Hrun); apply IH; exact Hrun.
Qed.

(** An accepted command line without an empty argument is accepted in any
    order, and sets the same globals. *)
Lemma parse_args_permutation l l' :
  Permutation l l' -> ~ In "" l ->
  forall o s o' s',
    parse_args l o s = Done o' s' -> parse_args l' o s = Done o' s'.
Proof.
  induction 1 as [|x l l' Hp IH|x y l|l l' l'' H1 IH1 H2 IH2];
    intros Hne o s o' s' Hrun.
  - exact Hrun.
  - revert Hrun. apply parse_args_skip. intros o1 s1 o2 s2. apply IH.
    intros Hin. apply Hne. right. assumption.
  - apply parse_args_swap; [| |assumption]; intros ->; apply Hne; simpl; auto.
  - apply IH2.
    + intros Hin. apply Hne.
      apply (Permutation_in _ (Permutation_sym H1)). assumption.
    + apply IH1; assumption.
Qed.

(** Options only: the version stays as it was. *)
Lemma parse_args_options_only args o s o' s' :
  Forall (fun a => starts_with_dash a = true) args ->
  parse_args args o s = Done o' s' -> VERSION o' = VERSION o.
Proof.
  intros Hdash Hrun.
  destruct (parse_args_done _ _ _ _ _ Hrun)
    as (_ & _ & _ & _ & _ & _ & [E|(_ & Hin & Hv)] & _); [assumption|].
  rewrite Forall_forall in Hdash. rewrite (Hdash _ Hin) in Hv. discriminate.
Qed.

End CommandLineFacts.

Module CommandLineProperties.

Import Str StrFacts Cli Release Stages ReleaseFacts ArgumentFacts CommandLineFacts.

#[local] Opaque String.eqb String.append.

(** X17. What an accepted command line leaves in the globals: nothing was
    printed; each of the five switches is set exactly when its option is
    among the arguments, in any place and any number of times; the
    version, when one is set, is an argument that does not start with a
    hyphen; and every argument is one of the five options, the version,
    or empty. *)
Theorem options_reflect_command_line (args : list string) (s s' : state)
  (o : options) :
  parse_args args default_options s = Done o s' ->
  s' = s /\
  (SKIP_TESTS o = true <-> In "--skip-tests" args) /\
  (SKIP_BUILD o = true <-> In "--skip-build" args) /\
  (PRERELEASE o = true <-> In "--prerelease" args) /\
  (DRY_RUN o = true <-> In "--dry-run" args) /\
  (FORCE o = true <-> In "--force" args) /\
  (VERSION o = "" \/
   (In (VERSION o) args /\ starts_with_dash (VERSION o) = false)) /\
  (forall a, In a args -> is_flag a = true \/ a = VERSION o \/ a = "").
Proof.
  intros Hrun.
  destruct (parse_args_done _ _ _ _ _ Hrun)
    as (Hs & H1 & H2 & H3 & H4 & H5 & H6 & H7).
  cbn [default_options VERSION SKIP_TESTS SKIP_BUILD PRERELEASE DRY_RUN FORCE]
    in *.
  split; [assumption|].
  repeat (split; [solve [intuition discriminate]|]).
  assumption.
Qed.

Lemma options_reflect_command_line_witness :
  exists o,
    parse_args ["--skip-tests"; "2.1.0"; "--force"] default_options Sample.state0
    = Done o Sample.state0 /\
    VERSION o = "2.1.0" /\
    (FORCE o = true <-> In "--force" ["--skip-tests"; "2.1.0"; "--force"]).
Proof.
  eexists. split; [vm_compute; reflexivity|]. split; [reflexivity|].
  refine (proj1 (proj2 (proj2 (proj2 (proj2 (proj2
            (options_reflect_command_line
               ["--skip-tests"; "2.1.0"; "--force"]
               Sample.state0 Sample.state0 _ _))))))).
  vm_compute. reflexivity.
Defined.

(** X18. When a command line is accepted and holds no empty argument, the
    order of its arguments does not matter: any rearrangement of it gives
    the same run. *)
Theorem argument_order_irrelevant (e : env) (args args' : list string)
  (s s1 : state) (o : options) :
  Permutation args args' -> ~ In "" args ->
  parse_args args default_options s = Done o s1 ->
  main e args' s = main e args s.
Proof.
  intros Hp Hne Hrun. unfold main, bind.
  rewrite (parse_args_permutation _ _ Hp Hne _ _ _ _ Hrun), Hrun.
  reflexivity.
Qed.

Lemma argument_order_irrelevant_witness :
  main Sample.env_ok ["--dry-run"; "2.1.0"] Sample.state0
  = main Sample.env_ok ["2.1.0"; "--dry-run"] Sample.state0.
Proof.
  eapply (argument_order_irrelevant Sample.env_ok ["2.1.0"; "--dry-run"]
            ["--dry-run"; "2.1.0"] Sample.state0).
  - apply perm_swap.
  - simpl. intros [H|[H|[]]]; discriminate H.
  - vm_compute. reflexivity.
Defined.

(** X19. An empty argument given before the version, among options, is
    passed over: the run is the one of the command line without it.
    (Given after the version it is taken for a second version.) *)
Theorem empty_argument_ignored (e : env) (args1 args2 : list string)
  (s : state) :
  Forall (fun a => starts_with_dash a = true) args1 ->
  main e (args1 ++ "" :: args2) s = main e (args1 ++ args2) s.
Proof.
  intros Hdash. unfold main, bind. rewrite !parse_args_app. unfold bind.
  destruct (parse_args args1 default_options s) as [o1 s1|c x s1] eqn:E;
    [|reflexivity].
  rewrite parse_args_empty; [reflexivity|].
  apply (parse_args_options_only _ _ _ _ _ Hdash E).
Qed.

Lemma empty_argument_ignored_witness :
  main Sample.env_ok ["--dry-run"; ""; "2.1.0"] Sample.state0
  = main Sample.env_ok ["--dry-run"; "2.1.0"] Sample.state0 /\
  exit_code (main Sample.env_ok ["2.1.0"; ""] Sample.state0) = 1%N.
Proof.
  split; [|vm_compute; reflexivity].
  apply (empty_argument_ignored Sample.env_ok ["--dry-run"] ["2.1.0"]
           Sample.state0).
  repeat constructor.
Defined.

(** X20. [-h] or [--help] after arguments that are accepted, a version
    included: the usage text is printed and the script ends with status
    0; nothing is checked, written or run, whatever follows on the
    command line. *)
Theorem help_stops_before_release (e : env) (args1 args2 : list string)
  (h : string) (s s1 : state) (o : options) :
  parse_args args1 default_options s = Done o s1 -> is_help h = true ->
  main e (args1 ++ h :: args2) s = Exited 0 HelpRequested (final (show_usage s)) /\
  same_tree s (final (show_usage s)).
Proof.
  intros Hrun Hh.
  pose proof (parse_args_done _ _ _ _ _ Hrun) as (-> & _).
  split.
  - unfold main. unfold bind at 1. rewrite parse_args_app. unfold bind at 1.
    rewrite Hrun. cbn [parse_args]. unfold is_help in Hh. rewrite Hh.
    unfold bind, show_usage. rewrite echo_lines_run. reflexivity.
  - unfold show_usage. rewrite echo_lines_run. split; reflexivity.
Qed.

Lemma help_stops_before_release_witness :
  main Sample.env_ok (["2.1.0"; "--force"] ++ "--help" :: ["--bogus"])
    Sample.state0
  = Exited 0 HelpRequested (final (show_usage Sample.state0)) /\
  same_tree Sample.state0 (final (show_usage Sample.state0)).
Proof.
  apply (help_stops_before_release Sample.env_ok ["2.1.0"; "--force"]
           ["--bogus"] "--help" Sample.state0 Sample.state0
           {| VERSION := "2.1.0"; SKIP_TESTS := false; SKIP_BUILD := false;
              PRERELEASE := false; DRY_RUN := false; FORCE := true |});
    vm_compute; reflexivity.
Defined.

(** X21. An argument that starts with a hyphen and is none of the seven
    options, a version written with a leading hyphen included, ends the
    script with status 1 as soon as the loop gets to it: the error names
    the argument, and nothing is checked, written or run. *)
Theorem unknown_option_rejected (e : env) (args1 args2 : list string)
  (a : string) (s s1 : state) (o : options) :
  parse_args args1 default_options s = Done o s1 ->
  starts_with_dash a = true -> is_flag a = false -> is_help a = false ->
  exists s',
    main e (args1 ++ a :: args2) s = Exited 1 UnknownOption s' /\
    same_tree s s' /\
    In (Err ("Unknown option: " ++ a)) (out s').
Proof.
  intros Hrun Hdash Hflag Hhelp.
  pose proof (parse_args_done _ _ _ _ _ Hrun) as (-> & _).
  unfold main. unfold bind at 1. rewrite parse_args_app. unfold bind at 1.
  rewrite Hrun. cbn [parse_args].
  unfold is_help in Hhelp. rewrite Hhelp. unfold is_flag in Hflag.
  repeat (apply orb_false_iff in Hflag as [Hflag ?]).
  repeat match goal with
         | H : String.eqb a _ = false |- _ => rewrite H; clear H
         end.
  rewrite Hdash. destruct s as [w0 out0 trace0 stdin0 jq0 branch0].
  unfold show_usage. exec.
  eexists. split; [reflexivity|]. split; [split; reflexivity|].
  cbn [out]. apply in_or_app. left. apply in_or_app. right. left. reflexivity.
Qed.

Lemma unknown_option_rejected_witness :
  exists s',
    main Sample.env_ok ["--force"; "-1.0.0"] Sample.state0
    = Exited 1 UnknownOption s' /\
    same_tree Sample.state0 s'.
Proof.
  destruct (unknown_option_rejected Sample.env_ok ["--force"] [] "-1.0.0"
              Sample.state0 Sample.state0
              {| VERSION := ""; SKIP_TESTS := false; SKIP_BUILD := false;
                 PRERELEASE := false; DRY_RUN := false; FORCE := true |})
    as (s' & E & Hs & _); try (vm_compute; reflexivity).
  exists s'. split; assumption.
Defined.

(** X22. Once a version is set, a further argument that does not start with a
    hyphen, the empty one included, ends the script with status 1: the
    error says that several versions were given, and nothing is checked,
    written or run. *)
Theorem second_version_rejected (e : env) (args1 args2 : list string)
  (a : string) (s s1 : state) (o : options) :
  parse_args args1 default_options s = Done o s1 ->
  VERSION o <> "" -> starts_with_dash a = false ->
  exists s',
    main e (args1 ++ a :: args2) s = Exited 1 MultipleVersions s' /\
    same_tree s s' /\
    In (Err "Multiple versions specified") (out s').
Proof.
  intros Hrun Hset Hdash.
  pose proof (parse_args_done _ _ _ _ _ Hrun) as (-> & _).
  destruct (not_dash_not_option a Hdash) as [Hhelp Hflag].
  apply String.eqb_neq in Hset.
  unfold main. unfold bind at 1. rewrite parse_args_app. unfold bind at 1.
  rewrite Hrun. cbn [parse_args].
  unfold is_help in Hhelp. rewrite Hhelp. unfold is_flag in Hflag.
  repeat (apply orb_false_iff in Hflag as [Hflag ?]).
  repeat match goal with
         | H : String.eqb a _ = false |- _ => rewrite H; clear H
         end.
  rewrite Hdash, Hset. destruct s as [w0 out0 trace0 stdin0 jq0 branch0].
  unfold show_usage. exec.
  eexists. split; [reflexivity|]. split; [split; reflexivity|].
  cbn [out]. apply in_or_app. left. apply in_or_app. right. left. reflexivity.
Qed.

Lemma second_version_rejected_witness :
  exists s',
    main Sample.env_ok ["2.1.0"; "--force"; "2.2.0"] Sample.state0
    = Exited 1 MultipleVersions s' /\
    same_tree Sample.state0 s'.
Proof.
  destruct (second_version_rejected Sample.env_ok ["2.1.0"; "--force"] []
              "2.2.0" Sample.state0 Sample.state0
              {| VERSION := "2.1.0"; SKIP_TESTS := false; SKIP_BUILD := false;
                 PRERELEASE := false; DRY_RUN := false; FORCE := true |})
    as (s' & E & Hs & _); try (vm_compute; reflexivity).
  - vm_compute. discriminate.
  - exists s'. split; assumption.
Defined.

(** X23. A command line with no version, empty or made of options only, ends
    the script with status 1 before anything is checked: the error asks
    for a version number and the usage text follows. *)
Theorem version_required (e : env) (args : list string) (s : state) :
  Forall (fun a => is_flag a = true) args ->
  exists s',
    main e args s = Exited 1 VersionRequired s' /\
    same_tree s s' /\
    In (Err "Version number required") (out s').
Proof.
  intros Hflags.
  destruct (parse_args_flags_only args Hflags default_options s)
    as (o & E & Hv).
  unfold main. unfold bind at 1. rewrite E.
  destruct (String.eqb (VERSION o) "") eqn:Ev.
  2: { rewrite Hv in Ev. vm_compute in Ev. discriminate Ev. }
  destruct s as [w0 out0 trace0 stdin0 jq0 branch0].
  unfold show_usage. exec.
  eexists. split; [reflexivity|]. split; [split; reflexivity|].
  cbn [out]. apply in_or_app. left. apply in_or_app. left.
  apply in_or_app. right. left. reflexivity.
Qed.

Lemma version_required_witness :
  exit_code (main Sample.env_ok [] Sample.state0) = 1%N /\
  exists s',
    main Sample.env_ok ["--force"; "--dry-run"] Sample.state0
    = Exited 1 VersionRequired s' /\
    same_tree Sample.state0 s'.
Proof.
  split; [vm_compute; reflexivity|].
  destruct (version_required Sample.env_ok ["--force"; "--dry-run"]
              Sample.state0) as (s' & E & Hs & _).
  - repeat constructor.
  - exists s'. split; assumption.
Defined.

End CommandLineProperties.

Module RunFacts.

Import Str StrFacts Release Stages ReleaseFacts CommandLineFacts.

#[local] Opaque Version.semver_match Version.version_code String.eqb
  Sed.subst_package_version Sed.subst_version_code Sed.subst_version_name
  Sed.grep_version String.append String.concat.

(** *** What is left to read *)

Lemma parse_args_stdin args :
  forall o s, stdin (final (parse_args args o s)) = stdin s.
Proof.
  induction args as [|a rest IH]; intros o s; cbn [parse_args].
  - reflexivity.
  - repeat match goal with
           | |- context [if ?b then _ else _] => destruct b
           end;
      try apply IH;
      destruct s as [w0 out0 trace0 stdin0 jq0 branch0];
      unfold show_usage; exec; reflexivity.
Qed.

Lemma checks_forced e o version s :
  FORCE o = true ->
  match checks e o version s with
  | Done _ s' =>
      (Version.semver_match version && has_git e && has_node e
       && in_git_repo e && negb (rev_parse e (w s) ("v" ++ version))) = true /\
      same_tree s s' /\ stdin s' = stdin s /\
      USE_JQ s' = has_jq e /\ CURRENT_BRANCH s' = git_branch e
  | Exited code x s' =>
      (Version.semver_match version && has_git e && has_node e
       && in_git_repo e && negb (rev_parse e (w s) ("v" ++ version))) = false /\
      code = 1%N /\ same_tree s s' /\ stdin s' = stdin s
  end.
Proof.
  intros Hforce. destruct s as [w0 out0 trace0 stdin0 jq0 branch0].
  unfold_script. rewrite ?Hforce. reduce_state. repeat branch.
  all: unfold with_out in *; cbn in *.
  all: repeat match goal with
              | H : _ = true |- _ => rewrite H
              | H : _ = false |- _ => rewrite H
              end.
  all: unfold same_tree; cbn; auto 10.
Qed.

Lemma confirm_skipped o version s :
  DRY_RUN o = true \/ FORCE o = true -> confirm_release o version s = Done tt s.
Proof.
  intros H. unfold confirm_release.
  destruct (DRY_RUN o), (FORCE o); try reflexivity.
  destruct H; discriminate.
Qed.

Lemma bind_stdin {A B : Type} (c : sh A) (k : A -> sh B) s :
  stdin (final (c s)) = stdin s ->
  (forall a s', stdin (final (k a s')) = stdin s') ->
  stdin (final (bind c k s)) = stdin s.
Proof.
  intros Hc Hk. unfold bind. destruct (c s) as [a s'|code x s'].
  - rewrite Hk. exact Hc.
  - exact Hc.
Qed.

Lemma dry_run_stdin version s :
  stdin (final (dry_run_report version s)) = stdin s.
Proof. destruct s as [w0 out0 trace0 stdin0 jq0 branch0]. exec. reflexivity. Qed.

Lemma mutate_stdin e version s : stdin (final (mutate e version s)) = stdin s.
Proof.
  destruct s as [w0 out0 trace0 stdin0 jq0 branch0]. exec; reflexivity.
Qed.

Lemma verify_stdin e o s : stdin (final (verify e o s)) = stdin s.
Proof.
  destruct s as [w0 out0 trace0 stdin0 jq0 branch0]. exec; reflexivity.
Qed.

Lemma publish_stdin e version s : stdin (final (publish e version s)) = stdin s.
Proof.
  destruct s as [w0 out0 trace0 stdin0 jq0 branch0]. exec; reflexivity.
Qed.

Lemma report_stdin e version s : stdin (final (report e version s)) = stdin s.
Proof.
  destruct s as [w0 out0 trace0 stdin0 jq0 branch0]. exec; reflexivity.
Qed.

(** With [FORCE] set, a release reads nothing. *)
Lemma perform_release_forced_stdin e o version s :
  FORCE o = true ->
  stdin (final (perform_release e o version s)) = stdin s.
Proof.
  intros Hforce. rewrite perform_release_staged. unfold staged_release.
  apply bind_stdin.
  { pose proof (checks_forced e o version s Hforce) as Hc.
    destruct (checks e o version s); cbn [final]; tauto. }
  intros _ s0. apply bind_stdin.
  { rewrite confirm_skipped by auto. reflexivity. }
  intros _ s1. apply bind_stdin.
  { destruct (DRY_RUN o); [apply dry_run_stdin | reflexivity]. }
  intros _ s2. unfold live.
  apply bind_stdin; [apply mutate_stdin|]. intros _ s3.
  apply bind_stdin; [apply verify_stdin|]. intros _ s4.
  apply bind_stdin; [apply publish_stdin|]. intros _ s5.
  apply report_stdin.
Qed.

(** *** Names that [git rev-parse] resolves *)

Lemma rev_parse_head (e : env) (x : world) (name : string) :
  In name (heads x) -> rev_parse e x name = true.
Proof.
  intros H. unfold rev_parse. apply orb_true_iff. left.
  apply orb_true_iff. right.
  apply existsb_exists. exists name. split; [assumption|].
  apply String.eqb_refl.
Qed.

Lemma rev_parse_tagged (e : env) (x : world) (name : string) :
  In name (map tag_name (tags x)) -> rev_parse e x name = true.
Proof.
  intros H. unfold rev_parse. rewrite <- orb_assoc. apply orb_true_iff. left.
  apply existsb_exists. exists name. split; [assumption|].
  apply String.eqb_refl.
Qed.

(** A name that resolves stops the release during the checks, whatever
    the options. *)
Lemma resolved_name_blocks e o version s :
  Version.semver_match version = true ->
  rev_parse e (w s) ("v" ++ version) = true ->
  exists x s',
    perform_release e o version s = Exited 1 x s' /\
    In x [MissingDependencies; NotAGitRepository; AbortedByUser; ReadFailed;
          TagExists] /\
    w s' = w s /\ trace s' = trace s.
Proof.
  intros Hv Hrev. rewrite perform_release_staged. unfold staged_release, bind.
  pose proof (checks_spec e o version s) as Hc.
  destruct (checks e o version s) as [a0 s0|c0 x0 s0].
  - destruct Hc as (_ & _ & Hno & _). congruence.
  - destruct Hc as ([Hw Ht] & -> & Hx & Hinv & _).
    exists x0, s0. repeat split; try assumption.
    simpl in Hx. simpl. destruct Hx as [<-|Hx]; [|assumption].
    rewrite Hinv in Hv by reflexivity. discriminate.
Qed.

(** What [check_tag_exists] prints when it stops the release. *)
Lemma checks_tag_message e o version s :
  match checks e o version s with
  | Exited _ TagExists s' =>
      In (Err ("Tag " ++ ("v" ++ version) ++ " already exists")) (out s') /\
      In (Info ("Delete it with: git tag -d " ++ ("v" ++ version))) (out s')
  | _ => True
  end.
Proof.
  destruct s as [w0 out0 trace0 stdin0 jq0 branch0].
  exec; try exact I; unfold with_out; cbn [out];
    (split;
     [ apply in_or_app; left; apply in_or_app; right; left; reflexivity
     | apply in_or_app; right; left; reflexivity ]).
Qed.

(** *** The world a publish stage leaves *)

Lemma publish_world e version s :
  match publish e version s with
  | Done _ s' =>
      w s' = do_push_tag ("v" ++ version)
               (do_push_branch (CURRENT_BRANCH s)
                  (do_tag e version
                     (do_commit (commit_message version) (do_add (w s)))))
  | Exited _ GitAddFailed s' => w s' = w s
  | Exited _ GitCommitFailed s' => w s' = do_add (w s)
  | Exited _ GitTagFailed s' =>
      w s' = do_commit (commit_message version) (do_add (w s))
  | Exited _ GitPushBranchFailed s' =>
      w s' = do_tag e version
               (do_commit (commit_message version) (do_add (w s)))
  | Exited _ GitPushTagFailed s' =>
      w s' = do_push_branch (CURRENT_BRANCH s)
               (do_tag e version
                  (do_commit (commit_message version) (do_add (w s))))
  | Exited _ _ _ => False
  end.
Proof.
  destruct s as [w0 out0 trace0 stdin0 jq0 branch0].
  exec; reflexivity.
Qed.

(** The status [publish] ends with. *)
Lemma publish_code e version s :
  match publish e version s with
  | Done _ _ => True
  | Exited code x _ =>
      code <> 0%N /\
      code = match x with
             | GitAddFailed => git_add e
             | GitCommitFailed => git_commit e
             | GitTagFailed =>
                 git_tag_status e version
                   (do_commit (commit_message version) (do_add (w s)))
             | GitPushBranchFailed => git_push_branch e
             | GitPushTagFailed => git_push_tag e
             | _ => 0%N
             end
  end.
Proof.
  destruct s as [w0 out0 trace0 stdin0 jq0 branch0].
  exec; try exact I; statuses; auto.
Qed.

(** The files a mutation stage leaves. *)
Lemma mutate_world e version s :
  match mutate e version s with
  | Done _ s' =>
      exists pkg,
        new_package_json e (USE_JQ s) version (package_json (w s)) = Some pkg /\
        w s' = write_build_gradle
                 (new_build_gradle version (build_gradle (w s)))
                 (write_package_json pkg (w s)) /\
        CURRENT_BRANCH s' = CURRENT_BRANCH s
  | Exited _ _ _ => True
  end.
Proof.
  destruct s as [w0 out0 trace0 stdin0 jq0 branch0].
  unfold new_package_json, new_build_gradle, Sed.bump_gradle_line.
  exec; try exact I; eexists; (split; [reflexivity|]);
    rewrite ?map_map; split; reflexivity.
Qed.

Lemma no_such_tag name (ts : list tag) :
  existsb (String.eqb name) (map tag_name ts) = false ->
  filter (fun t => String.eqb (tag_name t) name) ts = [].
Proof.
  induction ts as [|t ts IH]; simpl; intros H; [reflexivity|].
  apply orb_false_iff in H as [Ht Hts].
  rewrite String.eqb_sym, Ht. auto.
Qed.

End RunFacts.

Module RunProperties.

Import Str StrFacts Release Stages ReleaseFacts ManifestFacts CommandLineFacts
  RunFacts Runs.

#[local] Opaque Version.semver_match Version.version_code String.eqb
  Sed.subst_package_version Sed.subst_version_code Sed.subst_version_name
  Sed.grep_version String.append String.concat.

(** X24. A dry run with [--force] is a check of the version and of the
    pre-flight conditions and nothing else: it ends with status 0 exactly
    when the version is well-formed, [git] and [node] are installed, the
    directory is a repository and [git rev-parse] resolves the name
    [v<version>] to nothing, be it a tag, a branch, or anything else
    [git] takes the name for, such as a path in the working directory;
    otherwise with status 1. A missing [jq], uncommitted changes and the
    branch play no part. *)
Theorem forced_dry_run_verdict (e : env) (o : options) (version : string)
  (s : state) :
  DRY_RUN o = true -> FORCE o = true ->
  exit_code (perform_release e o version s)
  = if Version.semver_match version && has_git e && has_node e
       && in_git_repo e && negb (rev_parse e (w s) ("v" ++ version))
    then 0%N else 1%N.
Proof.
  intros Hdry Hforce. rewrite perform_release_staged.
  unfold staged_release, bind.
  pose proof (checks_forced e o version s Hforce) as Hc.
  destruct (checks e o version s) as [a0 s0|c0 x0 s0].
  - destruct Hc as (Hcond & _). rewrite Hcond.
    rewrite confirm_skipped by auto. rewrite Hdry.
    destruct (dry_run_spec version s0) as (s1 & E & _). rewrite E.
    reflexivity.
  - destruct Hc as (Hcond & -> & _). rewrite Hcond. reflexivity.
Qed.

Lemma forced_dry_run_verdict_witness :
  exit_code (perform_release Sample.env_sed
               {| VERSION := "2.1.0"; SKIP_TESTS := false; SKIP_BUILD := false;
                  PRERELEASE := false; DRY_RUN := true; FORCE := true |}
               "2.1.0" Sample.state0) = 0%N /\
  exit_code (perform_release Sample.env_sed
               {| VERSION := "1.0.0"; SKIP_TESTS := false; SKIP_BUILD := false;
                  PRERELEASE := false; DRY_RUN := true; FORCE := true |}
               "1.0.0" Sample.state_tagged) = 1%N /\
  exit_code (perform_release Cases.env_path_v
               {| VERSION := "2.1.0"; SKIP_TESTS := false; SKIP_BUILD := false;
                  PRERELEASE := false; DRY_RUN := true; FORCE := true |}
               "2.1.0" Sample.state0) = 1%N.
Proof.
  split; [|split].
  - rewrite (forced_dry_run_verdict Sample.env_sed _ "2.1.0" Sample.state0)
      by reflexivity.
    vm_compute. reflexivity.
  - rewrite (forced_dry_run_verdict Sample.env_sed _ "1.0.0"
               Sample.state_tagged) by reflexivity.
    vm_compute. reflexivity.
  - rewrite (forced_dry_run_verdict Cases.env_path_v _ "2.1.0" Sample.state0)
      by reflexivity.
    vm_compute. reflexivity.
Defined.

(** X25. With [--force] on the command line none of the three [read]
    prompts of the script is reached: what is left to read after the run
    is what was there before it, however the run ends. *)
Theorem force_reads_no_input (e : env) (args : list string) (s : state) :
  In "--force" args -> stdin (final (main e args s)) = stdin s.
Proof.
  intros Hflag. unfold main, bind.
  pose proof (parse_args_stdin args default_options s) as Hin.
  destruct (parse_args args default_options s) as [o s0|c x s0] eqn:E;
    [|exact Hin].
  cbn [final] in Hin.
  assert (Hforce : FORCE o = true).
  { apply (parse_args_done _ _ _ _ _ E). right. assumption. }
  destruct (String.eqb (VERSION o) "").
  - destruct s0 as [w0 out0 trace0 stdin0 jq0 branch0].
    unfold show_usage. exec. exact Hin.
  - rewrite <- Hin. apply perform_release_forced_stdin. assumption.
Qed.

Lemma force_reads_no_input_witness :
  stdin (final (main Sample.env_ok ["2.1.0"; "--force"] Sample.state0)) = ["y"].
Proof.
  apply (force_reads_no_input Sample.env_ok ["2.1.0"; "--force"] Sample.state0).
  simpl. right. left. reflexivity.
Defined.

(** X26. [check_tag_exists] asks [git rev-parse] whether the name
    [v<version>] resolves, and a branch of that name resolves as a tag
    does: the release stops with status 1 during the checks, nothing
    written or run, and the error printed by [check_tag_exists] speaks of
    a tag that already exists. *)
Theorem branch_named_like_tag_blocks (e : env) (o : options) (version : string)
  (s : state) :
  Version.semver_match version = true ->
  In ("v" ++ version) (heads (w s)) ->
  exists x s',
    perform_release e o version s = Exited 1 x s' /\
    In x [MissingDependencies; NotAGitRepository; AbortedByUser; ReadFailed;
          TagExists] /\
    w s' = w s /\ trace s' = trace s /\
    (x = TagExists ->
     In (Err ("Tag " ++ ("v" ++ version) ++ " already exists")) (out s')).
Proof.
  intros Hv Hhead. apply (rev_parse_head e) in Hhead.
  destruct (resolved_name_blocks e o version s Hv Hhead)
    as (x & s' & E & Hx & Hw & Ht).
  exists x, s'. repeat split; try assumption.
  intros ->. rewrite perform_release_staged in E.
  unfold staged_release, bind in E.
  pose proof (checks_tag_message e o version s) as Hm.
  destruct (checks e o version s) as [a0 s0|c0 x0 s0].
  - pose proof (confirm_spec o version s0) as Hf.
    destruct (confirm_release o version s0) as [a1 s1|c1 x1 s1].
    + exfalso. destruct (DRY_RUN o).
      * destruct (dry_run_spec version s1) as (s2 & E2 & _).
        rewrite E2 in E. discriminate.
      * unfold ret, live, bind in E.
        pose proof (mutate_exit_spec e version s1) as Hmu.
        destruct (mutate e version s1) as [a2 s2|c2 x2 s2].
        -- pose proof (verify_spec e o s2) as Hve.
           destruct (verify e o s2) as [a3 s3|c3 x3 s3].
           ++ pose proof (publish_world e version s3) as Hpu.
              destruct (publish e version s3) as [a4 s4|c4 x4 s4].
              ** destruct (report_spec e version s4) as (s5 & E5 & _).
                 rewrite E5 in E. discriminate.
              ** injection E as -> -> ->. exact Hpu.
           ++ injection E as -> -> ->. intuition discriminate.
        -- injection E as -> -> ->. exact Hmu.
    + injection E as -> -> ->. simpl in Hf. intuition discriminate.
  - injection E as -> -> ->. apply Hm.
Qed.

Lemma branch_named_like_tag_blocks_witness :
  exists s',
    perform_release Sample.env_ok Sample.force "1.0.0" Cases.state_branch_v
    = Exited 1 TagExists s' /\
    w s' = Cases.world_branch_v /\
    In (Err "Tag v1.0.0 already exists") (out s').
Proof.
  destruct (branch_named_like_tag_blocks Sample.env_ok Sample.force "1.0.0"
              Cases.state_branch_v) as (x & s' & E & _ & Hw & _ & Hmsg).
  - vm_compute. reflexivity.
  - simpl. right. left. reflexivity.
  - assert (Hx : x = TagExists).
    { revert E. vm_compute. intros E. injection E as <- _. reflexivity. }
    subst x. exists s'. split; [exact E|]. split; [exact Hw|].
    apply Hmsg. reflexivity.
Defined.

(** X27. A forced release whose version is well-formed, whose pre-flight
    conditions hold ([git rev-parse] resolving the name [v<version>] to
    nothing: no tag, no branch, and nothing else [git] takes the name
    for), whose manifest can be bumped and shows the new version, and
    whose commands all succeed, runs to its end. It leaves
    the two descriptors bumped, one new commit holding them under the
    bump message, the annotated tag [v<version>] on that commit, the
    current branch pushed with the commit and the tag pushed; nothing is
    left staged. *)
Theorem release_completes (e : env) (o : options) (version : string)
  (s : state) (pkg : list string) :
  Version.semver_match version = true ->
  FORCE o = true -> DRY_RUN o = false ->
  has_git e = true -> has_node e = true -> in_git_repo e = true ->
  rev_parse e (w s) ("v" ++ version) = false ->
  new_package_json e (has_jq e) version (package_json (w s)) = Some pkg ->
  Sed.grep_version pkg <> [] ->
  SKIP_TESTS o = true \/ npm_test e = 0%N ->
  SKIP_BUILD o = true \/ gradlew e = 0%N ->
  git_add e = 0%N -> git_commit e = 0%N -> git_tag e = 0%N ->
  git_push_branch e = 0%N -> git_push_tag e = 0%N ->
  exists s',
    perform_release e o version s = Done tt s' /\
    let gradle := new_build_gradle version (build_gradle (w s)) in
    let c := {| message := commit_message version;
                c_package_json := pkg; c_build_gradle := gradle |} in
    let t := {| tag_name := "v" ++ version;
                annotation := tag_annotation e version; target := c |} in
    w s' = {| package_json := pkg; build_gradle := gradle; staged := None;
              commits := c :: commits (w s); tags := t :: tags (w s);
              heads := heads (w s);
              remote_branches :=
                (git_branch e, c :: commits (w s)) :: remote_branches (w s);
              remote_tags := t :: remote_tags (w s) |}.
Proof.
  intros Hv Hforce Hdry Hgit Hnode Hrepo Hrev Hpkg Hgrep Htests Hbuild
    Hadd Hcommit Htag Hpb Hpt.
  assert (Hfree : existsb (String.eqb ("v" ++ version))
                    (map tag_name (tags (w s))) = false).
  { unfold rev_parse in Hrev. apply orb_false_iff in Hrev as [Hrev _].
    apply orb_false_iff in Hrev. tauto. }
  rewrite perform_release_staged. unfold staged_release, live, bind.
  pose proof (checks_forced e o version s Hforce) as Hc.
  destruct (checks e o version s) as [a0 s0|c0 x0 s0].
  2: { destruct Hc as (Hcond & _).
       rewrite Hv, Hgit, Hnode, Hrepo, Hrev in Hcond. discriminate. }
  destruct Hc as (_ & [Hw0 Ht0] & _ & Hjq0 & Hbr0).
  rewrite confirm_skipped by auto. rewrite Hdry. unfold ret.
  pose proof (mutate_spec e version s0) as Hm.
  pose proof (mutate_world e version s0) as Hmw.
  destruct (mutate e version s0) as [a2 s2|c2 x2 s2].
  2: { exfalso.
       destruct Hm as (_ & _ & [Hnone|(pkg' & Hsome & Hempty)] & _);
         rewrite Hjq0, Hw0, Hpkg in *; congruence. }
  clear Hm. destruct Hmw as (pkg' & Hpkg' & Hw2 & Hbr2).
  rewrite Hjq0, Hw0, Hpkg in Hpkg'. injection Hpkg' as <-.
  rewrite Hw0 in Hw2.
  pose proof (verify_spec e o s2) as Hver.
  destruct (verify e o s2) as [a3 s3|c3 x3 s3].
  2: { exfalso.
       destruct Hver as (_ & _ & [(_ & Hs & Hn & _)|(_ & Hs & Hn & _)]);
         [destruct Htests | destruct Hbuild]; congruence. }
  destruct Hver as (Hw3 & _ & _ & Hbr3).
  pose proof (publish_world e version s3) as Hpw.
  pose proof (publish_code e version s3) as Hpc.
  destruct (publish e version s3) as [a4 s4|c4 x4 s4].
  2: { exfalso. destruct Hpc as (Hne & Hcode).
       rewrite Hw3, Hw2 in Hcode.
       destruct x4; try contradiction; try congruence.
       unfold git_tag_status in Hcode. destruct (w s); cbn in Hcode, Hfree.
       rewrite Hfree in Hcode. congruence. }
  destruct (report_spec e version s4) as (s5 & E & [Hw5 _]). rewrite E.
  exists s5. destruct a4. split; [reflexivity|]. cbv zeta.
  rewrite Hw5, Hpw, Hw3, Hw2, Hbr3, Hbr2, Hbr0.
  destruct (w s); cbn in Hfree |- *.
  unfold do_push_tag; cbn. rewrite String.eqb_refl.
  rewrite (no_such_tag _ _ Hfree). reflexivity.
Qed.

Lemma release_completes_witness :
  exists s',
    perform_release Sample.env_ok Sample.force "2.1.0" Sample.state0
    = Done tt s' /\
    map tag_name (tags (w s')) = ["v2.1.0"] /\
    map message (commits (w s'))
    = [commit_message "2.1.0"; "Initial commit"] /\
    map tag_name (remote_tags (w s')) = ["v2.1.0"] /\
    staged (w s') = None.
Proof.
  destruct (release_completes Sample.env_ok Sample.force "2.1.0" Sample.state0
              [ "{";
                "  " ++ Sed.quoted "name" ++ ": " ++ Sed.quoted "nativebridge"
                ++ ",";
                "  " ++ Sed.quoted "version" ++ ": " ++ Sed.quoted "2.1.0";
                "}" ])
    as (s' & E & Hw);
    try (vm_compute; reflexivity); try (right; vm_compute; reflexivity).
  - vm_compute. discriminate.
  - exists s'. split; [exact E|]. cbv zeta in Hw. rewrite Hw.
    repeat split; reflexivity.
Defined.

(** X28. A run that ends before the mutation stage, with the help text, a
    dry-run report, a usage error, a rejected version, a failed
    pre-flight check or a declined prompt, leaves the files, the index,
    the history, the tags and the remote as they were, and has run no
    command. *)
Theorem early_exit_changes_nothing (e : env) (args : list string) (s : state) :
  In (outcome_of (main e args s))
     [HelpShown; DryRunReport; Failed Usage; Failed Validation;
      Failed Precondition; Failed UserDeclined] ->
  w (final (main e args s)) = w s /\ trace (final (main e args s)) = trace s.
Proof.
  unfold main, bind.
  pose proof (parse_args_spec args default_options s) as Hp.
  destruct (parse_args args default_options s) as [o s0|c x s0].
  2: { intros _. apply Hp. }
  destruct (String.eqb (VERSION o) "").
  { intros _. destruct s0 as [w0 out0 trace0 stdin0 jq0 branch0].
    unfold show_usage. exec. exact Hp. }
  rewrite perform_release_staged. unfold staged_release, live, bind.
  pose proof (checks_spec e o (VERSION o) s0) as Hc.
  destruct (checks e o (VERSION o) s0) as [a1 s1|c1 x1 s1].
  2: { intros _. apply (same_tree_trans s s0); [exact Hp | apply Hc]. }
  destruct Hc as (Hc & _).
  pose proof (confirm_spec o (VERSION o) s1) as Hf.
  destruct (confirm_release o (VERSION o) s1) as [a2 s2|c2 x2 s2].
  2: { intros _. apply (same_tree_trans s s0); [exact Hp|].
       apply (same_tree_trans s0 s1); [exact Hc | apply Hf]. }
  destruct Hf as (Hf & _).
  assert (Hs2 : same_tree s s2).
  { apply (same_tree_trans s s0); [exact Hp|].
    apply (same_tree_trans s0 s1); assumption. }
  destruct (DRY_RUN o).
  { destruct (dry_run_spec (VERSION o) s2) as (s3 & E & Hd). rewrite E.
    intros _. apply (same_tree_trans s s2); assumption. }
  unfold ret.
  pose proof (mutate_spec e (VERSION o) s2) as Hm.
  destruct (mutate e (VERSION o) s2) as [a3 s3|c3 x3 s3].
  2: { cbn [outcome_of]. destruct Hm as (Hx & _). simpl in Hx.
       intros H. exfalso. destruct Hx as [<-|[<-|[]]]; simpl in H;
         intuition discriminate. }
  pose proof (verify_spec e o s3) as Hv.
  destruct (verify e o s3) as [a4 s4|c4 x4 s4].
  2: { cbn [outcome_of]. intros H. exfalso.
       destruct Hv as (_ & _ & [(-> & _)|(-> & _)]); simpl in H;
         intuition discriminate. }
  pose proof (publish_spec e (VERSION o) s4) as Hpu.
  destruct (publish e (VERSION o) s4) as [a5 s5|c5 x5 s5].
  2: { cbn [outcome_of]. intros H. exfalso.
       destruct Hpu as (_ & _ & _ & [(-> & _)|[(-> & _)|[(-> & _)|[(-> & _)
                                    |(-> & _)]]]]); simpl in H;
         intuition discriminate. }
  destruct (report_spec e (VERSION o) s5) as (s6 & E & _). rewrite E.
  cbn [outcome_of]. intros H. exfalso. simpl in H. intuition discriminate.
Qed.

Lemma early_exit_changes_nothing_witness :
  outcome_of (main Sample.env_ok ["2.1.0"] Cases.state_declining)
  = Failed UserDeclined /\
  w (final (main Sample.env_ok ["2.1.0"] Cases.state_declining))
  = Sample.world0 /\
  trace (final (main Sample.env_ok ["2.1.0"] Cases.state_declining)) = [].
Proof.
  split; [vm_compute; reflexivity|].
  apply (early_exit_changes_nothing Sample.env_ok ["2.1.0"]
           Cases.state_declining).
  vm_compute. auto 10.
Defined.

(** Where a run that got past [git tag] stands: the version had passed
    validation, and the tag is in the repository. *)
Lemma past_tagging_tagged e o version s :
  past_tagging (perform_release e o version s) ->
  Version.semver_match version = true /\
  In ("v" ++ version)
     (map tag_name (tags (w (final (perform_release e o version s))))).
Proof.
  rewrite perform_release_staged. unfold staged_release, live, bind.
  pose proof (checks_spec e o version s) as Hc.
  destruct (checks e o version s) as [a0 s0|c0 x0 s0].
  2: { cbn [past_tagging]. intros H. exfalso. destruct Hc as (_ & _ & Hx & _).
       simpl in Hx. destruct H; subst; intuition discriminate. }
  destruct Hc as (_ & Hv & _).
  pose proof (confirm_spec o version s0) as Hf.
  destruct (confirm_release o version s0) as [a1 s1|c1 x1 s1].
  2: { cbn [past_tagging]. intros H. exfalso. destruct Hf as (_ & _ & Hx).
       simpl in Hx. destruct H; subst; intuition discriminate. }
  destruct (DRY_RUN o).
  { destruct (dry_run_spec version s1) as (s2 & E & _). rewrite E.
    cbn [past_tagging]. intros [H|H]; discriminate. }
  unfold ret.
  pose proof (mutate_exit_spec e version s1) as Hm.
  destruct (mutate e version s1) as [a2 s2|c2 x2 s2].
  2: { cbn [past_tagging]. intros [H|H]; subst; contradiction. }
  pose proof (verify_spec e o s2) as Hver.
  destruct (verify e o s2) as [a3 s3|c3 x3 s3].
  2: { cbn [past_tagging]. intros H. exfalso.
       destruct Hver as (_ & _ & [(-> & _)|(-> & _)]);
         destruct H; discriminate. }
  assert (Htagged : forall W, In ("v" ++ version)
                      (map tag_name
                         (tags (do_tag e version
                                  (do_commit (commit_message version)
                                     (do_add W)))))).
  { intros W. destruct W. cbn. left. reflexivity. }
  pose proof (publish_world e version s3) as Hpw.
  destruct (publish e version s3) as [a4 s4|c4 x4 s4].
  - destruct (report_spec e version s4) as (s5 & E & [Hw5 _]). rewrite E.
    intros _. split; [assumption|]. cbn [final]. rewrite Hw5, Hpw.
    apply (Htagged (w s3)).
  - cbn [past_tagging final]. intros [->| ->]; (split; [assumption|]);
      rewrite Hpw; apply (Htagged (w s3)).
Qed.

(** X29. When a push fails, nothing is undone: the script ends with the status
    of [git push], the descriptors are bumped, the commit and the tag are
    in the local repository, and the tag has not reached the remote. If
    it is the push of the tag that failed, the branch has been pushed
    already: the remote holds the commit without its tag. *)
Theorem failed_push_keeps_commit_and_tag (e : env) (o : options)
  (version : string) (s s' : state) (code : N) (x : site) :
  perform_release e o version s = Exited code x s' ->
  x = GitPushBranchFailed \/ x = GitPushTagFailed ->
  code <> 0%N /\
  exists pkg,
    new_package_json e (has_jq e) version (package_json (w s)) = Some pkg /\
    let gradle := new_build_gradle version (build_gradle (w s)) in
    let c := {| message := commit_message version;
                c_package_json := pkg; c_build_gradle := gradle |} in
    let t := {| tag_name := "v" ++ version;
                annotation := tag_annotation e version; target := c |} in
    w s' = {| package_json := pkg; build_gradle := gradle; staged := None;
              commits := c :: commits (w s); tags := t :: tags (w s);
              heads := heads (w s);
              remote_branches :=
                match x with
                | GitPushTagFailed =>
                    (git_branch e, c :: commits (w s)) :: remote_branches (w s)
                | _ => remote_branches (w s)
                end;
              remote_tags := remote_tags (w s) |}.
Proof.
  intros Hrun Hx. rewrite perform_release_staged in Hrun.
  unfold staged_release, live, bind in Hrun.
  pose proof (checks_spec e o version s) as Hc.
  destruct (checks e o version s) as [a0 s0|c0 x0 s0].
  2: { injection Hrun as <- <- <-. simpl in Hc.
       destruct Hx; subst; intuition discriminate. }
  destruct Hc as ([Hw0 Ht0] & _ & _ & Hjq0 & Hbr0).
  pose proof (confirm_spec o version s0) as Hf.
  destruct (confirm_release o version s0) as [a1 s1|c1 x1 s1].
  2: { injection Hrun as <- <- <-. simpl in Hf.
       destruct Hx; subst; intuition discriminate. }
  destruct Hf as ([Hw1 Ht1] & Hjq1 & Hbr1).
  destruct (DRY_RUN o).
  { destruct (dry_run_spec version s1) as (s2 & E & _). rewrite E in Hrun.
    injection Hrun as <- <- <-. destruct Hx; discriminate. }
  unfold ret in Hrun.
  pose proof (mutate_exit_spec e version s1) as Hme.
  pose proof (mutate_world e version s1) as Hmw.
  destruct (mutate e version s1) as [a2 s2|c2 x2 s2].
  2: { injection Hrun as <- <- <-. destruct Hx; subst; contradiction. }
  clear Hme. destruct Hmw as (pkg & Hpkg & Hw2 & Hbr2).
  rewrite Hjq1, Hjq0, Hw1, Hw0 in Hpkg. rewrite Hw1, Hw0 in Hw2.
  pose proof (verify_spec e o s2) as Hver.
  destruct (verify e o s2) as [a3 s3|c3 x3 s3].
  2: { injection Hrun as <- <- <-.
       destruct Hver as (_ & _ & [(-> & _)|(-> & _)]);
         destruct Hx; discriminate. }
  destruct Hver as (Hw3 & _ & _ & Hbr3).
  pose proof (publish_world e version s3) as Hpw.
  pose proof (publish_code e version s3) as Hpc.
  destruct (publish e version s3) as [a4 s4|c4 x4 s4].
  { destruct (report_spec e version s4) as (s5 & E & _). rewrite E in Hrun.
    discriminate. }
  injection Hrun as <- <- <-. destruct Hpc as (Hne & _).
  split; [assumption|]. exists pkg. split; [assumption|]. cbv zeta.
  destruct Hx; subst x4; rewrite Hpw, Hw3, Hw2, ?Hbr3, ?Hbr2, ?Hbr1, ?Hbr0;
    destruct (w s); reflexivity.
Qed.

Lemma failed_push_keeps_commit_and_tag_witness :
  exists s',
    perform_release Sample.env_push_fails Sample.force "2.1.0" Sample.state0
    = Exited 128 GitPushBranchFailed s' /\
    map tag_name (tags (w s')) = ["v2.1.0"] /\
    remote_tags (w s') = [] /\
    remote_branches (w s') = [("main", [Sample.initial_commit])].
Proof.
  eexists. split; [vm_compute; reflexivity|].
  destruct (failed_push_keeps_commit_and_tag Sample.env_push_fails Sample.force
              "2.1.0" Sample.state0 _ 128 GitPushBranchFailed
              ltac:(vm_compute; reflexivity) (or_introl eq_refl))
    as (_ & pkg & _ & Hw).
  cbv zeta in Hw. rewrite Hw. repeat split; reflexivity.
Defined.

(** X30. Once a run has got past [git tag], having completed or having
    failed at a push, a second run for the same version is refused: it
    stops with status 1 during the checks, whatever its options and
    environment, and changes nothing. The tag has to be deleted by hand
    first. *)
Theorem rerun_after_tagging_refused (e e2 : env) (o o2 : options)
  (version : string) (s s2 : state) :
  past_tagging (perform_release e o version s) ->
  w s2 = w (final (perform_release e o version s)) ->
  exists x s3,
    perform_release e2 o2 version s2 = Exited 1 x s3 /\
    In x [MissingDependencies; NotAGitRepository; AbortedByUser; ReadFailed;
          TagExists] /\
    w s3 = w s2 /\ trace s3 = trace s2.
Proof.
  intros Hpast Hw. destruct (past_tagging_tagged _ _ _ _ Hpast) as [Hv Htag].
  apply resolved_name_blocks; [assumption|].
  rewrite Hw. apply rev_parse_tagged. assumption.
Qed.

Lemma rerun_after_tagging_refused_witness :
  exists x s3,
    perform_release Sample.env_ok Sample.force "2.1.0"
      (final (perform_release Sample.env_push_fails Sample.force "2.1.0"
                Sample.state0))
    = Exited 1 x s3 /\
    In x [MissingDependencies; NotAGitRepository; AbortedByUser; ReadFailed;
          TagExists].
Proof.
  destruct (rerun_after_tagging_refused Sample.env_push_fails Sample.env_ok
              Sample.force Sample.force "2.1.0" Sample.state0
              (final (perform_release Sample.env_push_fails Sample.force
                        "2.1.0" Sample.state0)))
    as (x & s3 & E & Hx & _).
  - vm_compute. left. reflexivity.
  - reflexivity.
  - exists x, s3. split; assumption.
Defined.

End RunProperties.
